(** * Supply Chain Procurement Dashboard (SCM.py): a shallow embedding

    The script reads a spreadsheet into a pandas DataFrame, checks that the
    required columns are there, drops summary rows and rows without a sales
    order number, parses the date columns, filters on three multiselects and
    shows delay, supplier, ranking, reconciliation and summary figures.

    Modelling choices, all taken from the source:
    - a DataFrame is its list of column names and its rows, in order; each
      row carries its index label (pandas keeps the labels of [read_excel]'s
      RangeIndex through every boolean selection);
    - a cell is a missing value (NaN, None, NaT), a string, an integer, a
      float or a timestamp in nanoseconds since the epoch.  A float is a
      binary64 number of IEEE 754 in normal form; the integers of a column
      of numbers are taken within int64;
    - [read_excel] gives a column of integers the dtype int64 and a column
      of numbers and blanks the dtype float64, and a total is computed in
      the arithmetic of its column: int64 sums and differences wrap around,
      the subtraction of floats is that of IEEE 754, and the two float sums
      of pandas ([GroupBy.sum] and [Series.sum]) are parameters of the model
      (class [FloatSums]).  A sum over a column of dtype object (text or
      dates among the numbers) is not followed: it stands as a TypeError;
    - a string is its UTF-8 bytes, and whitespace is what [str.isspace]
      accepts: the ASCII whitespace and the Unicode spaces and separators;
    - timestamps are taken within the range of pandas, and two dates of a
      row no further apart than a Timedelta can hold; column names are taken
      to be pairwise distinct once stripped;
    - a streamlit call is an event of the run's log; an unhandled Python
      exception ends the run with the log written so far;
    - the block of lines 112 to 133 (receipts against quantities) is read at
      the depth of the comment that opens it (line 111) and of the blocks
      around it, that is inside the [else] of the column check. *)

From Stdlib Require Import List String Ascii ZArith QArith Bool Arith Lia
  Permutation SpecFloat.
Import ListNotations.

Local Open Scope string_scope.
Local Open Scope Z_scope.

(** ** Cells *)

(** A float64 is a binary64 number of IEEE 754, as [SpecFloat] has them. *)
Definition f64_of_Z (n : Z) : spec_float := binary_normalize 53 1024 n 0 false.
Definition f64_add : spec_float -> spec_float -> spec_float := SFadd 53 1024.
Definition f64_sub : spec_float -> spec_float -> spec_float := SFsub 53 1024.
Definition f64_zero : spec_float := S754_zero false.

(** The same float: same sign, mantissa and exponent. *)
Definition float_eqb (x y : spec_float) : bool :=
  match x, y with
  | S754_zero s, S754_zero t => Bool.eqb s t
  | S754_infinity s, S754_infinity t => Bool.eqb s t
  | S754_nan, S754_nan => true
  | S754_finite s m e, S754_finite t n f =>
      Bool.eqb s t && Pos.eqb m n && Z.eqb e f
  | _, _ => false
  end.

Inductive cell : Type :=
| NA                      (* NaN, None or NaT *)
| Str (s : string)
| Num (n : Z)             (* an integer *)
| Flt (f : spec_float)    (* a float *)
| Timestamp (ns : Z).

Definition cell_eqb (a b : cell) : bool :=
  match a, b with
  | NA, NA => true
  | Str s, Str t => String.eqb s t
  | Num n, Num m => Z.eqb n m
  | Flt f, Flt g => float_eqb f g
  | Timestamp n, Timestamp m => Z.eqb n m
  | _, _ => false
  end.

Definition isna (c : cell) : bool :=
  match c with NA => true | _ => false end.

Definition is_str (c : cell) : bool :=
  match c with Str _ => true | _ => false end.

Definition is_int (c : cell) : bool :=
  match c with Num _ => true | _ => false end.

Definition is_num (c : cell) : bool :=
  match c with Num _ | Flt _ => true | _ => false end.

Definition is_time (c : cell) : bool :=
  match c with Timestamp _ => true | _ => false end.

(** [Series.isin(values)]: pandas matches a missing value against a missing
    value of the list. *)
Definition isin (values : list cell) (c : cell) : bool :=
  existsb (cell_eqb c) values.

(** ** Strings *)

(** [re.search] of a pattern without metacharacters: a substring test. *)
Fixpoint contains (pat s : string) : bool :=
  String.prefix pat s ||
  match s with
  | EmptyString => false
  | String _ s' => contains pat s'
  end.

(** Python's whitespace among the ASCII characters: tab to carriage return,
    the four separators and the space.  A string is its UTF-8 bytes. *)
Definition isspace (a : ascii) : bool :=
  let n := nat_of_ascii a in
  ((9 <=? n) && (n <=? 13) || (28 <=? n) && (n <=? 32))%nat.

(** Python's whitespace encoded on two bytes: U+0085 and U+00A0. *)
Definition isspace2 (a b : ascii) : bool :=
  let x := nat_of_ascii a in
  let y := nat_of_ascii b in
  ((x =? 194) && ((y =? 133) || (y =? 160)))%nat.

(** Python's whitespace encoded on three bytes: U+1680, U+2000 to U+200A,
    U+2028, U+2029, U+202F, U+205F and U+3000. *)
Definition isspace3 (a b c : ascii) : bool :=
  let x := nat_of_ascii a in
  let y := nat_of_ascii b in
  let z := nat_of_ascii c in
  ((x =? 225) && (y =? 154) && (z =? 128)
   || (x =? 226) && (y =? 128)
      && ((128 <=? z) && (z <=? 138) || (z =? 168) || (z =? 169) || (z =? 175))
   || (x =? 226) && (y =? 129) && (z =? 159)
   || (x =? 227) && (y =? 128) && (z =? 128))%nat.

Fixpoint lstrip (s : string) : string :=
  match s with
  | EmptyString => EmptyString
  | String a s1 =>
      if isspace a then lstrip s1 else
      match s1 with
      | EmptyString => s
      | String b s2 =>
          if isspace2 a b then lstrip s2 else
          match s2 with
          | EmptyString => s
          | String c s3 => if isspace3 a b c then lstrip s3 else s
          end
      end
  end.

(** The string holds whitespace only. *)
Definition all_space (s : string) : bool :=
  match lstrip s with EmptyString => true | _ => false end.

(** The longest prefix that does not end in whitespace: a continuation byte
    of UTF-8 starts no whitespace character, so the suffixes that are all
    whitespace start at character boundaries. *)
Fixpoint rstrip (s : string) : string :=
  match s with
  | EmptyString => EmptyString
  | String a s' => if all_space s then EmptyString else String a (rstrip s')
  end.

(** [str.strip()] *)
Definition strip (s : string) : string := rstrip (lstrip s).

(** [sep.join(l)] *)
Fixpoint join (sep : string) (l : list string) : string :=
  match l with
  | [] => ""
  | [x] => x
  | x :: l' => x ++ sep ++ join sep l'
  end.

(** ** DataFrames *)

Record Row : Type := mkRow { label : nat; cells : list cell }.

Record DataFrame : Type := mkDF { columns : list string; rows : list Row }.

Definition with_rows (df : DataFrame) (rs : list Row) : DataFrame :=
  mkDF (columns df) rs.

Definition has_column (c : string) (cols : list string) : bool :=
  existsb (String.eqb c) cols.

(** Position of a column name. *)
Fixpoint col_index (c : string) (cols : list string) : option nat :=
  match cols with
  | [] => None
  | x :: cols' =>
      if String.eqb c x then Some O
      else option_map S (col_index c cols')
  end.

Definition cell_at (i : nat) (r : Row) : cell := nth i (cells r) NA.

(** What the spreadsheet reader hands over: a header and the body rows. *)
Record Sheet : Type := mkSheet {
  header : list string;
  body : list (list cell)
}.

Fixpoint number_rows (k : nat) (b : list (list cell)) : list Row :=
  match b with
  | [] => []
  | cs :: b' => mkRow k cs :: number_rows (S k) b'
  end.

(** The column of a sheet at a position; a row that stops before it is blank
    there. *)
Definition sheet_column (j : nat) (b : list (list cell)) : list cell :=
  map (fun cs => nth j cs NA) b.

(** The reader gives a column of integers the dtype int64, and a column of
    numbers and blanks that are not all integers the dtype float64: there
    every integer is stored as the float nearest to it. *)
Definition float_column (col : list cell) : bool :=
  forallb (fun c => is_num c || isna c) col && negb (forallb is_int col).

Definition as_float (c : cell) : cell :=
  match c with
  | Num n => Flt (f64_of_Z n)
  | _ => c
  end.

Fixpoint infer_cells (b : list (list cell)) (j : nat) (cs : list cell)
  : list cell :=
  match cs with
  | [] => []
  | c :: cs' =>
      (if float_column (sheet_column j b) then as_float c else c)
      :: infer_cells b (S j) cs'
  end.

Definition infer_column (col : list cell) : list cell :=
  if float_column col then map as_float col else col.

(** [pd.read_excel]: the rows get the labels 0, 1, 2, ... *)
Definition read_excel (sh : Sheet) : DataFrame :=
  mkDF (header sh) (number_rows 0 (map (infer_cells (body sh) 0) (body sh))).

(** ** Exceptions and the run's log *)

Inductive exn : Type :=
| KeyError (key : string)
| AttributeError
| TypeError.

Inductive result (A : Type) : Type :=
| Ok (a : A)
| Raise (e : exn).

Arguments Ok {A} a.
Arguments Raise {A} e.

Definition rbind {A B : Type} (r : result A) (k : A -> result B) : result B :=
  match r with
  | Ok a => k a
  | Raise e => Raise e
  end.

Declare Scope result_scope.
Delimit Scope result_scope with result.
Notation "'let?' x := r 'in' k" := (rbind r (fun x => k))
  (at level 10, x name, r at level 100, k at level 200) : result_scope.
Local Open Scope result_scope.

(** [df[name]] raises [KeyError] on a name that is not a column. *)
Definition getcol (name : string) (df : DataFrame) : result nat :=
  match col_index name (columns df) with
  | Some i => Ok i
  | None => Raise (KeyError name)
  end.

(** ** Schema check (lines 24 to 31) *)

Definition required_columns : list string :=
  ["Sales Order No"; "Customer Name"; "PO Number"; "PO Total Amount (EGP)";
   "Invoice Amount"; "Delivery Date"; "PO Date"; "Estimated Delivery Date";
   "Quantity"; "Received Quantity"].

(** [df.columns = df.columns.str.strip()] *)
Definition strip_columns (df : DataFrame) : DataFrame :=
  mkDF (map strip (columns df)) (rows df).

(** [[col for col in required_columns if col not in df.columns]] *)
Definition missing_columns (cols : list string) : list string :=
  filter (fun col => negb (has_column col cols)) required_columns.

Definition missing_message (missing : list string) : string :=
  "Missing columns in the uploaded file: " ++ join ", " missing.

(** ** Normalisation (lines 33 to 43) *)

(** The [.str] accessor exists on a column of strings or of mixed values
    (dtype object) and on a column without rows; on a column that holds only
    numbers, only timestamps or only missing values it raises. *)
Definition has_str_accessor (col : list cell) : bool :=
  match col with
  | [] => true
  | _ => existsb is_str col || (existsb is_num col && existsb is_time col)
  end.

(** [Series.str.contains(pat, na=False)]: a cell that is not a string counts
    as no match. *)
Definition str_contains (pat : string) (c : cell) : bool :=
  match c with
  | Str s => contains pat s
  | _ => false
  end.

(** [df[~df['Sales Order No'].str.contains('Summary', na=False)]] *)
Definition drop_summary (df : DataFrame) : result DataFrame :=
  let? i := getcol "Sales Order No" df in
  if has_str_accessor (map (cell_at i) (rows df)) then
    Ok (with_rows df
          (filter (fun r => negb (str_contains "Summary" (cell_at i r)))
                  (rows df)))
  else Raise AttributeError.

(** [df.dropna(subset=["Sales Order No"])] *)
Definition dropna_sales_order (df : DataFrame) : result DataFrame :=
  let? i := getcol "Sales Order No" df in
  Ok (with_rows df (filter (fun r => negb (isna (cell_at i r))) (rows df))).

Definition date_columns : list string :=
  ["Delivery Date"; "PO Date"; "Estimated Delivery Date"].

Definition of_datetime (o : option Z) : cell :=
  match o with
  | Some ns => Timestamp ns
  | None => NA
  end.

Fixpoint set_nth (i : nat) (c : cell) (cs : list cell) : list cell :=
  match i, cs with
  | O, _ :: cs' => c :: cs'
  | S i', x :: cs' => x :: set_nth i' c cs'
  | _, [] => []
  end.

(** [df[col] = values]: the values go to the rows in order. *)
Fixpoint assign_column (i : nat) (values : list cell) (rs : list Row)
  : list Row :=
  match rs, values with
  | r :: rs', v :: values' =>
      mkRow (label r) (set_nth i v (cells r)) :: assign_column i values' rs'
  | _, _ => rs
  end.

Section Normalizer.

(** [pd.to_datetime(column, errors='coerce')], the parser of pandas: every
    cell becomes a timestamp or NaT. *)
Variable to_datetime : list cell -> list (option Z).

Definition convert_date (col : string) (df : DataFrame) : DataFrame :=
  match col_index col (columns df) with
  | Some i =>
      with_rows df
        (assign_column i
           (map of_datetime (to_datetime (map (cell_at i) (rows df))))
           (rows df))
  | None => df
  end.

Definition convert_dates (df : DataFrame) : DataFrame :=
  fold_left (fun d col => convert_date col d) date_columns df.

Definition normalize (df : DataFrame) : result DataFrame :=
  let? d1 := drop_summary df in
  let? d2 := dropna_sales_order d1 in
  Ok (convert_dates d2).

End Normalizer.

(** ** Filters (lines 48 to 62) *)

Record Controls : Type := mkControls {
  sales_order_no : list cell;      (* the three multiselects *)
  customer_name : list cell;
  supplier : list cell;
  delay_threshold : Z              (* the slider, 0 to 90 *)
}.

(** [Series.unique()]: the values in order of first appearance. *)
Fixpoint unique (cs : list cell) : list cell :=
  match cs with
  | [] => []
  | c :: cs' => c :: filter (fun x => negb (cell_eqb x c)) (unique cs')
  end.

Definition column_values (i : nat) (df : DataFrame) : list cell :=
  map (cell_at i) (rows df).

(** [if values: filtered_df = filtered_df[filtered_df[col].isin(values)]] *)
Definition select_isin (col : string) (values : list cell) (df : DataFrame)
  : result DataFrame :=
  match values with
  | [] => Ok df
  | _ :: _ =>
      let? i := getcol col df in
      Ok (with_rows df (filter (fun r => isin values (cell_at i r)) (rows df)))
  end.

Definition filtered_df (ctl : Controls) (df : DataFrame) : result DataFrame :=
  let? d1 := select_isin "Sales Order No" (sales_order_no ctl) df in
  let? d2 := select_isin "Customer Name" (customer_name ctl) d1 in
  select_isin "Supplier" (supplier ctl) d2.

(** ** Delay detection (lines 72 to 82) *)

Definition ns_per_day : Z := 86400 * 1000000000.

Definition as_datetime (c : cell) : option Z :=
  match c with
  | Timestamp ns => Some ns
  | _ => None
  end.

(** [(est - act).dt.days > threshold]: [Timedelta.days] rounds down, and the
    comparison is False where a date is NaT. *)
Definition days_exceed (threshold : Z) (est act : cell) : bool :=
  match as_datetime est, as_datetime act with
  | Some e, Some a => threshold <? (e - a) / ns_per_day
  | _, _ => false
  end.

Definition delayed_shipments (threshold : Z) (df : DataFrame)
  : result (list Row) :=
  let? ie := getcol "Estimated Delivery Date" df in
  let? ia := getcol "Delivery Date" df in
  Ok (filter (fun r => days_exceed threshold (cell_at ie r) (cell_at ia r))
             (rows df)).

(** ** Group-by helpers *)

Definition notna (c : cell) : bool := negb (isna c).

(** Rank of a value's type in a sorted index of mixed values: pandas puts
    numbers before strings. *)
Definition kind_rank (c : cell) : nat :=
  match c with
  | Num _ | Flt _ => 0
  | Timestamp _ => 1
  | Str _ => 2
  | NA => 3
  end.

Definition cell_leb (a b : cell) : bool :=
  match a, b with
  | Num n, Num m => n <=? m
  | Flt f, Flt g => SFleb f g
  | Num n, Flt g => SFleb (f64_of_Z n) g
  | Flt f, Num m => SFleb f (f64_of_Z m)
  | Timestamp n, Timestamp m => n <=? m
  | Str s, Str t => String.leb s t
  | _, _ => (kind_rank a <=? kind_rank b)%nat
  end.

Fixpoint insert_key (k : cell) (l : list cell) : list cell :=
  match l with
  | [] => [k]
  | x :: l' => if cell_leb k x then k :: l else x :: insert_key k l'
  end.

Definition sort_keys (l : list cell) : list cell :=
  fold_right insert_key [] l.

(** The keys of [df.groupby(col)]: the distinct values that are not missing,
    sorted. *)
Definition group_keys (col : list cell) : list cell :=
  sort_keys (unique (filter notna col)).

Definition group_rows (i : nat) (k : cell) (df : DataFrame) : list Row :=
  filter (fun r => cell_eqb (cell_at i r) k) (rows df).

(** [Series.nunique()]: missing values are not counted. *)
Definition nunique (col : list cell) : nat :=
  List.length (unique (filter notna col)).

Fixpoint mapM {A B : Type} (f : A -> result B) (l : list A) : result (list B) :=
  match l with
  | [] => Ok []
  | x :: l' => let? y := f x in let? ys := mapM f l' in Ok (y :: ys)
  end.

(** ** Numbers *)

(** A total is an int64 or a float64, after the dtype of the column. *)
Inductive number : Type :=
| Int64 (n : Z)
| Float64 (f : spec_float).

(** Arithmetic on int64 wraps around. *)
Definition wrap64 (z : Z) : Z := (z + 2 ^ 63) mod 2 ^ 64 - 2 ^ 63.

Definition to_f64 (x : number) : spec_float :=
  match x with
  | Int64 n => f64_of_Z n
  | Float64 f => f
  end.

(** [x - y] on two columns: int64 when both are, float64 otherwise. *)
Definition number_sub (x y : number) : number :=
  match x, y with
  | Int64 a, Int64 b => Int64 (wrap64 (a - b))
  | _, _ => Float64 (f64_sub (to_f64 x) (to_f64 y))
  end.

(** [x != 0]: True on NaN. *)
Definition number_nonzero (x : number) : bool :=
  match x with
  | Int64 n => negb (n =? 0)
  | Float64 f => negb (SFeqb f f64_zero)
  end.

Definition number_leb (x y : number) : bool :=
  match x, y with
  | Int64 a, Int64 b => a <=? b
  | _, _ => SFleb (to_f64 x) (to_f64 y)
  end.

Definition is_nan (x : number) : bool :=
  match x with
  | Float64 S754_nan => true
  | _ => false
  end.

Definition int_column (col : list cell) : bool := forallb is_int col.

Definition numeric_column (col : list cell) : bool :=
  forallb (fun c => is_num c || isna c) col.

(** The values of a column that are not missing. *)
Definition int_values (col : list cell) : list Z :=
  flat_map (fun c => match c with Num n => [n] | _ => [] end) col.

Definition float_values (col : list cell) : list spec_float :=
  flat_map (fun c => match c with
                     | Num n => [f64_of_Z n]
                     | Flt f => [f]
                     | _ => []
                     end) col.

(** The sums of floats of pandas: that of a group ([GroupBy.sum]) and that of
    a column ([Series.sum]).  In which order the floats are added, and with
    which compensation, is the library's business. *)
Class FloatSums : Type := {
  group_sum : list spec_float -> spec_float;
  series_sum : list spec_float -> spec_float
}.

(** The sum of the cells [part] of a column [col], missing values skipped:
    an int64 that wraps around on a column of integers, a float64 on a
    column of numbers and blanks.  The sum over a column with a string or a
    timestamp (dtype object) is not followed: it stands as a [TypeError]. *)
Definition sum_cells (float_sum : list spec_float -> spec_float)
    (col part : list cell) : result number :=
  if int_column col then
    Ok (Int64 (wrap64 (fold_right Z.add 0 (int_values part))))
  else if numeric_column col then
    Ok (Float64 (float_sum (float_values part)))
  else Raise TypeError.

Section Pandas.

Context {sums : FloatSums}.

(** ** Supplier performance (lines 88 to 95) *)

(** A float64 as far as the rate needs it: not-a-number, plus infinity, or a
    number, kept as the exact rational that the float rounds. *)
Inductive float64 : Type :=
| NaN
| Inf
| Fin (q : Q).

(** [a / b] on two columns of counts: the quotient as a float; anything over
    zero is [inf], zero over zero is [NaN]. *)
Definition true_div (a b : nat) : float64 :=
  match b with
  | O => match a with O => NaN | S _ => Inf end
  | S _ => Fin (Z.of_nat a # Pos.of_nat b)
  end.

Definition fmul (x : float64) (k : Z) : float64 :=
  match x with
  | Fin q => Fin (q * inject_Z k)%Q
  | Inf => if 0 <? k then Inf else NaN
  | NaN => NaN
  end.

Record SupplierKPI : Type := mkKPI {
  kpi_supplier : cell;
  total_orders : nat;
  total_procurement : number;
  on_time_deliveries : nat;
  delayed_deliveries : nat;
  on_time_rate : float64            (* "On-Time Delivery Rate (%)" *)
}.

(** [filtered_df.loc[label, col]] *)
Definition loc (df : DataFrame) (lbl : nat) (i : nat) : cell :=
  match find (fun r => Nat.eqb (label r) lbl) (rows df) with
  | Some r => cell_at i r
  | None => NA
  end.

(** [x <= y] and [x > y] on dates: False where one of them is NaT. *)
Definition date_le (x y : cell) : bool :=
  match as_datetime x, as_datetime y with
  | Some a, Some b => a <=? b
  | _, _ => false
  end.

Definition date_gt (x y : cell) : bool :=
  match as_datetime x, as_datetime y with
  | Some a, Some b => b <? a
  | _, _ => false
  end.

(** The aggregation lambdas: the group's delivery dates against the estimated
    dates that [loc] finds under the same labels in [filtered_df]. *)
Definition count_against (cmp : cell -> cell -> bool) (df : DataFrame)
    (idel iest : nat) (g : list Row) : nat :=
  List.length
    (filter (fun r => cmp (cell_at idel r) (loc df (label r) iest)) g).

Definition supplier_kpi (df : DataFrame) (ipo iamt idel iest : nat)
    (k : cell) (g : list Row) : result SupplierKPI :=
  let? amount :=
    sum_cells group_sum (column_values iamt df) (map (cell_at iamt) g) in
  let orders := nunique (map (cell_at ipo) g) in
  let on_time := count_against date_le df idel iest g in
  let delayed := count_against date_gt df idel iest g in
  Ok (mkKPI k orders amount on_time delayed
        (fmul (true_div on_time orders) 100)).

(** Without a group the two counts come out as columns of dates, and the
    division of line 95 raises. *)
Definition supplier_performance (df : DataFrame) : result (list SupplierKPI) :=
  let? isup := getcol "Supplier" df in
  let? ipo := getcol "PO Number" df in
  let? iamt := getcol "PO Total Amount (EGP)" df in
  let? idel := getcol "Delivery Date" df in
  let? iest := getcol "Estimated Delivery Date" df in
  match group_keys (column_values isup df) with
  | [] => Raise TypeError
  | keys =>
      mapM (fun k => supplier_kpi df ipo iamt idel iest k (group_rows isup k df))
           keys
  end.

(** ** Rankings (lines 104 and 108) *)

Fixpoint insert_desc (x : cell * number) (l : list (cell * number))
  : list (cell * number) :=
  match l with
  | [] => [x]
  | y :: l' =>
      if number_leb (snd y) (snd x) then x :: l else y :: insert_desc x l'
  end.

(** [nlargest(n)]: the largest values first, equal values in the order they
    had, NaN last. *)
Definition nlargest (n : nat) (s : list (cell * number))
  : list (cell * number) :=
  firstn n
    (fold_right insert_desc [] (filter (fun e => negb (is_nan (snd e))) s)
     ++ filter (fun e => is_nan (snd e)) s).

Definition top_suppliers (perf : list SupplierKPI) : list (cell * number) :=
  nlargest 5 (map (fun p => (kpi_supplier p, total_procurement p)) perf).

Definition top_customers (df : DataFrame) : result (list (cell * number)) :=
  let? icust := getcol "Customer Name" df in
  let? iamt := getcol "PO Total Amount (EGP)" df in
  let? totals :=
    mapM (fun k =>
            let? s := sum_cells group_sum (column_values iamt df)
                        (map (cell_at iamt) (group_rows icust k df)) in
            Ok (k, s))
         (group_keys (column_values icust df)) in
  Ok (nlargest 5 totals).

(** ** Receipts against quantities (lines 115 to 133) *)

Record ReconciliationRow : Type := mkRecon {
  po_number : cell;
  total_quantity : number;
  total_received : number;
  Difference : number
}.

Definition reconciliation_columns : list string :=
  ["PO Number"; "Quantity"; "Received Quantity"].

(** [all(col in filtered_df.columns for col in [...])] *)
Definition reconciliation_guard (df : DataFrame) : bool :=
  forallb (fun col => has_column col (columns df)) reconciliation_columns.

Definition reconciliation_row (df : DataFrame) (iq ir : nat) (k : cell)
    (g : list Row) : result ReconciliationRow :=
  let? q := sum_cells group_sum (column_values iq df) (map (cell_at iq) g) in
  let? r := sum_cells group_sum (column_values ir df) (map (cell_at ir) g) in
  Ok (mkRecon k q r (number_sub q r)).

Definition receipts_vs_quantity (df : DataFrame)
  : result (list ReconciliationRow) :=
  let? ipo := getcol "PO Number" df in
  let? iq := getcol "Quantity" df in
  let? ir := getcol "Received Quantity" df in
  mapM (fun k => reconciliation_row df iq ir k (group_rows ipo k df))
       (group_keys (column_values ipo df)).

(** [receipts_vs_quantity[receipts_vs_quantity["Difference"] != 0]] *)
Definition mismatches (l : list ReconciliationRow) : list ReconciliationRow :=
  filter (fun row => number_nonzero (Difference row)) l.

(** ** Summary figures (lines 142 to 147) *)

Definition total_sales_orders (df : DataFrame) : result nat :=
  let? i := getcol "Sales Order No" df in
  Ok (List.length (unique (column_values i df))).

Definition total_po_amount (df : DataFrame) : result number :=
  let? i := getcol "PO Total Amount (EGP)" df in
  sum_cells series_sum (column_values i df) (column_values i df).

Definition delayed_count (df : DataFrame) : result nat :=
  let? idel := getcol "Delivery Date" df in
  let? iest := getcol "Estimated Delivery Date" df in
  Ok (List.length
        (filter (fun r => date_gt (cell_at idel r) (cell_at iest r))
                (rows df))).

End Pandas.

(** ** The script *)

Inductive message : Type :=
| Text (s : string)
| TotalDelayed (threshold : Z) (n : nat)      (* the f-string of line 77 *)
| TotalMismatches (n : nat).                  (* the f-string of line 130 *)

Inductive view : Type :=
| Frame (df : DataFrame)
| Performance (l : list SupplierKPI)
| Rates (l : list (cell * float64))
| Amounts (l : list (cell * number))
| Reconciliation (l : list ReconciliationRow).

Inductive figure : Type :=
| Count (n : nat)
| AmountEGP (z : number).        (* shown as f"{z:,.2f} EGP" *)

Inductive event : Type :=
| st_title (s : string)
| st_file_uploader (s : string)
| st_sidebar_header (s : string)
| st_multiselect (s : string) (options : list cell)
| st_slider (s : string) (lo hi default : Z)
| st_write (m : message)
| st_dataframe (v : view)
| st_error (s : string)
| st_warning (s : string)
| st_bar_chart (v : view)
| st_metric (s : string) (f : figure)
| st_download_button (s : string) (data : view) (file_name : string).

(** A run: the events shown so far and either a value or the exception that
    stopped it. *)
Definition M (A : Type) : Type := (list event * result A)%type.

Definition ret {A : Type} (a : A) : M A := ([], Ok a).

Definition bind {A B : Type} (m : M A) (k : A -> M B) : M B :=
  match m with
  | (l, Ok a) => let (l', r) := k a in ((l ++ l')%list, r)
  | (l, Raise e) => (l, Raise e)
  end.

Definition emit (e : event) : M unit := ([e], Ok tt).

Definition lift {A : Type} (r : result A) : M A := ([], r).

Definition log {A : Type} (m : M A) : list event := fst m.

Declare Scope run_scope.
Delimit Scope run_scope with run.
Notation "x <- m ;; k" := (bind m (fun x => k))
  (at level 61, m at next level, right associativity) : run_scope.
Notation "m ;; k" := (bind m (fun _ => k))
  (at level 61, right associativity) : run_scope.
Local Open Scope run_scope.

Section Dashboard.

Context {sums : FloatSums}.

Definition alert_message : string :=
  "🚨 ALERT: More than 5 delayed shipments detected!".

Definition reconciliation_error : string :=
  "The required columns for Receipts vs. Invoice Comparison are missing.".

(** Lines 68 to 82. *)
Definition delay_analysis (ctl : Controls) (df : DataFrame) : M unit :=
  emit (st_write (Text "### Shipment Delay Analysis"));;
  emit (st_slider "Set Delay Threshold (Days)" 0 90 30);;
  ds <- lift (delayed_shipments (delay_threshold ctl) df);;
  emit (st_write (TotalDelayed (delay_threshold ctl) (List.length ds)));;
  emit (st_dataframe (Frame (with_rows df ds)));;
  if (5 <? List.length ds)%nat then emit (st_warning alert_message)
  else ret tt.

(** Lines 84 to 100. *)
Definition supplier_section (df : DataFrame) : M (list SupplierKPI) :=
  emit (st_write (Text "### Supplier Performance"));;
  perf <- lift (supplier_performance df);;
  emit (st_dataframe (Performance perf));;
  emit (st_bar_chart
          (Rates (map (fun p => (kpi_supplier p, on_time_rate p)) perf)));;
  ret perf.

(** Lines 102 to 109. *)
Definition ranking_section (df : DataFrame) (perf : list SupplierKPI)
  : M unit :=
  emit (st_write (Text "### Top 5 Suppliers by Procurement Amount"));;
  emit (st_bar_chart (Amounts (top_suppliers perf)));;
  emit (st_write (Text "### Top 5 Customers by Sales Order Amount"));;
  top <- lift (top_customers df);;
  emit (st_bar_chart (Amounts top)).

(** Lines 111 to 133. *)
Definition reconciliation_section (df : DataFrame) : M unit :=
  emit (st_write (Text "### Receipts vs. Invoice Comparison"));;
  if reconciliation_guard df then
    rvq <- lift (receipts_vs_quantity df);;
    emit (st_dataframe (Reconciliation rvq));;
    emit (st_write (TotalMismatches (List.length (mismatches rvq))));;
    emit (st_dataframe (Reconciliation (mismatches rvq)))
  else emit (st_error reconciliation_error).

(** Lines 136 to 147. *)
Definition summary_section (df : DataFrame) : M unit :=
  emit (st_write (Text "### Summary Tables"));;
  n <- lift (total_sales_orders df);;
  emit (st_metric "Total Sales Orders" (Count n));;
  amount <- lift (total_po_amount df);;
  emit (st_metric "Total PO Amount (EGP)" (AmountEGP amount));;
  late <- lift (delayed_count df);;
  emit (st_metric "Delayed Shipments" (Count late)).

(** Lines 149 to 163; the CSV text is stood for by the table it is made of. *)
Definition export_section (df : DataFrame) (perf : list SupplierKPI) : M unit :=
  emit (st_write (Text "### Export Data"));;
  emit (st_download_button "Download Filtered Data as CSV" (Frame df)
          "filtered_data.csv");;
  emit (st_download_button "Download Summary Data as CSV" (Performance perf)
          "supplier_performance.csv").

(** Lines 64 to 163: everything computed from [filtered_df]. *)
Definition metrics (ctl : Controls) (df : DataFrame) : M unit :=
  emit (st_write (Text "## Filtered Data"));;
  emit (st_dataframe (Frame df));;
  delay_analysis ctl df;;
  perf <- supplier_section df;;
  ranking_section df perf;;
  reconciliation_section df;;
  summary_section df;;
  export_section df perf.

(** Lines 48 to 52: the sidebar offers the values of three columns. *)
Definition sidebar (df : DataFrame) : M unit :=
  emit (st_sidebar_header "Filters");;
  i <- lift (getcol "Sales Order No" df);;
  emit (st_multiselect "Select Sales Order No" (unique (column_values i df)));;
  j <- lift (getcol "Customer Name" df);;
  emit (st_multiselect "Select Customer Name" (unique (column_values j df)));;
  k <- lift (getcol "Supplier" df);;
  emit (st_multiselect "Select Supplier" (unique (column_values k df))).

Section Script.

Variable to_datetime : list cell -> list (option Z).

(** Lines 21 to 163, for an uploaded sheet.  The copy of the table kept in
    the session state (line 46) is not read again. *)
Definition process (sh : Sheet) (ctl : Controls) : M unit :=
  let df := strip_columns (read_excel sh) in
  match missing_columns (columns df) with
  | (_ :: _) as missing => emit (st_error (missing_message missing))
  | [] =>
      df' <- lift (normalize to_datetime df);;
      sidebar df';;
      fdf <- lift (filtered_df ctl df');;
      metrics ctl fdf
  end.

Definition script (uploaded_file : option Sheet) (ctl : Controls) : M unit :=
  emit (st_title "🌍 Supply Chain Procurement Dashboard");;
  emit (st_file_uploader "Upload your Excel file");;
  match uploaded_file with
  | Some sh => process sh ctl
  | None => ret tt
  end.

(** The table after line 43 and the table after line 62, when the run gets
    that far. *)
Definition normalized_table (sh : Sheet) : option DataFrame :=
  let df := strip_columns (read_excel sh) in
  match missing_columns (columns df) with
  | _ :: _ => None
  | [] =>
      match normalize to_datetime df with
      | Ok df' => Some df'
      | Raise _ => None
      end
  end.

Definition filtered_table (sh : Sheet) (ctl : Controls) : option DataFrame :=
  match normalized_table sh with
  | Some df =>
      match getcol "Supplier" df, filtered_df ctl df with
      | Ok _, Ok fdf => Some fdf
      | _, _ => None
      end
  | None => None
  end.

End Script.

End Dashboard.

(** ** Sample uploads *)

Definition sample_header : list string :=
  ["Sales Order No "; "Customer Name"; "PO Number"; "PO Total Amount (EGP)";
   "Invoice Amount"; "Delivery Date"; "PO Date"; "Estimated Delivery Date";
   "Quantity"; "Received Quantity"; " Supplier"].

Definition day (n : Z) : cell := Timestamp (n * ns_per_day).

(** Two lines of one purchase order of Acme, both delivered before the
    estimated date; one line of Beta without PO number and without delivery
    date; one line of Gamma without PO number, delivered in time; a footer
    row. *)
Definition sample_sheet : Sheet :=
  mkSheet sample_header
    [[Str "SO1"; Str "Cairo"; Str "X1"; Num 100; Num 100; day 1; day 0; day 20;
      Num 10; Num 10; Str "Acme"];
     [Str "SO2"; Str "Cairo"; Str "X1"; Num 200; Num 200; day 1; day 0; day 3;
      Num 5; Num 3; Str "Acme"];
     [Str "SO3"; Str "Giza"; NA; Num 50; Num 50; NA; day 0; day 3;
      Num 1; Num 1; Str "Beta"];
     [Str "SO4"; Str "Giza"; NA; Num 70; Num 70; day 2; day 0; day 3;
      Num 4; Num 4; Str "Gamma"];
     [Str "Summary"; NA; NA; Num 420; Num 420; NA; NA; NA; Num 20; Num 18; NA]].

(** The cells of the sample are dates already: the parser has only to pass
    them on. *)
Definition sample_to_datetime (col : list cell) : list (option Z) :=
  map as_datetime col.

Definition sample_controls : Controls := mkControls [] [] [] 10.

(** Floats added one after the other, from the left. *)
Definition sample_sums : FloatSums :=
  {| group_sum := fun l => fold_left f64_add l f64_zero;
     series_sum := fun l => fold_left f64_add l f64_zero |}.

Definition sample_columns : list string :=
  ["Sales Order No"; "Customer Name"; "PO Number"; "PO Total Amount (EGP)";
   "Invoice Amount"; "Delivery Date"; "PO Date"; "Estimated Delivery Date";
   "Quantity"; "Received Quantity"; "Supplier"].

Definition sample_filtered : DataFrame :=
  mkDF sample_columns
    [mkRow 0 [Str "SO1"; Str "Cairo"; Str "X1"; Num 100; Num 100; day 1; day 0;
              day 20; Num 10; Num 10; Str "Acme"];
     mkRow 1 [Str "SO2"; Str "Cairo"; Str "X1"; Num 200; Num 200; day 1; day 0;
              day 3; Num 5; Num 3; Str "Acme"];
     mkRow 2 [Str "SO3"; Str "Giza"; NA; Num 50; Num 50; NA; day 0; day 3;
              Num 1; Num 1; Str "Beta"];
     mkRow 3 [Str "SO4"; Str "Giza"; NA; Num 70; Num 70; day 2; day 0; day 3;
              Num 4; Num 4; Str "Gamma"]].

Definition acme_kpi : SupplierKPI :=
  mkKPI (Str "Acme") 1 (Int64 300) 2 0 (Fin (200 # 1)).

Definition beta_kpi : SupplierKPI :=
  mkKPI (Str "Beta") 0 (Int64 50) 0 0 NaN.

Definition gamma_kpi : SupplierKPI :=
  mkKPI (Str "Gamma") 0 (Int64 70) 1 0 Inf.

Definition sample_performance : list SupplierKPI :=
  [acme_kpi; beta_kpi; gamma_kpi].

(** The sample with Acme selected in the supplier filter. *)
Definition acme_controls : Controls := mkControls [] [] [Str "Acme"] 10.

Definition acme_filtered : DataFrame :=
  mkDF sample_columns
    [mkRow 0 [Str "SO1"; Str "Cairo"; Str "X1"; Num 100; Num 100; day 1; day 0;
              day 20; Num 10; Num 10; Str "Acme"];
     mkRow 1 [Str "SO2"; Str "Cairo"; Str "X1"; Num 200; Num 200; day 1; day 0;
              day 3; Num 5; Num 3; Str "Acme"]].

(** The no-break space U+00A0 in UTF-8, and the names of the sample with
    one before and one after each. *)
Definition nbsp : string := String "194"%char (String "160"%char "").

Definition unicode_header : list string :=
  map (fun h => nbsp ++ h ++ nbsp) sample_columns.

(** The sample with a blank quantity in the footer row: the quantities are
    read as floats. *)
Definition float_sheet : Sheet :=
  mkSheet sample_header
    [[Str "SO1"; Str "Cairo"; Str "X1"; Num 100; Num 100; day 1; day 0; day 20;
      Num 10; Num 10; Str "Acme"];
     [Str "SO2"; Str "Cairo"; Str "X1"; Num 200; Num 200; day 1; day 0; day 3;
      Num 5; Num 3; Str "Acme"];
     [Str "Summary"; NA; NA; Num 300; Num 300; NA; NA; NA; NA; Num 13; NA]].

(** An upload without the two quantity columns. *)
Definition short_sheet : Sheet :=
  mkSheet
    ["Sales Order No"; "Customer Name"; "PO Number"; "PO Total Amount (EGP)";
     "Invoice Amount"; "Delivery Date"; "PO Date"; "Estimated Delivery Date";
     "Supplier"]
    [[Str "SO1"; Str "Cairo"; Str "X1"; Num 100; Num 100; day 1; day 0; day 20;
      Str "Acme"]].

(** Two lines of one purchase order whose quantities add up to 2^63. *)
Definition overflow_sheet : Sheet :=
  mkSheet sample_columns
    [[Str "SO1"; Str "Cairo"; Str "X1"; Num 100; Num 100; day 1; day 0; day 20;
      Num (2 ^ 62); Num 0; Str "Acme"];
     [Str "SO2"; Str "Cairo"; Str "X1"; Num 200; Num 200; day 1; day 0; day 3;
      Num (2 ^ 62); Num 0; Str "Acme"]].

(** An upload with every required column and no supplier column, and one
    whose order numbers are numbers. *)
Definition no_supplier_sheet : Sheet :=
  mkSheet required_columns
    [[Str "SO1"; Str "Cairo"; Str "X1"; Num 100; Num 100; day 1; day 0; day 20;
      Num 10; Num 10]].

Definition numeric_orders_sheet : Sheet :=
  mkSheet sample_columns
    [[Num 1001; Str "Cairo"; Str "X1"; Num 100; Num 100; day 1; day 0; day 20;
      Num 10; Num 10; Str "Acme"];
     [NA; Str "Giza"; Str "X2"; Num 50; Num 50; day 1; day 0; day 20;
      Num 1; Num 1; Str "Beta"]].

(** ** Notions used to state the properties *)

(** [pat] occurs in [s]. *)
Definition occurs_in (pat s : string) : Prop :=
  exists pre post, s = pre ++ pat ++ post.

(** [l1] is [l2] with some elements left out, the others in their order. *)
Inductive subseq {A : Type} : list A -> list A -> Prop :=
| subseq_nil : subseq [] []
| subseq_skip x l1 l2 : subseq l1 l2 -> subseq l1 (x :: l2)
| subseq_keep x l1 l2 : subseq l1 l2 -> subseq (x :: l1) (x :: l2).

Definition labels (df : DataFrame) : list nat := map label (rows df).

(** Every cell of the column is a timestamp or NaT (dtype datetime64). *)
Definition datetime_cell (c : cell) : Prop :=
  c = NA \/ exists ns, c = Timestamp ns.

Definition datetime_column (col : string) (df : DataFrame) : Prop :=
  forall i, col_index col (columns df) = Some i ->
    Forall datetime_cell (column_values i df).

(** A cell of a column of integers and blanks: an integer or a missing
    value. *)
Definition numeric_cell (c : cell) : Prop :=
  c = NA \/ exists n, c = Num n.

(** A cell of a column of numbers of the upload: blank, an integer of int64
    or a float. *)
Definition number_cell (c : cell) : Prop :=
  match c with
  | NA | Flt _ => True
  | Num n => - 2 ^ 63 <= n < 2 ^ 63
  | _ => False
  end.

(** The integer [z] as a cell of a column of integers or of a column of
    floats, and as a total. *)
Definition cell_of_Z (z : Z) (c : cell) : Prop :=
  c = Num z \/ c = Flt (f64_of_Z z).

Definition number_of_Z (z : Z) (x : number) : Prop :=
  x = Int64 z \/ x = Float64 (f64_of_Z z).

(** A total ranks no lower than another: the other one is NaN, or neither
    is and the other one is no larger. *)
Definition ranks_above (x y : number) : Prop :=
  is_nan y = true \/ (is_nan x = false /\ number_leb y x = true).

(** The totals of a ranking go down, NaN last. *)
Fixpoint descending (l : list (cell * number)) : Prop :=
  match l with
  | [] => True
  | x :: l' =>
      (forall y, In y l' -> ranks_above (snd x) (snd y)) /\ descending l'
  end.

(** The dtype of a total: int64 or not. *)
Definition is_int64 (x : number) : bool :=
  match x with
  | Int64 _ => true
  | Float64 _ => false
  end.

(** A total of the dtype [int64] ([b] true) or [float64], not NaN. *)
Definition plain_total (b : bool) (e : cell * number) : Prop :=
  is_int64 (snd e) = b /\ is_nan (snd e) = false.

(** The integer of an int64 total. *)
Definition int_total (x : number) : Z :=
  match x with
  | Int64 n => n
  | Float64 _ => 0
  end.

(** A percentage. *)
Definition percentage (x : float64) : Prop :=
  exists q, x = Fin q /\ (0 <= q)%Q /\ (q <= 100)%Q.


Definition is_warning (e : event) : bool :=
  match e with
  | st_warning _ => true
  | _ => false
  end.

(** No event of the kind [P] in a log. *)
Definition silent (P : event -> bool) (l : list event) : Prop :=
  Forall (fun e => P e = false) l.

(** A row passes a multiselect: nothing is selected, or the row's value in
    the column is one of the selected values. *)
Definition accepts (col : string) (values : list cell) (df : DataFrame)
    (r : Row) : Prop :=
  values = [] \/
  exists i, col_index col (columns df) = Some i /\ In (cell_at i r) values.

(** The number a cell adds to a sum that skips missing values. *)
Definition cell_value (c : cell) : Z :=
  match c with
  | Num n => n
  | _ => 0
  end.

Definition zsum (l : list Z) : Z := fold_right Z.add 0 l.

(** A string of whitespace. *)
Fixpoint blank (s : string) : bool :=
  match s with
  | EmptyString => true
  | String a s' => isspace a && blank s'
  end.

(** One whitespace character of Python, in UTF-8. *)
Definition space_char (s : string) : bool :=
  match s with
  | String a "" => isspace a
  | String a (String b "") => isspace2 a b
  | String a (String b (String c "")) => isspace3 a b c
  | _ => false
  end.

Definition spaces (l : list string) : string := fold_right append "" l.

(** The first byte of a whitespace character: an ASCII whitespace or a lead
    byte from C2 on. *)
Definition space_start (s : string) : Prop :=
  match s with
  | "" => True
  | String x _ => (nat_of_ascii x <= 32 \/ 194 <= nat_of_ascii x)%nat
  end.

(** The rows that the normaliser keeps, [i] being the column of the order
    numbers. *)
Definition kept_rows (i : nat) (df : DataFrame) : list Row :=
  filter (fun r => negb (isna (cell_at i r)))
    (filter (fun r => negb (str_contains "Summary" (cell_at i r))) (rows df)).

(** Both dates of a row are timestamps. *)
Definition both_dates (x y : cell) : bool :=
  match as_datetime x, as_datetime y with
  | Some _, Some _ => true
  | _, _ => false
  end.

(** * Properties *)

Section Properties.

Context {sums : FloatSums}.

(** ** Cells, strings and columns *)

Lemma float_eqb_eq (x y : spec_float) : float_eqb x y = true <-> x = y.
Proof.
  destruct x, y; simpl; split; intro H; try discriminate; try reflexivity.
  - apply Bool.eqb_prop in H. now subst.
  - injection H as ->. apply Bool.eqb_reflx.
  - apply Bool.eqb_prop in H. now subst.
  - injection H as ->. apply Bool.eqb_reflx.
  - apply andb_true_iff in H as (H & He). apply andb_true_iff in H as (Hs & Hm).
    apply Bool.eqb_prop in Hs. apply Pos.eqb_eq in Hm. apply Z.eqb_eq in He.
    now subst.
  - injection H as -> -> ->.
    now rewrite Bool.eqb_reflx, Pos.eqb_refl, Z.eqb_refl.
Qed.

Lemma cell_eqb_eq (a b : cell) : cell_eqb a b = true <-> a = b.
Proof.
  destruct a, b; simpl; split; intro H; try discriminate; try reflexivity.
  - apply String.eqb_eq in H. now subst.
  - injection H as ->. apply String.eqb_refl.
  - apply Z.eqb_eq in H. now subst.
  - injection H as ->. apply Z.eqb_refl.
  - apply float_eqb_eq in H. now subst.
  - injection H as ->. now apply float_eqb_eq.
  - apply Z.eqb_eq in H. now subst.
  - injection H as ->. apply Z.eqb_refl.
Qed.

Lemma cell_eqb_refl (a : cell) : cell_eqb a a = true.
Proof. now apply cell_eqb_eq. Qed.

Lemma cell_eqb_neq (a b : cell) : cell_eqb a b = false <-> a <> b.
Proof.
  split.
  - intros H E. apply cell_eqb_eq in E. congruence.
  - intro N. destruct (cell_eqb a b) eqn:E; [|reflexivity].
    apply cell_eqb_eq in E. contradiction.
Qed.

Lemma isin_In (values : list cell) (c : cell) :
  isin values c = true <-> In c values.
Proof.
  unfold isin. rewrite existsb_exists. split.
  - intros (x & Hx & E). apply cell_eqb_eq in E. now subst.
  - intro H. exists c. split; [assumption | apply cell_eqb_refl].
Qed.

Lemma prefix_occurs (pat s : string) :
  String.prefix pat s = true <-> exists post, s = pat ++ post.
Proof.
  revert s. induction pat as [|a pat IH]; intro s.
  - split; [intros _; now exists s | intros _; now destruct s].
  - destruct s as [|b s].
    + split; [discriminate | intros (post & H); discriminate].
    + simpl. destruct (Ascii.ascii_dec a b) as [->|N].
      * rewrite IH. split; intros (post & H); exists post.
        -- now subst.
        -- now injection H.
      * split; [discriminate|]. intros (post & H). injection H as E _.
        congruence.
Qed.

(** The substring test of the source finds exactly the occurrences. *)
Lemma contains_occurs (pat s : string) :
  contains pat s = true <-> occurs_in pat s.
Proof.
  unfold occurs_in. induction s as [|a s IH].
  - cbn [contains]. rewrite orb_false_r, prefix_occurs. split.
    + intros (post & H). now exists "", post.
    + intros (pre & post & H). destruct pre; simpl in H.
      * now exists post.
      * discriminate.
  - cbn [contains]. rewrite orb_true_iff, prefix_occurs, IH. split.
    + intros [(post & H) | (pre & post & H)].
      * now exists "", post.
      * exists (String a pre), post. simpl. now rewrite H.
    + intros (pre & post & H). destruct pre as [|b pre]; simpl in H.
      * left. now exists post.
      * right. injection H as _ H. now exists pre, post.
Qed.

Lemma has_column_In (c : string) (cols : list string) :
  has_column c cols = true <-> In c cols.
Proof.
  unfold has_column. rewrite existsb_exists. split.
  - intros (x & Hx & E). apply String.eqb_eq in E. now subst.
  - intro H. exists c. split; [assumption | apply String.eqb_refl].
Qed.

Lemma col_index_has_column (c : string) (cols : list string) :
  has_column c cols = true <-> exists i, col_index c cols = Some i.
Proof.
  induction cols as [|x cols IH]; simpl.
  - split; [discriminate | intros (i & H); discriminate].
  - destruct (String.eqb c x); simpl.
    + split; [intros _; now exists O | reflexivity].
    + rewrite IH. split; intros (i & H).
      * exists (S i). now rewrite H.
      * destruct (col_index c cols); [now eexists | discriminate].
Qed.

Lemma col_index_distinct (a b : string) (cols : list string) (i j : nat) :
  col_index a cols = Some i -> col_index b cols = Some j -> a <> b -> i <> j.
Proof.
  revert i j. induction cols as [|x cols IH]; simpl; intros i j Ha Hb N.
  - discriminate.
  - destruct (String.eqb a x) eqn:Ea, (String.eqb b x) eqn:Eb.
    + apply String.eqb_eq in Ea, Eb. congruence.
    + destruct (col_index b cols); simpl in Hb; [|discriminate].
      injection Ha as <-. injection Hb as <-. discriminate.
    + destruct (col_index a cols); simpl in Ha; [|discriminate].
      injection Ha as <-. injection Hb as <-. discriminate.
    + destruct (col_index a cols) as [i'|]; simpl in Ha; [|discriminate].
      destruct (col_index b cols) as [j'|]; simpl in Hb; [|discriminate].
      injection Ha as <-. injection Hb as <-.
      specialize (IH i' j' eq_refl eq_refl N). congruence.
Qed.

Lemma getcol_Ok (name : string) (df : DataFrame) (i : nat) :
  getcol name df = Ok i <-> col_index name (columns df) = Some i.
Proof.
  unfold getcol. destruct (col_index name (columns df)); split; congruence.
Qed.

Lemma missing_columns_In (cols : list string) (x : string) :
  In x (missing_columns cols) <-> In x required_columns /\ ~ In x cols.
Proof.
  unfold missing_columns. rewrite filter_In, negb_true_iff.
  pose proof (has_column_In x cols) as H.
  destruct (has_column x cols); intuition congruence.
Qed.

Lemma validated_column (cols : list string) (c : string) :
  missing_columns cols = [] -> In c required_columns ->
  exists i, col_index c cols = Some i.
Proof.
  intros E H. apply col_index_has_column.
  destruct (has_column c cols) eqn:Hc; [reflexivity|].
  assert (In c (missing_columns cols)) as Hin.
  { apply missing_columns_In. split; [assumption|].
    rewrite <- has_column_In. congruence. }
  rewrite E in Hin. destruct Hin.
Qed.

(** ** The reader *)

Lemma number_rows_cells (i k : nat) (b : list (list cell)) :
  map (cell_at i) (number_rows k b) = map (fun cs => nth i cs NA) b.
Proof.
  revert k. induction b as [|cs b IH]; intro k; simpl; [reflexivity|].
  now rewrite IH.
Qed.

Lemma nth_infer_cells (b : list (list cell)) (cs : list cell) (k j : nat) :
  nth j (infer_cells b k cs) NA =
  if float_column (sheet_column (k + j) b) then as_float (nth j cs NA)
  else nth j cs NA.
Proof.
  revert k j. induction cs as [|c cs IH]; intros k j.
  - destruct j; simpl; now destruct (float_column _).
  - destruct j as [|j]; simpl.
    + now rewrite Nat.add_0_r.
    + rewrite IH. now rewrite Nat.add_succ_r.
Qed.

(** The column that [read_excel] makes of a column of the sheet. *)
Lemma read_excel_column (i : nat) (sh : Sheet) :
  column_values i (read_excel sh) = infer_column (sheet_column i (body sh)).
Proof.
  unfold column_values, read_excel. cbn [rows].
  rewrite number_rows_cells, map_map. unfold infer_column.
  destruct (float_column (sheet_column i (body sh))) eqn:E.
  - transitivity (map (fun cs => as_float (nth i cs NA)) (body sh));
      [|unfold sheet_column; now rewrite map_map].
    apply map_ext. intro cs.
    rewrite nth_infer_cells. cbn [Nat.add]. now rewrite E.
  - transitivity (map (fun cs => nth i cs NA) (body sh)); [|reflexivity].
    apply map_ext. intro cs.
    rewrite nth_infer_cells. cbn [Nat.add]. now rewrite E.
Qed.

Lemma number_as_float (c : cell) :
  is_num c || isna c = true -> is_num (as_float c) || isna (as_float c) = true.
Proof. now destruct c. Qed.

Lemma infer_column_numbers (col : list cell) :
  forallb (fun c => is_num c || isna c) col = true ->
  forallb (fun c => is_num c || isna c) (infer_column col) = true.
Proof.
  intro H. unfold infer_column. destruct (float_column col); [|exact H].
  rewrite forallb_forall in *. intros c Hc.
  apply in_map_iff in Hc as (x & <- & Hx). apply number_as_float. now apply H.
Qed.

Lemma numbers_no_str (col : list cell) :
  forallb (fun c => is_num c || isna c) col = true ->
  existsb is_str col = false /\ existsb is_time col = false.
Proof.
  induction col as [|c col IH]; simpl; [now split|].
  intro H. apply andb_true_iff in H as (Hc & H).
  destruct (IH H) as (-> & ->). now destruct c.
Qed.

Lemma numbers_no_str_accessor (col : list cell) :
  col <> [] -> forallb (fun c => is_num c || isna c) col = true ->
  has_str_accessor col = false.
Proof.
  intros Hne F. unfold has_str_accessor.
  destruct (numbers_no_str col F) as (-> & ->).
  destruct col; [contradiction | now rewrite andb_false_r].
Qed.

Lemma infer_column_length (col : list cell) :
  List.length (infer_column col) = List.length col.
Proof.
  unfold infer_column. destruct (float_column col); [|reflexivity].
  apply length_map.
Qed.

(** ** Subsequences *)

Lemma subseq_refl {A : Type} (l : list A) : subseq l l.
Proof. induction l; constructor; assumption. Qed.

Lemma subseq_trans {A : Type} (l1 l2 l3 : list A) :
  subseq l1 l2 -> subseq l2 l3 -> subseq l1 l3.
Proof.
  intros H12 H23. revert l1 H12.
  induction H23 as [|x l2 l3 H23 IH|x l2 l3 H23 IH]; intros l1 H12.
  - assumption.
  - constructor. now apply IH.
  - inversion H12; subst.
    + constructor. now apply IH.
    + apply subseq_keep. now apply IH.
Qed.

Lemma subseq_filter {A : Type} (p : A -> bool) (l : list A) :
  subseq (filter p l) l.
Proof.
  induction l as [|x l IH]; simpl.
  - constructor.
  - destruct (p x); constructor; assumption.
Qed.

Lemma subseq_In {A : Type} (l1 l2 : list A) (x : A) :
  subseq l1 l2 -> In x l1 -> In x l2.
Proof.
  induction 1 as [|y l1 l2 H IH|y l1 l2 H IH]; simpl; intuition.
Qed.

Lemma subseq_map {A B : Type} (f : A -> B) (l1 l2 : list A) :
  subseq l1 l2 -> subseq (map f l1) (map f l2).
Proof. induction 1; simpl; constructor; assumption. Qed.

Lemma subseq_NoDup {A : Type} (l1 l2 : list A) :
  subseq l1 l2 -> NoDup l2 -> NoDup l1.
Proof.
  induction 1 as [|y l1 l2 H IH|y l1 l2 H IH]; intro N.
  - assumption.
  - inversion N; subst. now apply IH.
  - inversion N as [|? ? Hy N']; subst. constructor.
    + intro Hin. apply Hy. eapply subseq_In; eassumption.
    + now apply IH.
Qed.

(** ** The filters *)

Lemma with_rows_id (df : DataFrame) : with_rows df (rows df) = df.
Proof. now destruct df. Qed.

Lemma filter_all {A : Type} (l : list A) : filter (fun _ => true) l = l.
Proof. induction l; simpl; congruence. Qed.

Lemma filter_twice {A : Type} (p q : A -> bool) (l : list A) :
  filter q (filter p l) = filter (fun x => p x && q x) l.
Proof.
  induction l as [|x l IH]; simpl; [reflexivity|].
  destruct (p x); simpl; [destruct (q x)|]; now rewrite IH.
Qed.

Lemma filter_idem {A : Type} (p : A -> bool) (l : list A) :
  filter p (filter p l) = filter p l.
Proof.
  rewrite filter_twice. apply filter_ext. intro x. now destruct (p x).
Qed.

(** One selection keeps the rows that pass a test which depends on the column
    names only; it succeeds or fails with the column names. *)
Lemma select_isin_inv (col : string) (values : list cell) (df d : DataFrame) :
  select_isin col values df = Ok d ->
  exists p, d = with_rows df (filter p (rows df)) /\
    forall df', columns df' = columns df ->
      select_isin col values df' = Ok (with_rows df' (filter p (rows df'))).
Proof.
  unfold select_isin. destruct values as [|v values].
  - intro H. injection H as <-. exists (fun _ => true). split.
    + now rewrite filter_all, with_rows_id.
    + intros df' _. now rewrite filter_all, with_rows_id.
  - unfold getcol. destruct (col_index col (columns df)) as [i|] eqn:E;
      simpl; [|discriminate].
    intro H. injection H as <-.
    exists (fun r => isin (v :: values) (cell_at i r)). split; [reflexivity|].
    intros df' Hc. rewrite Hc, E. reflexivity.
Qed.

Lemma filtered_df_inv (ctl : Controls) (df d : DataFrame) :
  filtered_df ctl df = Ok d ->
  exists p, d = with_rows df (filter p (rows df)) /\
    forall df', columns df' = columns df ->
      filtered_df ctl df' = Ok (with_rows df' (filter p (rows df'))).
Proof.
  unfold filtered_df.
  destruct (select_isin "Sales Order No" (sales_order_no ctl) df)
    as [d1|] eqn:E1; simpl; [|discriminate].
  destruct (select_isin "Customer Name" (customer_name ctl) d1)
    as [d2|] eqn:E2; simpl; [|discriminate].
  intro E3.
  apply select_isin_inv in E1 as (p1 & -> & K1).
  apply select_isin_inv in E2 as (p2 & -> & K2).
  apply select_isin_inv in E3 as (p3 & -> & K3).
  exists (fun r => p1 r && (p2 r && p3 r)). split.
  - unfold with_rows. simpl. now rewrite !filter_twice.
  - intros df' Hc. rewrite (K1 df' Hc). simpl.
    rewrite (K2 (with_rows df' (filter p1 (rows df')))); [|now simpl]. simpl.
    rewrite (K3 (with_rows (with_rows df' (filter p1 (rows df')))
                   (filter p2 (filter p1 (rows df'))))); [|now simpl].
    unfold with_rows. simpl. now rewrite !filter_twice.
Qed.

Lemma filtered_df_columns (ctl : Controls) (df d : DataFrame) :
  filtered_df ctl df = Ok d -> columns d = columns df.
Proof. intro H. apply filtered_df_inv in H as (p & -> & _). reflexivity. Qed.

Lemma filtered_df_subseq (ctl : Controls) (df d : DataFrame) :
  filtered_df ctl df = Ok d -> subseq (rows d) (rows df).
Proof.
  intro H. apply filtered_df_inv in H as (p & -> & _). apply subseq_filter.
Qed.

(** C4: with no value selected in any of the three multiselects, the filter
    step returns the table it was given, with the same records, whatever
    the table. *)
Theorem filtered_df_empty_spec (ctl : Controls) (df : DataFrame) :
  sales_order_no ctl = [] -> customer_name ctl = [] -> supplier ctl = [] ->
  filtered_df ctl df = Ok df /\
  forall d, filtered_df ctl df = Ok d -> rows d = rows df.
Proof.
  intros H1 H2 H3.
  assert (filtered_df ctl df = Ok df) as H.
  { unfold filtered_df. rewrite H1, H2, H3. reflexivity. }
  split; [exact H|]. intros d Hd. rewrite H in Hd. now injection Hd as <-.
Qed.

(** C5: filtering the filtered table again with the same selections gives the
    same table: the filter step is idempotent. *)
Theorem filtered_df_idempotent (ctl : Controls) (df d : DataFrame) :
  filtered_df ctl df = Ok d -> filtered_df ctl d = Ok d.
Proof.
  intro H. apply filtered_df_inv in H as (p & -> & K).
  rewrite (K (with_rows df (filter p (rows df)))); [|reflexivity].
  unfold with_rows. simpl. now rewrite filter_idem.
Qed.

(** ** The normaliser *)

Lemma set_nth_other (i j : nat) (v : cell) (cs : list cell) :
  i <> j -> nth j (set_nth i v cs) NA = nth j cs NA.
Proof.
  revert j cs. induction i as [|i IH]; intros j cs N; destruct cs as [|c cs];
    simpl; try reflexivity.
  - destruct j; [contradiction | reflexivity].
  - destruct j; [reflexivity|]. apply IH. congruence.
Qed.

Lemma set_nth_same (i : nat) (v : cell) (cs : list cell) :
  (i < List.length cs)%nat -> nth i (set_nth i v cs) NA = v.
Proof.
  revert cs. induction i as [|i IH]; intros cs L; destruct cs as [|c cs];
    simpl in *; try lia; [reflexivity|]. apply IH. lia.
Qed.

Lemma assign_column_labels (i : nat) (values : list cell) (rs : list Row) :
  map label (assign_column i values rs) = map label rs.
Proof.
  revert values. induction rs as [|r rs IH]; intros [|v values]; simpl;
    try reflexivity. now rewrite IH.
Qed.

Lemma assign_column_other (i j : nat) (values : list cell) (rs : list Row) :
  i <> j ->
  map (cell_at j) (assign_column i values rs) = map (cell_at j) rs.
Proof.
  intro N. revert values. induction rs as [|r rs IH]; intros [|v values]; simpl;
    try reflexivity.
  rewrite IH. unfold cell_at at 1. simpl. now rewrite set_nth_other.
Qed.

Section NormalizerFacts.

Variable to_datetime : list cell -> list (option Z).

Lemma convert_date_columns (col : string) (df : DataFrame) :
  columns (convert_date to_datetime col df) = columns df.
Proof.
  unfold convert_date. now destruct (col_index col (columns df)).
Qed.

Lemma convert_date_labels (col : string) (df : DataFrame) :
  labels (convert_date to_datetime col df) = labels df.
Proof.
  unfold convert_date, labels.
  destruct (col_index col (columns df)); [|reflexivity].
  simpl. apply assign_column_labels.
Qed.

Lemma convert_date_other (col c : string) (df : DataFrame) (j : nat) :
  c <> col -> col_index c (columns df) = Some j ->
  column_values j (convert_date to_datetime col df) = column_values j df.
Proof.
  intros N Hj. unfold convert_date, column_values.
  destruct (col_index col (columns df)) as [i|] eqn:Hi; [|reflexivity].
  simpl. apply assign_column_other.
  intro E. subst. eapply col_index_distinct in Hj; [|exact Hi|congruence].
  now apply Hj.
Qed.

Lemma convert_dates_columns (df : DataFrame) :
  columns (convert_dates to_datetime df) = columns df.
Proof.
  unfold convert_dates. simpl. now rewrite !convert_date_columns.
Qed.

Lemma convert_dates_labels (df : DataFrame) :
  labels (convert_dates to_datetime df) = labels df.
Proof.
  unfold convert_dates. simpl. now rewrite !convert_date_labels.
Qed.

Lemma convert_dates_other (c : string) (df : DataFrame) (j : nat) :
  ~ In c date_columns -> col_index c (columns df) = Some j ->
  column_values j (convert_dates to_datetime df) = column_values j df.
Proof.
  intros N Hj. unfold convert_dates. simpl in *.
  rewrite !(convert_date_other _ c); rewrite ?convert_date_columns;
    try assumption; try reflexivity; intro E; apply N; rewrite E; tauto.
Qed.

(** What the three steps of the normaliser leave: the rows of the input
    that pass both tests on the order number, in their order, with the
    column names unchanged. *)
Lemma normalize_inv (df df' : DataFrame) :
  normalize to_datetime df = Ok df' ->
  exists i, col_index "Sales Order No" (columns df) = Some i /\
    columns df' = columns df /\
    labels df' =
      map label
        (filter (fun r => negb (isna (cell_at i r)))
           (filter (fun r => negb (str_contains "Summary" (cell_at i r)))
              (rows df))) /\
    column_values i df' =
      map (cell_at i)
        (filter (fun r => negb (isna (cell_at i r)))
           (filter (fun r => negb (str_contains "Summary" (cell_at i r)))
              (rows df))).
Proof.
  unfold normalize, drop_summary, dropna_sales_order, getcol.
  destruct (col_index "Sales Order No" (columns df)) as [i|] eqn:Hi;
    simpl; [|discriminate].
  destruct (has_str_accessor (map (cell_at i) (rows df))); simpl;
    [|discriminate].
  rewrite Hi. simpl. intro H. injection H as <-.
  exists i. split; [reflexivity|]. split; [|split].
  - now rewrite convert_dates_columns.
  - now rewrite convert_dates_labels.
  - rewrite (convert_dates_other "Sales Order No"); [reflexivity| |exact Hi].
    simpl. intuition discriminate.
Qed.

(** The run can go on after the normaliser whenever the order numbers are
    a column with a string in it. *)
Lemma normalize_total (df : DataFrame) (i : nat) :
  col_index "Sales Order No" (columns df) = Some i ->
  existsb is_str (column_values i df) = true ->
  exists df', normalize to_datetime df = Ok df'.
Proof.
  intros Hi Hs. unfold normalize, drop_summary, dropna_sales_order, getcol.
  rewrite Hi. simpl. unfold column_values in Hs.
  unfold has_str_accessor. rewrite Hs.
  destruct (map (cell_at i) (rows df)); simpl; rewrite Hi; simpl;
    eexists; reflexivity.
Qed.

(** C3: no record of the normaliser's output has a missing order
    identifier (NaN or None, what [dropna] removes), and none has an order
    identifier in which "Summary" occurs, case-sensitively.  Every order
    identifier of the output is one of the input. *)
Theorem normalize_order_identifiers (df df' : DataFrame) :
  normalize to_datetime df = Ok df' ->
  exists i, col_index "Sales Order No" (columns df') = Some i /\
    forall r, In r (rows df') ->
      cell_at i r <> NA /\
      (forall s, cell_at i r = Str s -> ~ occurs_in "Summary" s) /\
      In (cell_at i r) (column_values i df).
Proof.
  intro H. apply normalize_inv in H as (i & Hi & Hc & _ & Hv).
  exists i. split; [now rewrite Hc|].
  intros r Hr.
  assert (In (cell_at i r) (column_values i df')) as Hin
    by (unfold column_values; now apply in_map).
  rewrite Hv in Hin. apply in_map_iff in Hin as (r0 & E & Hin).
  apply filter_In in Hin as (Hin & Hna).
  apply filter_In in Hin as (Hin & Hsum).
  rewrite <- E. split; [|split].
  - intro Hn. rewrite Hn in Hna. discriminate.
  - intros s Hs Hocc. rewrite Hs in Hsum. simpl in Hsum.
    apply contains_occurs in Hocc. rewrite Hocc in Hsum. discriminate.
  - unfold column_values. now apply in_map.
Qed.

End NormalizerFacts.

(** ** The date columns after normalisation *)

Lemma set_nth_length (i : nat) (v : cell) (cs : list cell) :
  List.length (set_nth i v cs) = List.length cs.
Proof.
  revert cs. induction i as [|i IH]; intros [|c cs]; simpl; try reflexivity.
  now rewrite IH.
Qed.

Lemma assign_column_typed (i : nat) (values : list cell) (rs : list Row) :
  List.length values = List.length rs -> Forall datetime_cell values ->
  Forall datetime_cell (map (cell_at i) (assign_column i values rs)).
Proof.
  revert values. induction rs as [|r rs IH]; intros [|v values] L F;
    simpl in *; try discriminate; constructor.
  - unfold cell_at. simpl.
    destruct (Nat.lt_ge_cases i (List.length (cells r))) as [Hlt|Hge].
    + rewrite set_nth_same by assumption. now inversion F.
    + rewrite nth_overflow; [now left|]. now rewrite set_nth_length.
  - apply IH; [lia | now inversion F].
Qed.

Lemma of_datetime_typed (l : list (option Z)) :
  Forall datetime_cell (map of_datetime l).
Proof.
  induction l as [|[ns|] l IH]; simpl; constructor; try assumption.
  - right. now exists ns.
  - now left.
Qed.

Section DatetimeColumns.

Variable to_datetime : list cell -> list (option Z).
Hypothesis to_datetime_length :
  forall col, List.length (to_datetime col) = List.length col.

Lemma convert_date_typed (col : string) (df : DataFrame) :
  datetime_column col (convert_date to_datetime col df).
Proof.
  intros i Hi. rewrite convert_date_columns in Hi.
  unfold convert_date, column_values. rewrite Hi. simpl.
  apply assign_column_typed; [|apply of_datetime_typed].
  now rewrite !length_map, to_datetime_length, length_map.
Qed.

Lemma convert_date_keeps_typed (col c : string) (df : DataFrame) :
  c <> col -> datetime_column c df ->
  datetime_column c (convert_date to_datetime col df).
Proof.
  intros N H i Hi. rewrite convert_date_columns in Hi.
  rewrite (convert_date_other to_datetime col c); auto.
Qed.

(** After line 43 the three date columns hold timestamps and NaT only. *)
Lemma normalize_datetime (df df' : DataFrame) (col : string) :
  normalize to_datetime df = Ok df' -> In col date_columns ->
  datetime_column col df'.
Proof.
  unfold normalize.
  destruct (drop_summary df) as [d1|]; simpl; [|discriminate].
  destruct (dropna_sales_order d1) as [d2|]; simpl; [|discriminate].
  intro H. injection H as <-. unfold convert_dates. simpl.
  intros [<-|[<-|[<-|[]]]].
  - apply convert_date_keeps_typed; [discriminate|].
    apply convert_date_keeps_typed; [discriminate|].
    apply convert_date_typed.
  - apply convert_date_keeps_typed; [discriminate|].
    apply convert_date_typed.
  - apply convert_date_typed.
Qed.

End DatetimeColumns.

(** ** The tables of a run *)

Lemma number_rows_labels (k : nat) (b : list (list cell)) :
  map label (number_rows k b) = seq k (List.length b).
Proof.
  revert k. induction b as [|cs b IH]; intro k; simpl; [reflexivity|].
  now rewrite IH.
Qed.

Section Tables.

Variable to_datetime : list cell -> list (option Z).

Lemma normalized_table_inv (sh : Sheet) (df : DataFrame) :
  normalized_table to_datetime sh = Some df ->
  missing_columns (map strip (header sh)) = [] /\
  normalize to_datetime (strip_columns (read_excel sh)) = Ok df.
Proof.
  unfold normalized_table. simpl.
  destruct (missing_columns (map strip (header sh))); [|discriminate].
  destruct (normalize to_datetime (strip_columns (read_excel sh)));
    [|discriminate].
  intro H. injection H as <-. now split.
Qed.

Lemma normalized_table_columns (sh : Sheet) (df : DataFrame) :
  normalized_table to_datetime sh = Some df ->
  columns df = map strip (header sh).
Proof.
  intro H. apply normalized_table_inv in H as (_ & H).
  apply normalize_inv in H as (i & _ & Hc & _). exact Hc.
Qed.

(** The index labels of a normalised table are pairwise distinct. *)
Lemma normalized_table_labels (sh : Sheet) (df : DataFrame) :
  normalized_table to_datetime sh = Some df -> NoDup (labels df).
Proof.
  intro H. apply normalized_table_inv in H as (_ & H).
  apply normalize_inv in H as (i & _ & _ & Hl & _). rewrite Hl.
  eapply subseq_NoDup.
  - apply subseq_map. eapply subseq_trans; apply subseq_filter.
  - simpl. rewrite number_rows_labels. apply seq_NoDup.
Qed.

Lemma filtered_table_inv (sh : Sheet) (ctl : Controls) (fdf : DataFrame) :
  filtered_table to_datetime sh ctl = Some fdf ->
  exists df, normalized_table to_datetime sh = Some df /\
    filtered_df ctl df = Ok fdf /\
    has_column "Supplier" (columns df) = true.
Proof.
  unfold filtered_table.
  destruct (normalized_table to_datetime sh) as [df|]; [|discriminate].
  unfold getcol.
  destruct (col_index "Supplier" (columns df)) as [k|] eqn:Hk;
    [|discriminate].
  destruct (filtered_df ctl df) as [d|] eqn:Hf; [|discriminate].
  intro H. injection H as <-. exists df.
  split; [reflexivity|]. split; [exact Hf|].
  apply col_index_has_column. now exists k.
Qed.

Lemma filtered_table_columns (sh : Sheet) (ctl : Controls) (fdf : DataFrame) :
  filtered_table to_datetime sh ctl = Some fdf ->
  columns fdf = map strip (header sh).
Proof.
  intro H. apply filtered_table_inv in H as (df & Hn & Hf & _).
  apply filtered_df_columns in Hf. rewrite Hf.
  now apply normalized_table_columns.
Qed.

(** A filtered table has every required column and the supplier column. *)
Lemma filtered_table_column (sh : Sheet) (ctl : Controls) (fdf : DataFrame)
    (c : string) :
  filtered_table to_datetime sh ctl = Some fdf ->
  In c ("Supplier" :: required_columns) ->
  exists i, col_index c (columns fdf) = Some i.
Proof.
  intros H Hc. pose proof (filtered_table_columns _ _ _ H) as Hcols.
  apply filtered_table_inv in H as (df & Hn & Hf & Hs).
  destruct Hc as [<-|Hc].
  - apply col_index_has_column.
    rewrite (filtered_df_columns _ _ _ Hf). exact Hs.
  - rewrite Hcols. apply normalized_table_inv in Hn as (Hm & _).
    now apply validated_column.
Qed.

(** On a filtered table the delay selection finds its two columns and
    returns. *)
Lemma delayed_shipments_total (sh : Sheet) (ctl : Controls) (fdf : DataFrame)
    (threshold : Z) :
  filtered_table to_datetime sh ctl = Some fdf ->
  exists ie ia,
    col_index "Estimated Delivery Date" (columns fdf) = Some ie /\
    col_index "Delivery Date" (columns fdf) = Some ia /\
    delayed_shipments threshold fdf =
      Ok (filter (fun r => days_exceed threshold (cell_at ie r) (cell_at ia r))
                 (rows fdf)).
Proof.
  intro H.
  destruct (filtered_table_column _ _ _ "Estimated Delivery Date" H)
    as (ie & Hie); [simpl; tauto|].
  destruct (filtered_table_column _ _ _ "Delivery Date" H)
    as (ia & Hia); [simpl; tauto|].
  exists ie, ia. split; [exact Hie|]. split; [exact Hia|].
  unfold delayed_shipments, getcol. now rewrite Hie, Hia.
Qed.

(** C10: the filter step returns an order-preserving subsequence of the
    normalised table: every record of the output is a record of the input,
    no record comes out twice (the index labels stay pairwise distinct),
    and the records keep their relative order. *)
Theorem filtered_df_subsequence (sh : Sheet) (ctl : Controls)
    (df d : DataFrame) :
  normalized_table to_datetime sh = Some df ->
  filtered_df ctl df = Ok d ->
  subseq (rows d) (rows df) /\
  (forall r, In r (rows d) -> In r (rows df)) /\
  NoDup (labels d) /\ NoDup (rows d) /\
  columns d = columns df.
Proof.
  intros Hn Hf. pose proof (filtered_df_subseq _ _ _ Hf) as Hs.
  assert (NoDup (labels d)) as Hl.
  { eapply subseq_NoDup; [apply subseq_map; exact Hs|].
    eapply normalized_table_labels; eassumption. }
  repeat split.
  - exact Hs.
  - intros r. now apply subseq_In.
  - exact Hl.
  - eapply NoDup_map_inv. exact Hl.
  - eapply filtered_df_columns; eassumption.
Qed.

End Tables.

Section FilteredDates.

Variable to_datetime : list cell -> list (option Z).
Hypothesis to_datetime_length :
  forall col, List.length (to_datetime col) = List.length col.

(** In a filtered table a date cell is a timestamp or NaT: what is not a
    timestamp there did not parse. *)
Lemma filtered_table_datetime (sh : Sheet) (ctl : Controls) (fdf : DataFrame)
    (col : string) :
  filtered_table to_datetime sh ctl = Some fdf -> In col date_columns ->
  datetime_column col fdf.
Proof.
  intros H Hcol. apply filtered_table_inv in H as (df & Hn & Hf & _).
  apply normalized_table_inv in Hn as (_ & Hn).
  pose proof (normalize_datetime to_datetime to_datetime_length _ _ col Hn Hcol)
    as Hd.
  apply filtered_df_inv in Hf as (p & -> & _).
  intros i Hi. specialize (Hd i Hi). unfold column_values in *. simpl.
  rewrite Forall_forall in *. intros c Hc.
  apply in_map_iff in Hc as (r & <- & Hr). apply filter_In in Hr as (Hr & _).
  apply Hd. now apply in_map.
Qed.

End FilteredDates.

(** ** The schema check *)

Lemma append_assoc (a b c : string) : (a ++ b) ++ c = a ++ (b ++ c).
Proof. induction a as [|x a IH]; simpl; congruence. Qed.

Lemma append_empty_r (a : string) : a ++ "" = a.
Proof. induction a as [|x a IH]; simpl; congruence. Qed.

Lemma occurs_in_append_l (x a s : string) :
  occurs_in x s -> occurs_in x (a ++ s).
Proof.
  intros (pre & post & ->). exists (a ++ pre), post. apply eq_sym, append_assoc.
Qed.

Lemma occurs_in_append_r (x s b : string) :
  occurs_in x s -> occurs_in x (s ++ b).
Proof.
  intros (pre & post & ->). exists pre, (post ++ b).
  now rewrite !append_assoc.
Qed.

Lemma occurs_in_refl (x : string) : occurs_in x x.
Proof. exists "", "". simpl. now rewrite append_empty_r. Qed.

(** Every name of the list can be read in the joined text. *)
Lemma join_occurs (sep x : string) (l : list string) :
  In x l -> occurs_in x (join sep l).
Proof.
  induction l as [|y l IH]; [intros []|]. intros [->|Hin].
  - destruct l; simpl; [apply occurs_in_refl|].
    apply occurs_in_append_r, occurs_in_refl.
  - destruct l as [|z l]; [destruct Hin|].
    change (join sep (y :: z :: l)) with (y ++ sep ++ join sep (z :: l)).
    now apply occurs_in_append_l, occurs_in_append_l, IH.
Qed.

Section SchemaCheck.

Variable to_datetime : list cell -> list (option Z).

(** C6: when the uploaded table lacks required columns, the list built by
    the schema check holds every one of them, the one error message names
    them all, and the run ends there: its log is that message alone, and
    there is neither a normalised nor a filtered table. *)
Theorem missing_columns_halt (sh : Sheet) (ctl : Controls) :
  let cols := map strip (header sh) in
  (exists x, In x required_columns /\ ~ In x cols) ->
  (forall x, In x required_columns -> ~ In x cols ->
     In x (missing_columns cols) /\
     occurs_in x (missing_message (missing_columns cols))) /\
  process to_datetime sh ctl =
    ([st_error (missing_message (missing_columns cols))], Ok tt) /\
  normalized_table to_datetime sh = None /\
  filtered_table to_datetime sh ctl = None.
Proof.
  intros cols (x0 & Hreq & Hmiss).
  assert (In x0 (missing_columns cols)) as H0
    by (apply missing_columns_In; now split).
  split; [|split; [|split]].
  - intros x Hx Hn.
    assert (In x (missing_columns cols)) as Hin
      by (apply missing_columns_In; now split).
    split; [exact Hin|].
    unfold missing_message. now apply occurs_in_append_l, join_occurs.
  - unfold process. simpl. fold cols.
    destruct (missing_columns cols); [destruct H0 | reflexivity].
  - unfold normalized_table. simpl. fold cols.
    destruct (missing_columns cols); [destruct H0 | reflexivity].
  - unfold filtered_table, normalized_table. simpl. fold cols.
    destruct (missing_columns cols); [destruct H0 | reflexivity].
Qed.

End SchemaCheck.

(** ** Delay detection *)

Lemma days_exceed_iff (threshold : Z) (est act : cell) :
  days_exceed threshold est act = true <->
  exists e a, est = Timestamp e /\ act = Timestamp a /\
    threshold < (e - a) / ns_per_day.
Proof.
  unfold days_exceed. destruct est, act; simpl;
    try (split; [discriminate | intros (e & a & H1 & H2 & _); discriminate]).
  rewrite Z.ltb_lt. split.
  - intro H. now exists ns, ns0.
  - intros (e & a & H1 & H2 & H). injection H1 as ->. injection H2 as ->.
    exact H.
Qed.

Section DelayDetection.

Variable to_datetime : list cell -> list (option Z).

(** C2: a record of the filtered table is among the delayed shipments
    exactly when its estimated and its actual delivery date are both
    timestamps (parsed, not NaT) and estimated minus actual, in whole days,
    is greater than the threshold.  This holds for every threshold, so for
    those of the slider, 0 to 90.  With threshold 10 a record 15 days apart
    is in and one 5 days apart is out. *)
Theorem delayed_shipments_iff (sh : Sheet) (ctl : Controls)
    (fdf : DataFrame) (threshold : Z) :
  filtered_table to_datetime sh ctl = Some fdf ->
  exists ie ia ds,
    col_index "Estimated Delivery Date" (columns fdf) = Some ie /\
    col_index "Delivery Date" (columns fdf) = Some ia /\
    delayed_shipments threshold fdf = Ok ds /\
    (forall r, In r ds <->
       In r (rows fdf) /\
       exists e a, cell_at ie r = Timestamp e /\ cell_at ia r = Timestamp a /\
         threshold < (e - a) / ns_per_day) /\
    (threshold = 10 ->
     forall r e a, In r (rows fdf) ->
       cell_at ie r = Timestamp e -> cell_at ia r = Timestamp a ->
       ((e - a) / ns_per_day = 15 -> In r ds) /\
       ((e - a) / ns_per_day = 5 -> ~ In r ds)).
Proof.
  intro H.
  destruct (delayed_shipments_total to_datetime sh ctl fdf threshold H)
    as (ie & ia & Hie & Hia & Hds).
  exists ie, ia. eexists. split; [exact Hie|]. split; [exact Hia|].
  split; [exact Hds|].
  assert (forall r,
    In r (filter (fun r => days_exceed threshold (cell_at ie r) (cell_at ia r))
            (rows fdf)) <->
    In r (rows fdf) /\
    exists e a, cell_at ie r = Timestamp e /\ cell_at ia r = Timestamp a /\
      threshold < (e - a) / ns_per_day) as Hiff.
  { intro r. rewrite filter_In, days_exceed_iff. reflexivity. }
  split; [exact Hiff|].
  intros -> r e a Hr He Ha. split.
  - intro Hd. apply Hiff. split; [exact Hr|]. exists e, a.
    repeat split; try assumption. lia.
  - intros Hd Hin. apply Hiff in Hin as (_ & e' & a' & He' & Ha' & Hlt).
    rewrite He in He'. rewrite Ha in Ha'.
    injection He' as <-. injection Ha' as <-. lia.
Qed.

End DelayDetection.

(** ** Groups *)

Lemma unique_In (x : cell) (l : list cell) : In x (unique l) <-> In x l.
Proof.
  induction l as [|c l IH]; simpl; [reflexivity|].
  rewrite filter_In, IH, negb_true_iff, cell_eqb_neq.
  destruct (cell_eqb x c) eqn:E.
  - apply cell_eqb_eq in E. subst. tauto.
  - apply cell_eqb_neq in E. intuition congruence.
Qed.

Lemma unique_NoDup (l : list cell) : NoDup (unique l).
Proof.
  induction l as [|c l IH]; simpl; constructor.
  - rewrite filter_In, negb_true_iff, cell_eqb_neq. tauto.
  - now apply NoDup_filter.
Qed.

Lemma unique_of_NoDup (l : list cell) : NoDup l -> unique l = l.
Proof.
  induction 1 as [|c l Hc N IH]; simpl; [reflexivity|].
  rewrite IH. f_equal. rewrite <- (filter_all l) at 2.
  apply filter_ext_in. intros x Hx. apply negb_true_iff, cell_eqb_neq.
  congruence.
Qed.

Lemma insert_key_perm (k : cell) (l : list cell) :
  Permutation (insert_key k l) (k :: l).
Proof.
  induction l as [|x l IH]; simpl; [reflexivity|].
  destruct (cell_leb k x); [reflexivity|].
  rewrite IH. apply perm_swap.
Qed.

Lemma sort_keys_perm (l : list cell) : Permutation (sort_keys l) l.
Proof.
  induction l as [|x l IH]; simpl; [reflexivity|].
  rewrite insert_key_perm. now constructor.
Qed.

Lemma group_keys_In (k : cell) (col : list cell) :
  In k (group_keys col) <-> In k col /\ k <> NA.
Proof.
  unfold group_keys. split.
  - intro H. apply (Permutation_in _ (sort_keys_perm _)) in H.
    apply unique_In, filter_In in H as (H & Hn). split; [exact H|].
    intros ->. discriminate.
  - intros (H & Hn).
    apply (Permutation_in _ (Permutation_sym (sort_keys_perm _))).
    apply unique_In, filter_In. split; [exact H|]. now destruct k.
Qed.

Lemma group_keys_NoDup (col : list cell) : NoDup (group_keys col).
Proof.
  unfold group_keys.
  eapply Permutation_NoDup; [apply Permutation_sym, sort_keys_perm|].
  apply unique_NoDup.
Qed.

Lemma group_rows_In (i : nat) (k : cell) (df : DataFrame) (r : Row) :
  In r (group_rows i k df) <-> In r (rows df) /\ cell_at i r = k.
Proof. unfold group_rows. now rewrite filter_In, cell_eqb_eq. Qed.

(** A key of the grouping has at least one row. *)
Lemma group_rows_nonempty (i : nat) (k : cell) (df : DataFrame) :
  In k (group_keys (column_values i df)) -> group_rows i k df <> [].
Proof.
  intros H E. apply group_keys_In in H as (H & _).
  unfold column_values in H. apply in_map_iff in H as (r & Hr & Hin).
  assert (In r (group_rows i k df)) as Hg by (apply group_rows_In; now split).
  rewrite E in Hg. destruct Hg.
Qed.

Lemma mapM_Ok_In {A B : Type} (f : A -> result B) (l : list A) (ys : list B)
    (y : B) :
  mapM f l = Ok ys -> In y ys -> exists x, In x l /\ f x = Ok y.
Proof.
  revert ys. induction l as [|x l IH]; simpl; intros ys H Hin.
  - injection H as <-. destruct Hin.
  - destruct (f x) as [y0|] eqn:Ex; simpl in H; [|discriminate].
    destruct (mapM f l) as [ys0|]; simpl in H; [|discriminate].
    injection H as <-. destruct Hin as [<-|Hin].
    + exists x. now split; [left|].
    + destruct (IH ys0 eq_refl Hin) as (x' & Hx' & E). exists x'.
      now split; [right|].
Qed.

Lemma mapM_Ok_each {A B : Type} (f : A -> result B) (l : list A) (ys : list B)
    (x : A) :
  mapM f l = Ok ys -> In x l -> exists y, f x = Ok y /\ In y ys.
Proof.
  revert ys. induction l as [|x0 l IH]; simpl; intros ys H Hin.
  - destruct Hin.
  - destruct (f x0) as [y0|] eqn:Ex; simpl in H; [|discriminate].
    destruct (mapM f l) as [ys0|]; simpl in H; [|discriminate].
    injection H as <-. destruct Hin as [<-|Hin].
    + exists y0. now split; [|left].
    + destruct (IH ys0 eq_refl Hin) as (y & E & Hy). exists y.
      now split; [|right].
Qed.

Lemma mapM_Ok_map {A B C : Type} (f : A -> result B) (g : B -> C) (h : A -> C)
    (l : list A) (ys : list B) :
  (forall x y, f x = Ok y -> g y = h x) ->
  mapM f l = Ok ys -> map g ys = map h l.
Proof.
  intro Hgh. revert ys. induction l as [|x l IH]; simpl; intros ys H.
  - now injection H as <-.
  - destruct (f x) as [y0|] eqn:Ex; simpl in H; [|discriminate].
    destruct (mapM f l) as [ys0|]; simpl in H; [|discriminate].
    injection H as <-. simpl. now rewrite (Hgh _ _ Ex), (IH ys0).
Qed.

Lemma mapM_total {A B : Type} (f : A -> result B) (l : list A) :
  (forall x, In x l -> exists y, f x = Ok y) -> exists ys, mapM f l = Ok ys.
Proof.
  induction l as [|x l IH]; simpl; intro H.
  - now exists [].
  - destruct (H x (or_introl eq_refl)) as (y & ->).
    destruct IH as (ys & ->); [intros; apply H; now right|].
    simpl. now eexists.
Qed.


Lemma zsum_int_values (col : list cell) :
  fold_right Z.add 0 (int_values col) = zsum (map cell_value col).
Proof.
  unfold zsum. induction col as [|c col IH]; simpl; [reflexivity|].
  destruct c; simpl; rewrite IH; reflexivity.
Qed.

(** The sum over a part of a column of numbers. *)
Lemma sum_cells_numeric (float_sum : list spec_float -> spec_float)
    (col part : list cell) :
  numeric_column col = true ->
  sum_cells float_sum col part =
    Ok (if int_column col
        then Int64 (wrap64 (zsum (map cell_value part)))
        else Float64 (float_sum (float_values part))).
Proof.
  intro H. unfold sum_cells. rewrite H, zsum_int_values.
  now destruct (int_column col).
Qed.


(** [wrap64] leaves the integers of int64 as they are. *)
Lemma wrap64_small (z : Z) : - 2 ^ 63 <= z < 2 ^ 63 -> wrap64 z = z.
Proof.
  intro H. unfold wrap64. rewrite Z.mod_small; lia.
Qed.

Lemma wrap64_range (z : Z) : - 2 ^ 63 <= wrap64 z < 2 ^ 63.
Proof.
  unfold wrap64.
  pose proof (Z.mod_pos_bound (z + 2 ^ 63) (2 ^ 64) ltac:(lia)). lia.
Qed.

(** ** Receipts against quantities *)

Lemma reconciliation_row_inv (df : DataFrame) (iq ir : nat) (k : cell)
    (g : list Row) (row : ReconciliationRow) :
  reconciliation_row df iq ir k g = Ok row ->
  po_number row = k /\
  sum_cells group_sum (column_values iq df) (map (cell_at iq) g)
    = Ok (total_quantity row) /\
  sum_cells group_sum (column_values ir df) (map (cell_at ir) g)
    = Ok (total_received row) /\
  Difference row = number_sub (total_quantity row) (total_received row).
Proof.
  unfold reconciliation_row.
  destruct (sum_cells group_sum (column_values iq df) (map (cell_at iq) g))
    as [q|]; simpl; [|discriminate].
  destruct (sum_cells group_sum (column_values ir df) (map (cell_at ir) g))
    as [r|]; simpl; [|discriminate].
  intro H. injection H as <-. simpl. now repeat split.
Qed.

(** The reconciliation returns on a table whose two quantity columns hold
    numbers and blanks. *)
Lemma receipts_vs_quantity_total (df : DataFrame) (ipo iq ir : nat) :
  col_index "PO Number" (columns df) = Some ipo ->
  col_index "Quantity" (columns df) = Some iq ->
  col_index "Received Quantity" (columns df) = Some ir ->
  numeric_column (column_values iq df) = true ->
  numeric_column (column_values ir df) = true ->
  exists rvq,
    receipts_vs_quantity df = Ok rvq /\
    mapM (fun k => reconciliation_row df iq ir k (group_rows ipo k df))
         (group_keys (column_values ipo df)) = Ok rvq.
Proof.
  intros Hpo Hq Hr Fq Fr. unfold receipts_vs_quantity, getcol.
  rewrite Hpo, Hq, Hr. cbn [rbind].
  destruct (mapM_total
              (fun k => reconciliation_row df iq ir k (group_rows ipo k df))
              (group_keys (column_values ipo df))) as (rvq & E).
  - intros k _. unfold reconciliation_row.
    rewrite (sum_cells_numeric _ _ _ Fq), (sum_cells_numeric _ _ _ Fr).
    cbn [rbind]. now eexists.
  - exists rvq. now split.
Qed.

Lemma mismatches_In (l : list ReconciliationRow) (row : ReconciliationRow) :
  In row (mismatches l) <->
  In row l /\ number_nonzero (Difference row) = true.
Proof. unfold mismatches. now rewrite filter_In. Qed.

(** ** Supplier performance *)

Lemma filter_length_le {A : Type} (p : A -> bool) (l : list A) :
  (List.length (filter p l) <= List.length l)%nat.
Proof.
  induction l as [|x l IH]; simpl; [lia|]. destruct (p x); simpl; lia.
Qed.

Lemma filter_notna_id (l : list cell) :
  Forall (fun c => c <> NA) l -> filter notna l = l.
Proof.
  induction 1 as [|c l Hc F IH]; simpl; [reflexivity|].
  destruct c; simpl; congruence.
Qed.

Lemma nunique_of_NoDup (l : list cell) :
  NoDup l -> Forall (fun c => c <> NA) l -> nunique l = List.length l.
Proof.
  intros N F. unfold nunique. rewrite (filter_notna_id l F).
  now rewrite unique_of_NoDup.
Qed.

Lemma supplier_kpi_inv (df : DataFrame) (ipo iamt idel iest : nat) (k : cell)
    (g : list Row) (kpi : SupplierKPI) :
  supplier_kpi df ipo iamt idel iest k g = Ok kpi ->
  kpi_supplier kpi = k /\
  total_orders kpi = nunique (map (cell_at ipo) g) /\
  on_time_deliveries kpi = count_against date_le df idel iest g /\
  delayed_deliveries kpi = count_against date_gt df idel iest g /\
  on_time_rate kpi =
    fmul (true_div (on_time_deliveries kpi) (total_orders kpi)) 100.
Proof.
  unfold supplier_kpi.
  destruct (sum_cells group_sum (column_values iamt df) (map (cell_at iamt) g));
    simpl; [|discriminate].
  intro H. injection H as <-. simpl. now repeat split.
Qed.

(** What the supplier table is made of: one row for each supplier, and one
    supplier at least. *)
Lemma supplier_performance_groups (df : DataFrame) (perf : list SupplierKPI) :
  supplier_performance df = Ok perf ->
  exists isup ipo iamt idel iest,
    col_index "Supplier" (columns df) = Some isup /\
    col_index "PO Number" (columns df) = Some ipo /\
    col_index "PO Total Amount (EGP)" (columns df) = Some iamt /\
    col_index "Delivery Date" (columns df) = Some idel /\
    col_index "Estimated Delivery Date" (columns df) = Some iest /\
    group_keys (column_values isup df) <> [] /\
    mapM (fun k => supplier_kpi df ipo iamt idel iest k (group_rows isup k df))
         (group_keys (column_values isup df)) = Ok perf.
Proof.
  unfold supplier_performance, getcol.
  destruct (col_index "Supplier" (columns df)) as [isup|]; cbn [rbind];
    [|discriminate].
  destruct (col_index "PO Number" (columns df)) as [ipo|]; cbn [rbind];
    [|discriminate].
  destruct (col_index "PO Total Amount (EGP)" (columns df)) as [iamt|];
    cbn [rbind]; [|discriminate].
  destruct (col_index "Delivery Date" (columns df)) as [idel|]; cbn [rbind];
    [|discriminate].
  destruct (col_index "Estimated Delivery Date" (columns df)) as [iest|];
    cbn [rbind]; [|discriminate].
  intro H. exists isup, ipo, iamt, idel, iest.
  repeat (split; [reflexivity|]).
  destruct (group_keys (column_values isup df)) as [|k ks];
    [discriminate|]. split; [discriminate | exact H].
Qed.

(** The supplier table is computed on a table that has its five columns,
    numbers in the amount column and a supplier in one row at least. *)
Lemma supplier_performance_total (df : DataFrame)
    (isup ipo iamt idel iest : nat) :
  col_index "Supplier" (columns df) = Some isup ->
  col_index "PO Number" (columns df) = Some ipo ->
  col_index "PO Total Amount (EGP)" (columns df) = Some iamt ->
  col_index "Delivery Date" (columns df) = Some idel ->
  col_index "Estimated Delivery Date" (columns df) = Some iest ->
  numeric_column (column_values iamt df) = true ->
  group_keys (column_values isup df) <> [] ->
  exists perf, supplier_performance df = Ok perf.
Proof.
  intros Hs Hpo Ha Hd He F Hne. unfold supplier_performance, getcol.
  rewrite Hs, Hpo, Ha, Hd, He. cbn [rbind].
  destruct (mapM_total
              (fun k => supplier_kpi df ipo iamt idel iest k
                          (group_rows isup k df))
              (group_keys (column_values isup df))) as (perf & E).
  - intros k _. unfold supplier_kpi. rewrite (sum_cells_numeric _ _ _ F).
    cbn [rbind]. now eexists.
  - exists perf. now destruct (group_keys (column_values isup df)).
Qed.

(** The quotient of two counts, times 100, when the divisor is not zero. *)
Lemma rate_positive_orders (a b : nat) :
  (0 < b)%nat ->
  exists q, fmul (true_div a b) 100 = Fin q /\
    (q == (Z.of_nat a # Pos.of_nat b) * 100)%Q /\ (0 <= q)%Q /\
    ((a <= b)%nat -> (q <= 100)%Q).
Proof.
  intro Hb. destruct b as [|b]; [lia|]. unfold true_div, fmul.
  set (p := Pos.of_nat (S b)).
  assert (Z.pos p = Z.of_nat (S b)) as Hp.
  { unfold p. rewrite <- Pos.of_nat_succ, Zpos_P_of_succ_nat. lia. }
  eexists. split; [reflexivity|]. split; [reflexivity|].
  unfold Qle. cbn [Qnum Qden Qmult inject_Z]. rewrite Pos.mul_1_r, Hp.
  split; [lia|]. intro Hab. lia.
Qed.

(** C1, as the code has it: each supplier's on-time rate is
    on_time_deliveries / total_orders * 100, computed without a fault.  With
    total_orders above zero it is that quotient and not negative, and it is
    at most 100 when on_time_deliveries does not exceed total_orders, as when
    the supplier's records carry pairwise distinct PO numbers, none missing.
    With total_orders zero the rate is NaN (no on-time delivery) or inf. *)
Theorem on_time_rate_formula (df : DataFrame) (perf : list SupplierKPI)
    (kpi : SupplierKPI) :
  supplier_performance df = Ok perf -> In kpi perf ->
  exists isup ipo,
    col_index "Supplier" (columns df) = Some isup /\
    col_index "PO Number" (columns df) = Some ipo /\
    let po := map (cell_at ipo) (group_rows isup (kpi_supplier kpi) df) in
    let on_time := on_time_deliveries kpi in
    let orders := total_orders kpi in
    orders = nunique po /\
    on_time_rate kpi = fmul (true_div on_time orders) 100 /\
    ((0 < orders)%nat ->
       exists q, on_time_rate kpi = Fin q /\
         (q == (Z.of_nat on_time # Pos.of_nat orders) * 100)%Q /\
         (0 <= q)%Q /\
         ((on_time <= orders)%nat -> (q <= 100)%Q)) /\
    (orders = 0%nat ->
       on_time_rate kpi = if (on_time =? 0)%nat then NaN else Inf) /\
    (NoDup po -> Forall (fun c => c <> NA) po ->
       percentage (on_time_rate kpi)).
Proof.
  intros H Hin.
  apply supplier_performance_groups in H
    as (isup & ipo & iamt & idel & iest & Hsup & Hpo & _ & _ & _ & _ & H).
  exists isup, ipo. split; [exact Hsup|]. split; [exact Hpo|].
  destruct (mapM_Ok_In _ _ _ _ H Hin) as (k & Hk & Hkpi).
  apply supplier_kpi_inv in Hkpi as (Hs & Ho & Ht & _ & Hr).
  rewrite Hs. split; [exact Ho|]. split; [exact Hr|]. split; [|split].
  - intro Hpos. rewrite Hr. now apply rate_positive_orders.
  - intro Hz. rewrite Hr, Hz. now destruct (on_time_deliveries kpi).
  - intros N F.
    pose proof (nunique_of_NoDup _ N F) as Hn. rewrite <- Ho in Hn.
    rewrite length_map in Hn.
    assert (0 < total_orders kpi)%nat as Hpos.
    { pose proof (group_rows_nonempty _ _ _ Hk) as Hne.
      destruct (group_rows isup k df); [contradiction | simpl in Hn; lia]. }
    assert (on_time_deliveries kpi <= total_orders kpi)%nat as Hle.
    { rewrite Ht, Hn. apply filter_length_le. }
    destruct (rate_positive_orders (on_time_deliveries kpi) _ Hpos)
      as (q & Hq & _ & H0 & H100).
    exists q. rewrite Hr. repeat split; auto.
Qed.

(** ** The log of a run *)

Lemma log_bind {A B : Type} (m : M A) (k : A -> M B) :
  log (bind m k) =
  (log m ++ match snd m with Ok a => log (k a) | Raise _ => [] end)%list.
Proof.
  destruct m as [l [a|e]]; simpl.
  - unfold log. now destruct (k a).
  - now rewrite app_nil_r.
Qed.

Lemma bind_assoc {A B C : Type} (m : M A) (k : A -> M B) (h : B -> M C) :
  bind (bind m k) h = bind m (fun a => bind (k a) h).
Proof.
  destruct m as [l [a|e]]; simpl; [|reflexivity].
  destruct (k a) as [l' [b|e]]; simpl; [|reflexivity].
  destruct (h b) as [l'' r]. now rewrite app_assoc.
Qed.

Lemma bind_ext {A B : Type} (m : M A) (k k' : A -> M B) :
  (forall a, k a = k' a) -> bind m k = bind m k'.
Proof. intro H. destruct m as [l [a|e]]; simpl; now rewrite ?H. Qed.

Lemma bind_emit {B : Type} (e : event) (k : unit -> M B) :
  bind (emit e) k = (e :: log (k tt), snd (k tt)).
Proof. unfold bind, emit, log. now destruct (k tt). Qed.

Lemma bind_lift_Ok {A B : Type} (a : A) (k : A -> M B) :
  bind (lift (Ok a)) k = k a.
Proof. unfold bind, lift. now destruct (k a). Qed.

Lemma bind_lift_Raise {A B : Type} (e : exn) (k : A -> M B) :
  bind (lift (Raise e)) k = ([], Raise e).
Proof. reflexivity. Qed.

(** Unfolds a section of the script down to its events, along every way it
    can end. *)
Ltac run_step :=
  match goal with
  | |- context [bind (emit _) _] => rewrite bind_emit; cbv beta
  | |- context [bind (lift ?r) _] =>
      let E := fresh "E" in
      destruct r eqn:E; [rewrite bind_lift_Ok | rewrite bind_lift_Raise];
      cbv beta
  end.

Ltac run_section :=
  repeat run_step; unfold log, emit, ret; cbn [fst snd].

Section Events.

Variable P : event -> bool.

Lemma silent_app (l1 l2 : list event) :
  silent P l1 -> silent P l2 -> silent P (l1 ++ l2).
Proof. intros H1 H2. apply Forall_app. now split. Qed.

Lemma silent_bind {A B : Type} (m : M A) (k : A -> M B) :
  silent P (log m) -> (forall a, silent P (log (k a))) ->
  silent P (log (bind m k)).
Proof.
  intros Hm Hk. rewrite log_bind. apply silent_app; [exact Hm|].
  destruct (snd m); [apply Hk | constructor].
Qed.


Lemma silent_not_In (l : list event) (e : event) :
  silent P l -> P e = true -> ~ In e l.
Proof.
  intros H He Hin. unfold silent in H. rewrite Forall_forall in H.
  apply H in Hin. congruence.
Qed.

End Events.

Lemma supplier_section_silent (P : event -> bool) (df : DataFrame) :
  (forall v, P (st_dataframe (Performance v)) = false) ->
  (forall v, P (st_bar_chart v) = false) ->
  (forall s, P (st_write (Text s)) = false) ->
  silent P (log (supplier_section df)).
Proof.
  intros H1 H2 H3. unfold supplier_section, silent. run_section;
    repeat constructor; auto.
Qed.

Lemma ranking_section_silent (P : event -> bool) (df : DataFrame)
    (perf : list SupplierKPI) :
  (forall v, P (st_bar_chart v) = false) ->
  (forall s, P (st_write (Text s)) = false) ->
  silent P (log (ranking_section df perf)).
Proof.
  intros H2 H3. unfold ranking_section, silent. run_section;
    repeat constructor; auto.
Qed.

Lemma summary_section_silent (P : event -> bool) (df : DataFrame) :
  (forall s f, P (st_metric s f) = false) ->
  (forall s, P (st_write (Text s)) = false) ->
  silent P (log (summary_section df)).
Proof.
  intros H2 H3. unfold summary_section, silent. run_section;
    repeat constructor; auto.
Qed.

Lemma export_section_silent (P : event -> bool) (df : DataFrame)
    (perf : list SupplierKPI) :
  (forall s v f, P (st_download_button s v f) = false) ->
  (forall s, P (st_write (Text s)) = false) ->
  silent P (log (export_section df perf)).
Proof.
  intros H2 H3. unfold export_section, silent. run_section;
    repeat constructor; auto.
Qed.

Lemma reconciliation_section_no_warning (df : DataFrame) :
  silent is_warning (log (reconciliation_section df)).
Proof.
  unfold reconciliation_section, silent.
  destruct (reconciliation_guard df); run_section; repeat constructor.
Qed.

(** The warning of the delay analysis is there exactly when more than five
    rows are delayed. *)
Lemma delay_analysis_warning (ctl : Controls) (df : DataFrame) (s : string) :
  In (st_warning s) (log (delay_analysis ctl df)) <->
  s = alert_message /\
  exists ds, delayed_shipments (delay_threshold ctl) df = Ok ds /\
    (5 < List.length ds)%nat.
Proof.
  unfold delay_analysis. run_section.
  - destruct (5 <? List.length a)%nat eqn:E5; simpl.
    + apply Nat.ltb_lt in E5. split.
      * intros [H|[H|[H|[H|[H|[]]]]]]; try discriminate.
        injection H as <-. split; [reflexivity|]. now exists a.
      * intros (-> & _). tauto.
    + apply Nat.ltb_ge in E5. split.
      * intros [H|[H|[H|[H|[]]]]]; discriminate.
      * intros (_ & ds & Hds & Hlt). injection Hds as <-. lia.
  - split.
    + intros [H|[H|[]]]; discriminate.
    + intros (_ & ds & Hds & _). discriminate.
Qed.

Lemma metrics_warning (ctl : Controls) (df : DataFrame) (s : string) :
  In (st_warning s) (log (metrics ctl df)) <->
  In (st_warning s) (log (delay_analysis ctl df)).
Proof.
  unfold metrics. rewrite !bind_emit. cbv beta. unfold log at 1. cbn [fst].
  rewrite log_bind. split.
  - intros [H|[H|H]]; try discriminate.
    apply in_app_or in H as [H|H]; [exact H|]. exfalso.
    destruct (snd (delay_analysis ctl df)); [|destruct H].
    revert H. apply (silent_not_In is_warning); [|reflexivity].
    apply silent_bind; [now apply supplier_section_silent|]. intro perf.
    apply silent_bind; [now apply ranking_section_silent|]. intros _.
    apply silent_bind; [apply reconciliation_section_no_warning|]. intros _.
    apply silent_bind; [now apply summary_section_silent|]. intros _.
    now apply export_section_silent.
  - intro H. right. right. apply in_or_app. now left.
Qed.

Section Run.

Variable to_datetime : list cell -> list (option Z).

(** A run that gets to a filtered table shows the sidebar and then
    everything that is computed from that table. *)
Lemma process_filtered (sh : Sheet) (ctl : Controls) (fdf : DataFrame) :
  filtered_table to_datetime sh ctl = Some fdf ->
  exists o c s,
    process to_datetime sh ctl =
      ([st_sidebar_header "Filters";
        st_multiselect "Select Sales Order No" o;
        st_multiselect "Select Customer Name" c;
        st_multiselect "Select Supplier" s] ++ log (metrics ctl fdf),
       snd (metrics ctl fdf))%list.
Proof.
  intro H. apply filtered_table_inv in H as (df & Hn & Hf & Hs).
  pose proof (normalized_table_columns _ _ _ Hn) as Hc.
  apply normalized_table_inv in Hn as (Hm & Hn).
  destruct (validated_column _ "Sales Order No" Hm) as (i & Hi);
    [simpl; tauto|].
  destruct (validated_column _ "Customer Name" Hm) as (j & Hj);
    [simpl; tauto|].
  apply col_index_has_column in Hs as (k & Hk).
  rewrite <- Hc in Hi, Hj.
  exists (unique (column_values i df)), (unique (column_values j df)),
    (unique (column_values k df)).
  unfold process. cbv zeta.
  change (columns (strip_columns (read_excel sh)))
    with (map strip (header sh)).
  rewrite Hm, Hn, bind_lift_Ok.
  unfold sidebar, getcol. rewrite Hi, Hj, Hk.
  rewrite Hf. unfold bind, lift, emit, log.
  destruct (metrics ctl fdf) as [l r]. reflexivity.
Qed.


(** C8: in a run that gets to the filtered table, the critical-delay
    warning is shown exactly when more than five shipments are delayed; with
    five delayed shipments it is not shown. *)
Theorem critical_delay_warning (sh : Sheet) (ctl : Controls)
    (fdf : DataFrame) :
  filtered_table to_datetime sh ctl = Some fdf ->
  exists ds,
    delayed_shipments (delay_threshold ctl) fdf = Ok ds /\
    (In (st_warning alert_message)
        (log (script to_datetime (Some sh) ctl)) <->
     (5 < List.length ds)%nat) /\
    (List.length ds = 5%nat ->
     forall s, ~ In (st_warning s) (log (script to_datetime (Some sh) ctl))).
Proof.
  intro H.
  destruct (delayed_shipments_total to_datetime sh ctl fdf
              (delay_threshold ctl) H) as (ie & ia & _ & _ & Hds).
  set (ds := filter _ (rows fdf)) in Hds.
  destruct (process_filtered sh ctl fdf H) as (o & c & s0 & Hp).
  assert (forall s, In (st_warning s) (log (script to_datetime (Some sh) ctl))
                    <-> In (st_warning s) (log (delay_analysis ctl fdf)))
    as Hlog.
  { intro s. unfold script. rewrite !bind_emit. cbv beta. rewrite Hp.
    unfold log at 1. cbn [fst snd app].
    rewrite <- metrics_warning. split.
    - intros [E|[E|[E|[E|[E|[E|Hin]]]]]]; try discriminate. exact Hin.
    - intro Hin. do 6 right. exact Hin. }
  exists ds. split; [exact Hds|]. split.
  - rewrite Hlog, delay_analysis_warning. split.
    + intros (_ & ds' & Hds' & Hlt). rewrite Hds in Hds'.
      now injection Hds' as <-.
    + intro Hlt. split; [reflexivity|]. now exists ds.
  - intros H5 s Hin. apply Hlog, delay_analysis_warning in Hin
      as (_ & ds' & Hds' & Hlt).
    rewrite Hds in Hds'. injection Hds' as <-. lia.
Qed.

End Run.

(** ** The guard of the reconciliation *)






Section Guard.

Variable to_datetime : list cell -> list (option Z).



End Guard.

End Properties.

(** ** The properties on the sample uploads *)

Section SampleRuns.

#[local] Existing Instance sample_sums.

Lemma sample_filtered_table :
  filtered_table sample_to_datetime sample_sheet sample_controls
  = Some sample_filtered.
Proof. vm_compute. reflexivity. Qed.

Lemma sample_normalized_table :
  normalized_table sample_to_datetime sample_sheet = Some sample_filtered.
Proof. vm_compute. reflexivity. Qed.

Lemma sample_supplier_performance :
  supplier_performance sample_filtered = Ok sample_performance.
Proof. vm_compute. reflexivity. Qed.

(** C1 fails as stated.  In the sample, Acme has one purchase order with two
    lines, both on time: total_orders is 1, on_time_deliveries is 2 and the
    rate is 200, above 100.  Beta and Gamma have no PO number: total_orders
    is 0 and the rate is NaN for Beta and inf for Gamma, not 0. *)
Lemma on_time_rate_counterexample :
  filtered_table sample_to_datetime sample_sheet sample_controls
    = Some sample_filtered /\
  supplier_performance sample_filtered = Ok [acme_kpi; beta_kpi; gamma_kpi] /\
  on_time_rate acme_kpi = Fin (200 # 1) /\
  ~ percentage (on_time_rate acme_kpi) /\
  total_orders beta_kpi = 0%nat /\ on_time_rate beta_kpi = NaN /\
  total_orders gamma_kpi = 0%nat /\ on_time_rate gamma_kpi = Inf /\
  (forall q, on_time_rate beta_kpi <> Fin q) /\
  (forall q, on_time_rate gamma_kpi <> Fin q).
Proof.
  split; [exact sample_filtered_table|].
  split; [exact sample_supplier_performance|].
  split; [reflexivity|]. split.
  - intros (q & E & _ & H). simpl in E. injection E as <-.
    unfold Qle in H. simpl in H. lia.
  - repeat split; try reflexivity; intros q E; discriminate.
Qed.

Lemma on_time_rate_formula_witness :
  supplier_performance sample_filtered = Ok sample_performance /\
  In gamma_kpi sample_performance /\
  on_time_rate gamma_kpi = fmul (true_div 1 0) 100.
Proof.
  split; [exact sample_supplier_performance|].
  split; [simpl; tauto|].
  destruct (on_time_rate_formula sample_filtered sample_performance gamma_kpi
              sample_supplier_performance
              (or_intror (or_intror (or_introl eq_refl))))
    as (isup & ipo & _ & _ & _ & H & _).
  exact H.
Defined.

Lemma delayed_shipments_iff_witness :
  filtered_table sample_to_datetime sample_sheet sample_controls
    = Some sample_filtered /\
  exists ds, delayed_shipments 10 sample_filtered = Ok ds.
Proof.
  split; [exact sample_filtered_table|].
  destruct (delayed_shipments_iff sample_to_datetime sample_sheet
              sample_controls sample_filtered 10 sample_filtered_table)
    as (ie & ia & ds & _ & _ & H & _).
  now exists ds.
Defined.

Lemma sample_normalize :
  normalize sample_to_datetime (strip_columns (read_excel sample_sheet))
  = Ok sample_filtered.
Proof. vm_compute. reflexivity. Qed.

Lemma normalize_order_identifiers_witness :
  normalize sample_to_datetime (strip_columns (read_excel sample_sheet))
    = Ok sample_filtered /\
  exists i, col_index "Sales Order No" sample_columns = Some i /\
    forall r, In r (rows sample_filtered) -> cell_at i r <> NA.
Proof.
  split; [exact sample_normalize|].
  destruct (normalize_order_identifiers sample_to_datetime _ _ sample_normalize)
    as (i & Hi & H).
  exists i. split; [exact Hi|]. intros r Hr. now apply H.
Defined.

Lemma filtered_df_empty_spec_witness :
  sales_order_no sample_controls = [] /\
  customer_name sample_controls = [] /\
  supplier sample_controls = [] /\
  filtered_df sample_controls sample_filtered = Ok sample_filtered.
Proof.
  repeat (split; [reflexivity|]).
  exact (proj1 (filtered_df_empty_spec sample_controls sample_filtered
                  eq_refl eq_refl eq_refl)).
Defined.

Lemma acme_filtered_df :
  filtered_df acme_controls sample_filtered = Ok acme_filtered.
Proof. vm_compute. reflexivity. Qed.

Lemma filtered_df_idempotent_witness :
  filtered_df acme_controls sample_filtered = Ok acme_filtered /\
  filtered_df acme_controls acme_filtered = Ok acme_filtered.
Proof.
  split; [exact acme_filtered_df|].
  exact (filtered_df_idempotent acme_controls sample_filtered acme_filtered
           acme_filtered_df).
Defined.

Lemma filtered_df_subsequence_witness :
  normalized_table sample_to_datetime sample_sheet = Some sample_filtered /\
  filtered_df acme_controls sample_filtered = Ok acme_filtered /\
  subseq (rows acme_filtered) (rows sample_filtered).
Proof.
  split; [exact sample_normalized_table|]. split; [exact acme_filtered_df|].
  exact (proj1 (filtered_df_subsequence sample_to_datetime sample_sheet
                  acme_controls sample_filtered acme_filtered
                  sample_normalized_table acme_filtered_df)).
Defined.

Lemma short_sheet_lacks_quantity :
  exists x, In x required_columns /\ ~ In x (map strip (header short_sheet)).
Proof.
  exists "Quantity". split; [simpl; tauto|].
  simpl. intuition discriminate.
Qed.

Lemma missing_columns_halt_witness :
  (exists x, In x required_columns /\
     ~ In x (map strip (header short_sheet))) /\
  process sample_to_datetime short_sheet sample_controls =
    ([st_error
        "Missing columns in the uploaded file: Quantity, Received Quantity"],
     Ok tt).
Proof.
  split; [exact short_sheet_lacks_quantity|].
  exact (proj1 (proj2 (missing_columns_halt sample_to_datetime short_sheet
                         sample_controls short_sheet_lacks_quantity))).
Defined.

Lemma sample_receipts :
  receipts_vs_quantity sample_filtered
  = Ok [mkRecon (Str "X1") (Int64 15) (Int64 13) (Int64 2)].
Proof. vm_compute. reflexivity. Qed.

Lemma critical_delay_warning_witness :
  filtered_table sample_to_datetime sample_sheet sample_controls
    = Some sample_filtered /\
  exists ds, delayed_shipments 10 sample_filtered = Ok ds /\
    (In (st_warning alert_message)
        (log (script sample_to_datetime (Some sample_sheet) sample_controls))
     <-> (5 < List.length ds)%nat).
Proof.
  split; [exact sample_filtered_table|].
  destruct (critical_delay_warning sample_to_datetime sample_sheet
              sample_controls sample_filtered sample_filtered_table)
    as (ds & Hds & H & _).
  exists ds. now split.
Defined.



End SampleRuns.

(** * Further properties of the script *)

Section FurtherProperties.

Context {sums : FloatSums}.

(** ** More on the filters (lines 55 to 62) *)

Lemma filter_all_true {A : Type} (p : A -> bool) (l : list A) :
  (forall x, In x l -> p x = true) -> filter p l = l.
Proof.
  induction l as [|x l IH]; simpl; intro H; [reflexivity|].
  rewrite (H x (or_introl eq_refl)), IH; [reflexivity|].
  intros y Hy. apply H. now right.
Qed.

Lemma select_isin_rows (col : string) (values : list cell) (df d : DataFrame) :
  select_isin col values df = Ok d ->
  columns d = columns df /\
  forall r, In r (rows d) <-> In r (rows df) /\ accepts col values df r.
Proof.
  unfold select_isin, accepts. destruct values as [|v values].
  - intro H. injection H as <-. split; [reflexivity|]. intro r. tauto.
  - unfold getcol. destruct (col_index col (columns df)) as [i|];
      cbn [rbind]; [|discriminate].
    intro H. injection H as <-. split; [reflexivity|]. intro r.
    cbn [rows with_rows]. rewrite filter_In.
    change (cell_eqb (cell_at i r) v || isin values (cell_at i r))
      with (isin (v :: values) (cell_at i r)).
    rewrite isin_In. split.
    + intros (Hr & Hin). split; [exact Hr|]. right. now exists i.
    + intros (Hr & [E|(i' & Ei & Hin)]); [discriminate|].
      injection Ei as <-. now split.
Qed.

Lemma select_isin_outcome (col : string) (values : list cell) (df : DataFrame) :
  match select_isin col values df with
  | Ok _ => values = [] \/ has_column col (columns df) = true
  | Raise e =>
      e = KeyError col /\ values <> [] /\ has_column col (columns df) = false
  end.
Proof.
  unfold select_isin, getcol. destruct values as [|v values]; [now left|].
  pose proof (col_index_has_column col (columns df)) as H.
  destruct (col_index col (columns df)) as [i|]; simpl.
  - right. apply H. now exists i.
  - split; [reflexivity|]. split; [discriminate|].
    destruct (has_column col (columns df)); [|reflexivity].
    destruct H as [H _]. destruct (H eq_refl). discriminate.
Qed.

Lemma accepts_columns (col : string) (values : list cell) (df d : DataFrame)
    (r : Row) :
  columns d = columns df -> accepts col values d r <-> accepts col values df r.
Proof. unfold accepts. intros ->. reflexivity. Qed.

(** X1: the filtered table has the columns of the input and exactly the rows
    that pass all three multiselects, an empty multiselect letting every row
    pass. *)
Theorem filtered_df_rows (ctl : Controls) (df d : DataFrame) :
  filtered_df ctl df = Ok d ->
  columns d = columns df /\
  forall r, In r (rows d) <->
    In r (rows df) /\
    accepts "Sales Order No" (sales_order_no ctl) df r /\
    accepts "Customer Name" (customer_name ctl) df r /\
    accepts "Supplier" (supplier ctl) df r.
Proof.
  unfold filtered_df.
  destruct (select_isin "Sales Order No" (sales_order_no ctl) df)
    as [d1|] eqn:E1; simpl; [|discriminate].
  destruct (select_isin "Customer Name" (customer_name ctl) d1)
    as [d2|] eqn:E2; simpl; [|discriminate].
  intro E3.
  apply select_isin_rows in E1 as (C1 & R1).
  apply select_isin_rows in E2 as (C2 & R2).
  apply select_isin_rows in E3 as (C3 & R3).
  split; [congruence|]. intro r.
  rewrite R3, R2, R1.
  rewrite (accepts_columns "Supplier" _ df d2) by congruence.
  rewrite (accepts_columns "Customer Name" _ df d1) by congruence.
  tauto.
Qed.

(** X2: the filter step returns a table exactly when each multiselect with a
    selection has its column in the table; otherwise it stops with the
    KeyError of the first of the three columns, in the order order number,
    customer, supplier, that has a selection and is not in the table. *)
Theorem filtered_df_outcome (ctl : Controls) (df : DataFrame) :
  match filtered_df ctl df with
  | Ok _ =>
      (sales_order_no ctl = [] \/
       has_column "Sales Order No" (columns df) = true) /\
      (customer_name ctl = [] \/
       has_column "Customer Name" (columns df) = true) /\
      (supplier ctl = [] \/ has_column "Supplier" (columns df) = true)
  | Raise e =>
      (e = KeyError "Sales Order No" /\ sales_order_no ctl <> [] /\
       has_column "Sales Order No" (columns df) = false) \/
      (e = KeyError "Customer Name" /\ customer_name ctl <> [] /\
       has_column "Customer Name" (columns df) = false /\
       (sales_order_no ctl = [] \/
        has_column "Sales Order No" (columns df) = true)) \/
      (e = KeyError "Supplier" /\ supplier ctl <> [] /\
       has_column "Supplier" (columns df) = false /\
       (sales_order_no ctl = [] \/
        has_column "Sales Order No" (columns df) = true) /\
       (customer_name ctl = [] \/
        has_column "Customer Name" (columns df) = true))
  end.
Proof.
  unfold filtered_df.
  pose proof (select_isin_outcome "Sales Order No" (sales_order_no ctl) df)
    as O1.
  destruct (select_isin "Sales Order No" (sales_order_no ctl) df)
    as [d1|e1] eqn:E1; simpl; [|now left].
  apply select_isin_rows in E1 as (C1 & _).
  pose proof (select_isin_outcome "Customer Name" (customer_name ctl) d1)
    as O2.
  destruct (select_isin "Customer Name" (customer_name ctl) d1)
    as [d2|e2] eqn:E2; simpl.
  2:{ rewrite C1 in O2. right; left. tauto. }
  apply select_isin_rows in E2 as (C2 & _).
  pose proof (select_isin_outcome "Supplier" (supplier ctl) d2) as O3.
  rewrite C2, C1 in O3. rewrite C1 in O2.
  destruct (select_isin "Supplier" (supplier ctl) d2) as [d3|e3].
  - now repeat split.
  - right; right. tauto.
Qed.

Lemma select_isin_covering (col : string) (values : list cell)
    (df : DataFrame) (i : nat) :
  col_index col (columns df) = Some i ->
  (forall r, In r (rows df) -> In (cell_at i r) values) ->
  select_isin col values df = Ok df.
Proof.
  intros Hi Hall. unfold select_isin, getcol.
  destruct values as [|v vs]; [reflexivity|].
  rewrite Hi. cbn [rbind]. rewrite filter_all_true.
  - now rewrite with_rows_id.
  - intros r Hr. apply isin_In. now apply Hall.
Qed.

Lemma select_isin_all (col : string) (df : DataFrame) (i : nat) :
  col_index col (columns df) = Some i ->
  select_isin col (unique (column_values i df)) df = Ok df.
Proof.
  intro Hi. apply (select_isin_covering _ _ _ i Hi).
  intros r Hr. apply unique_In. unfold column_values. now apply in_map.
Qed.

(** X3: selecting every value that a multiselect offers (the distinct values
    of its column) filters nothing out: the filtered table is the input, as
    with no selection at all. *)
Theorem filtered_df_all_selected (df : DataFrame) (i j k : nat)
    (threshold : Z) :
  col_index "Sales Order No" (columns df) = Some i ->
  col_index "Customer Name" (columns df) = Some j ->
  col_index "Supplier" (columns df) = Some k ->
  filtered_df
    (mkControls (unique (column_values i df)) (unique (column_values j df))
       (unique (column_values k df)) threshold) df
  = Ok df.
Proof.
  intros Hi Hj Hk. unfold filtered_df. simpl.
  rewrite (select_isin_all _ _ _ Hi). simpl.
  rewrite (select_isin_all _ _ _ Hj). simpl.
  apply (select_isin_all _ _ _ Hk).
Qed.

(** ** More on the schema check (lines 24 to 31) *)

Lemma required_columns_NoDup : NoDup required_columns.
Proof.
  unfold required_columns.
  repeat (constructor; [simpl; intuition discriminate|]). constructor.
Qed.

(** X13: the list of missing columns holds exactly the required columns
    that are not in the table, once each, in the order of the required list,
    and it is empty exactly when every required column is in the table. *)
Theorem missing_columns_complete (cols : list string) :
  (forall c, In c (missing_columns cols) <->
     In c required_columns /\ ~ In c cols) /\
  (missing_columns cols = [] <->
   forall c, In c required_columns -> In c cols) /\
  subseq (missing_columns cols) required_columns /\
  NoDup (missing_columns cols).
Proof.
  split; [intro c; apply missing_columns_In|]. split; [|split].
  - split.
    + intros E c Hc. destruct (validated_column cols c E Hc) as (i & Hi).
      apply has_column_In, col_index_has_column. now exists i.
    + intro H. destruct (missing_columns cols) as [|x l] eqn:E; [reflexivity|].
      assert (In x (missing_columns cols)) as Hx by (rewrite E; now left).
      apply missing_columns_In in Hx as (Hreq & Hn). now destruct Hn; apply H.
  - apply subseq_filter.
  - apply NoDup_filter, required_columns_NoDup.
Qed.

Lemma lstrip_blank_app (a s : string) :
  blank a = true -> lstrip (a ++ s) = lstrip s.
Proof.
  induction a as [|c a IH]; [reflexivity|].
  intro H. cbn [blank] in H. apply andb_true_iff in H as (Hc & H).
  cbn [append lstrip]. rewrite Hc. now apply IH.
Qed.

Lemma lstrip_blank (b : string) : blank b = true -> lstrip b = "".
Proof.
  intro H. assert (b ++ "" = b) as E by (clear H; induction b; simpl; congruence).
  rewrite <- E at 1. now rewrite lstrip_blank_app.
Qed.

Lemma isspace2_start (a x : ascii) :
  (nat_of_ascii x <= 32 \/ 194 <= nat_of_ascii x)%nat -> isspace2 a x = false.
Proof.
  intro H. unfold isspace2. cbv zeta.
  destruct (Nat.eqb_spec (nat_of_ascii x) 133); [lia|].
  destruct (Nat.eqb_spec (nat_of_ascii x) 160); [lia|].
  apply andb_false_r.
Qed.

Lemma isspace3_start_2 (a x c : ascii) :
  (nat_of_ascii x <= 32 \/ 194 <= nat_of_ascii x)%nat ->
  isspace3 a x c = false.
Proof.
  intro H. unfold isspace3. cbv zeta.
  destruct (Nat.eqb_spec (nat_of_ascii x) 154); [lia|].
  destruct (Nat.eqb_spec (nat_of_ascii x) 128); [lia|].
  destruct (Nat.eqb_spec (nat_of_ascii x) 129); [lia|].
  now rewrite !andb_false_r.
Qed.

Lemma isspace3_start_3 (a b x : ascii) :
  (nat_of_ascii x <= 32 \/ 194 <= nat_of_ascii x)%nat ->
  isspace3 a b x = false.
Proof.
  intro H. unfold isspace3. cbv zeta.
  destruct (Nat.eqb_spec (nat_of_ascii x) 128); [lia|].
  destruct (Nat.eqb_spec (nat_of_ascii x) 159); [lia|].
  destruct (Nat.eqb_spec (nat_of_ascii x) 168); [lia|].
  destruct (Nat.eqb_spec (nat_of_ascii x) 169); [lia|].
  destruct (Nat.eqb_spec (nat_of_ascii x) 175); [lia|].
  destruct (Nat.leb_spec 128 (nat_of_ascii x));
    destruct (Nat.leb_spec (nat_of_ascii x) 138); try lia;
    now rewrite !andb_false_r.
Qed.

(** Whitespace after a string completes no whitespace character with the
    last bytes of the string: [lstrip] of the padded string is that of the
    string, padded, unless the string is all whitespace. *)
Lemma lstrip_app_spaces (b : string) :
  lstrip b = "" -> space_start b ->
  forall (n : nat) (s : string), (String.length s <= n)%nat ->
  lstrip (s ++ b) = match lstrip s with "" => "" | r => r ++ b end.
Proof.
  intros Hb Hs. induction n as [|n IH]; intros s Hn.
  - destruct s; [|simpl in Hn; lia]. cbn [append lstrip]. exact Hb.
  - destruct s as [|a s1]; [cbn [append lstrip]; exact Hb|].
    cbn [String.length] in Hn.
    cbn [append lstrip]. destruct (isspace a) eqn:Ea.
    { apply IH. lia. }
    destruct s1 as [|x s2].
    { cbn [append]. destruct b as [|y b']; [reflexivity|].
      cbn [space_start] in Hs.
      rewrite (isspace2_start a y Hs).
      destruct b' as [|z b'']; [reflexivity|].
      now rewrite (isspace3_start_2 a y z Hs). }
    cbn [String.length] in Hn.
    cbn [append]. destruct (isspace2 a x) eqn:Eax.
    { apply IH. lia. }
    destruct s2 as [|c s3].
    { cbn [append]. destruct b as [|y b']; [reflexivity|].
      cbn [space_start] in Hs.
      now rewrite (isspace3_start_3 a x y Hs). }
    cbn [String.length] in Hn.
    cbn [append]. destruct (isspace3 a x c) eqn:Eaxc.
    { apply IH. lia. }
    reflexivity.
Qed.

Lemma rstrip_app_spaces (s b : string) :
  lstrip b = "" -> space_start b -> rstrip (s ++ b) = rstrip s.
Proof.
  intros Hb Hs. induction s as [|c s IH].
  - destruct b as [|x b]; [reflexivity|].
    cbn [append rstrip]. unfold all_space. now rewrite Hb.
  - change (String c s ++ b) with (String c (s ++ b)).
    cbn [rstrip].
    change (String c (s ++ b)) with (String c s ++ b).
    unfold all_space.
    rewrite (lstrip_app_spaces b Hb Hs _ (String c s) (le_n _)), IH.
    now destruct (lstrip (String c s)).
Qed.

Lemma strip_app_spaces (s b : string) :
  lstrip b = "" -> space_start b -> strip (s ++ b) = strip s.
Proof.
  intros Hb Hs. unfold strip.
  rewrite (lstrip_app_spaces b Hb Hs _ s (le_n _)).
  destruct (lstrip s) as [|c r] eqn:E; [reflexivity|].
  now apply rstrip_app_spaces.
Qed.

Lemma isspace_small (x : ascii) : isspace x = true -> (nat_of_ascii x <= 32)%nat.
Proof.
  unfold isspace. cbv zeta. intro H.
  apply orb_true_iff in H as [H|H]; apply andb_true_iff in H as (_ & H);
    apply Nat.leb_le in H; lia.
Qed.

Lemma blank_space_start (b : string) : blank b = true -> space_start b.
Proof.
  destruct b as [|x b]; [exact (fun _ => I)|]. cbn [blank space_start].
  intro H. apply andb_true_iff in H as (H & _). left.
  now apply isspace_small.
Qed.

Lemma strip_app_blank (s b : string) :
  blank b = true -> strip (s ++ b) = strip s.
Proof.
  intro H. apply strip_app_spaces;
    [now apply lstrip_blank | now apply blank_space_start].
Qed.

(** Whitespace around a name is stripped away. *)
Lemma strip_padded (a s b : string) :
  blank a = true -> blank b = true -> strip (a ++ s ++ b) = strip s.
Proof.
  intros Ha Hb. unfold strip. rewrite lstrip_blank_app by assumption.
  now apply strip_app_blank.
Qed.

Lemma isspace2_lead (a b : ascii) :
  isspace2 a b = true -> nat_of_ascii a = 194%nat.
Proof.
  unfold isspace2. cbv zeta. intro H. apply andb_true_iff in H as (H & _).
  now apply Nat.eqb_eq in H.
Qed.

Lemma isspace3_lead (a b c : ascii) :
  isspace3 a b c = true -> (225 <= nat_of_ascii a <= 227)%nat.
Proof.
  unfold isspace3. cbv zeta. intro H.
  repeat (apply orb_true_iff in H as [H|H]);
    repeat (apply andb_true_iff in H as (H & _));
    apply Nat.eqb_eq in H; lia.
Qed.

Lemma isspace_lead (a : ascii) :
  (194 <= nat_of_ascii a)%nat -> isspace a = false.
Proof.
  intro H. unfold isspace. cbv zeta.
  destruct (Nat.leb_spec (nat_of_ascii a) 13); [lia|].
  destruct (Nat.leb_spec (nat_of_ascii a) 32); [lia|].
  now rewrite !andb_false_r.
Qed.

Lemma isspace2_not_lead (a b : ascii) :
  nat_of_ascii a <> 194%nat -> isspace2 a b = false.
Proof.
  intro H. unfold isspace2. cbv zeta.
  now destruct (Nat.eqb_spec (nat_of_ascii a) 194).
Qed.

Lemma lstrip_space_char (w t : string) :
  space_char w = true -> lstrip (w ++ t) = lstrip t.
Proof.
  destruct w as [|a [|b [|c [|d w]]]]; try discriminate; cbn [space_char];
    intro H.
  - cbn [append lstrip]. now rewrite H.
  - pose proof (isspace2_lead _ _ H) as Ha.
    cbn [append lstrip]. rewrite isspace_lead by lia. now rewrite H.
  - pose proof (isspace3_lead _ _ _ H) as Ha.
    cbn [append lstrip]. rewrite isspace_lead by lia.
    rewrite isspace2_not_lead by lia. now rewrite H.
Qed.

Lemma lstrip_spaces_app (l : list string) (t : string) :
  forallb space_char l = true -> lstrip (spaces l ++ t) = lstrip t.
Proof.
  induction l as [|w l IH]; [reflexivity|]. cbn [forallb spaces fold_right].
  intro H. apply andb_true_iff in H as (Hw & H).
  fold (spaces l). rewrite append_assoc. rewrite lstrip_space_char by exact Hw.
  now apply IH.
Qed.

Lemma lstrip_spaces (l : list string) :
  forallb space_char l = true -> lstrip (spaces l) = "".
Proof.
  intro H. rewrite <- (append_empty_r (spaces l)).
  now rewrite lstrip_spaces_app.
Qed.

Lemma spaces_space_start (l : list string) :
  forallb space_char l = true -> space_start (spaces l).
Proof.
  destruct l as [|w l]; [exact (fun _ => I)|]. cbn [forallb spaces fold_right].
  intro H. apply andb_true_iff in H as (Hw & _).
  destruct w as [|a [|b [|c [|d w]]]]; try discriminate;
    cbn [space_char] in Hw; cbn [append space_start].
  - left. now apply isspace_small.
  - right. apply isspace2_lead in Hw. lia.
  - right. apply isspace3_lead in Hw. lia.
Qed.

(** The whitespace of Python around a name, Unicode spaces included, is
    stripped away. *)
Lemma strip_spaces_padded (pre post : list string) (s : string) :
  forallb space_char pre = true -> forallb space_char post = true ->
  strip (spaces pre ++ s ++ spaces post) = strip s.
Proof.
  intros Hpre Hpost. unfold strip. rewrite lstrip_spaces_app by assumption.
  apply strip_app_spaces;
    [now apply lstrip_spaces | now apply spaces_space_start].
Qed.

Lemma numeric_cell_number (c : cell) :
  numeric_cell c -> is_num c || isna c = true.
Proof. now intros [->|(n & ->)]. Qed.

Section Uploads.

Variable to_datetime : list cell -> list (option Z).

(** X14: whitespace around the column names of the upload changes nothing:
    a sheet whose names are padded with blanks is checked and processed as
    the sheet with the bare names. *)
Theorem padded_header_same_run (hdr hdr' : list string)
    (b : list (list cell)) (ctl : Controls) :
  Forall2 (fun h h' => exists pre post,
             blank pre = true /\ blank post = true /\ h' = pre ++ h ++ post)
          hdr hdr' ->
  missing_columns (map strip hdr') = missing_columns (map strip hdr) /\
  process to_datetime (mkSheet hdr' b) ctl
  = process to_datetime (mkSheet hdr b) ctl.
Proof.
  intro H. assert (map strip hdr' = map strip hdr) as E.
  { induction H as [|h h' l l' (pre & post & Hpre & Hpost & ->) _ IH];
      simpl; [reflexivity|].
    now rewrite IH, strip_padded. }
  split; [now rewrite E|].
  unfold process, strip_columns, read_excel. cbn [header body columns rows].
  now rewrite E.
Qed.

(** X20: whitespace of any kind that [str.strip] removes, the no-break
    space and the other Unicode spaces included, changes nothing around the
    column names: a sheet whose names are padded with such characters has
    the stripped names of the sheet with the bare names, and is checked and
    processed as that sheet. *)
Theorem unicode_padded_header_same_run (hdr hdr' : list string)
    (b : list (list cell)) (ctl : Controls) :
  Forall2 (fun h h' => exists pre post,
             forallb space_char pre = true /\
             forallb space_char post = true /\
             h' = spaces pre ++ h ++ spaces post)
          hdr hdr' ->
  map strip hdr' = map strip hdr /\
  missing_columns (map strip hdr') = missing_columns (map strip hdr) /\
  process to_datetime (mkSheet hdr' b) ctl
  = process to_datetime (mkSheet hdr b) ctl.
Proof.
  intro H. assert (map strip hdr' = map strip hdr) as E.
  { induction H as [|h h' l l' (pre & post & Hpre & Hpost & ->) _ IH];
      simpl; [reflexivity|].
    now rewrite IH, strip_spaces_padded. }
  split; [exact E|]. split; [now rewrite E|].
  unfold process, strip_columns, read_excel. cbn [header body columns rows].
  now rewrite E.
Qed.

(** X4: an upload that has every required column but no supplier column
    passes the schema check and the normaliser and then stops with
    KeyError "Supplier" while the sidebar is built: two multiselects are
    shown, no table and no figure. *)
Theorem supplier_column_KeyError (sh : Sheet) (ctl : Controls)
    (df : DataFrame) :
  missing_columns (map strip (header sh)) = [] ->
  normalize to_datetime (strip_columns (read_excel sh)) = Ok df ->
  has_column "Supplier" (map strip (header sh)) = false ->
  (exists orders customers,
     process to_datetime sh ctl =
       ([st_sidebar_header "Filters";
         st_multiselect "Select Sales Order No" orders;
         st_multiselect "Select Customer Name" customers],
        Raise (KeyError "Supplier"))) /\
  filtered_table to_datetime sh ctl = None.
Proof.
  intros Hm Hn Hs.
  assert (columns df = map strip (header sh)) as Hc.
  { apply normalize_inv in Hn as (i & _ & Hc & _). exact Hc. }
  destruct (validated_column _ "Sales Order No" Hm) as (i & Hi);
    [simpl; tauto|].
  destruct (validated_column _ "Customer Name" Hm) as (j & Hj);
    [simpl; tauto|].
  assert (col_index "Supplier" (columns df) = None) as Hk.
  { rewrite Hc. destruct (col_index "Supplier" (map strip (header sh)))
      as [k|] eqn:E; [|reflexivity].
    assert (has_column "Supplier" (map strip (header sh)) = true) as Ht
      by (apply col_index_has_column; now exists k).
    congruence. }
  rewrite <- Hc in Hi, Hj. split.
  - exists (unique (column_values i df)), (unique (column_values j df)).
    unfold process. cbv zeta.
    change (columns (strip_columns (read_excel sh)))
      with (map strip (header sh)).
    rewrite Hm, Hn, bind_lift_Ok.
    unfold sidebar, getcol. rewrite Hi, Hj, Hk. reflexivity.
  - unfold filtered_table, normalized_table. cbv zeta.
    change (columns (strip_columns (read_excel sh)))
      with (map strip (header sh)).
    rewrite Hm, Hn. unfold getcol. now rewrite Hk.
Qed.

(** X5: when the order numbers of a valid upload are all numbers or blanks
    (a numeric column, with at least one row), the [.str] test of line 34
    raises AttributeError: the run stops before anything is shown. *)
Theorem numeric_order_numbers_AttributeError (sh : Sheet) (ctl : Controls)
    (i : nat) :
  missing_columns (map strip (header sh)) = [] ->
  col_index "Sales Order No" (map strip (header sh)) = Some i ->
  body sh <> [] ->
  Forall (fun cs => numeric_cell (nth i cs NA)) (body sh) ->
  process to_datetime sh ctl = ([], Raise AttributeError) /\
  normalized_table to_datetime sh = None.
Proof.
  intros Hm Hi Hne F.
  assert (normalize to_datetime (strip_columns (read_excel sh))
          = Raise AttributeError) as Hn.
  { unfold normalize, drop_summary, getcol.
    change (columns (strip_columns (read_excel sh)))
      with (map strip (header sh)).
    rewrite Hi. cbn [rbind].
    change (map (cell_at i) (rows (strip_columns (read_excel sh))))
      with (column_values i (read_excel sh)).
    rewrite read_excel_column, numbers_no_str_accessor; [reflexivity| |].
    - intro E. apply (f_equal (@List.length cell)) in E.
      rewrite infer_column_length in E. unfold sheet_column in E.
      rewrite length_map in E. destruct (body sh); [contradiction | discriminate].
    - apply infer_column_numbers, forallb_forall. intros c Hc.
      apply in_map_iff in Hc as (cs & <- & Hcs). apply numeric_cell_number.
      rewrite Forall_forall in F. now apply F. }
  split.
  - unfold process. cbv zeta.
    change (columns (strip_columns (read_excel sh)))
      with (map strip (header sh)).
    now rewrite Hm, Hn.
  - unfold normalized_table. cbv zeta.
    change (columns (strip_columns (read_excel sh)))
      with (map strip (header sh)).
    now rewrite Hm, Hn.
Qed.

End Uploads.

(** ** More on the delay detection (lines 72 to 82 and 146) *)

Lemma subseq_filter_impl {A : Type} (p q : A -> bool) (l : list A) :
  (forall x, q x = true -> p x = true) -> subseq (filter q l) (filter p l).
Proof.
  intro H. induction l as [|x l IH]; simpl; [constructor|].
  destruct (q x) eqn:Eq.
  - rewrite (H x Eq). now constructor.
  - destruct (p x); [constructor|]; exact IH.
Qed.

Lemma subseq_length {A : Type} (l1 l2 : list A) :
  subseq l1 l2 -> (List.length l1 <= List.length l2)%nat.
Proof. induction 1; simpl; lia. Qed.

Lemma filter_disjoint_length {A : Type} (p q : A -> bool) (l : list A) :
  (forall x, p x = true -> q x = false) ->
  (List.length (filter p l) + List.length (filter q l) <= List.length l)%nat.
Proof.
  intro H. induction l as [|x l IH]; simpl; [lia|].
  destruct (p x) eqn:Ep.
  - rewrite (H x Ep). simpl. lia.
  - destruct (q x); simpl; lia.
Qed.

Lemma ns_per_day_pos : 0 < ns_per_day.
Proof. unfold ns_per_day. lia. Qed.

Lemma days_exceed_mono (t t' : Z) (est act : cell) :
  t <= t' -> days_exceed t' est act = true -> days_exceed t est act = true.
Proof.
  intros Hle H. apply days_exceed_iff in H as (e & a & -> & -> & Hlt).
  apply days_exceed_iff. exists e, a. repeat split. lia.
Qed.

(** A row that the delay detection selects, the threshold not being
    negative, was delivered before its estimated date. *)
Lemma days_exceed_early (t : Z) (est act : cell) :
  0 <= t -> days_exceed t est act = true ->
  date_gt act est = false /\ date_le act est = true.
Proof.
  intros Ht H. apply days_exceed_iff in H as (e & a & -> & -> & Hlt).
  pose proof ns_per_day_pos as HD.
  pose proof (Z.mul_div_le (e - a) ns_per_day HD) as Hm.
  assert (a < e) as Hae by nia.
  unfold date_gt, date_le. simpl. split.
  - apply Z.ltb_ge. lia.
  - apply Z.leb_le. lia.
Qed.

Lemma delayed_shipments_inv (t : Z) (df : DataFrame) (ds : list Row) :
  delayed_shipments t df = Ok ds ->
  exists ie ia,
    col_index "Estimated Delivery Date" (columns df) = Some ie /\
    col_index "Delivery Date" (columns df) = Some ia /\
    ds = filter (fun r => days_exceed t (cell_at ie r) (cell_at ia r))
           (rows df).
Proof.
  unfold delayed_shipments, getcol.
  destruct (col_index "Estimated Delivery Date" (columns df)) as [ie|];
    cbn [rbind]; [|discriminate].
  destruct (col_index "Delivery Date" (columns df)) as [ia|];
    cbn [rbind]; [|discriminate].
  intro H. injection H as <-. now exists ie, ia.
Qed.

(** X6: raising the threshold can only take rows out of the delayed
    shipments: the selection for a higher threshold is a subsequence of the
    selection for a lower one. *)
Theorem delayed_shipments_antitone (df : DataFrame) (t t' : Z)
    (ds ds' : list Row) :
  t <= t' ->
  delayed_shipments t df = Ok ds -> delayed_shipments t' df = Ok ds' ->
  subseq ds' ds /\ (List.length ds' <= List.length ds)%nat.
Proof.
  intros Hle H H'.
  apply delayed_shipments_inv in H as (ie & ia & Hie & Hia & ->).
  apply delayed_shipments_inv in H' as (ie' & ia' & Hie' & Hia' & ->).
  rewrite Hie in Hie'. rewrite Hia in Hia'.
  injection Hie' as <-. injection Hia' as <-.
  assert (subseq
            (filter (fun r => days_exceed t' (cell_at ie r) (cell_at ia r))
               (rows df))
            (filter (fun r => days_exceed t (cell_at ie r) (cell_at ia r))
               (rows df))) as Hs.
  { apply subseq_filter_impl. intros r. now apply days_exceed_mono. }
  split; [exact Hs | now apply subseq_length].
Qed.

(** X7: with a threshold that is not negative, every row shown among the
    delayed shipments was delivered before its estimated date: it is on
    time by the test of the supplier table and never counted by the
    "Delayed Shipments" figure of the summary; the two counts together do
    not exceed the number of rows. *)
Theorem delayed_shipments_delivered_early (df : DataFrame) (t : Z)
    (ds : list Row) (late : nat) :
  0 <= t ->
  delayed_shipments t df = Ok ds -> delayed_count df = Ok late ->
  exists idel iest,
    col_index "Delivery Date" (columns df) = Some idel /\
    col_index "Estimated Delivery Date" (columns df) = Some iest /\
    (forall r, In r ds ->
       date_le (cell_at idel r) (cell_at iest r) = true /\
       date_gt (cell_at idel r) (cell_at iest r) = false) /\
    (List.length ds + late <= List.length (rows df))%nat.
Proof.
  intros Ht H Hc.
  apply delayed_shipments_inv in H as (ie & ia & Hie & Hia & ->).
  unfold delayed_count, getcol in Hc. rewrite Hia, Hie in Hc.
  cbn [rbind] in Hc. injection Hc as <-.
  exists ia, ie. split; [exact Hia|]. split; [exact Hie|]. split.
  - intros r Hr. apply filter_In in Hr as (_ & Hr).
    destruct (days_exceed_early _ _ _ Ht Hr) as (Hgt & Hle). now split.
  - apply filter_disjoint_length. intros r Hr.
    now destruct (days_exceed_early _ _ _ Ht Hr).
Qed.

(** ** More on the supplier table (lines 88 to 95) *)

(** Under pairwise distinct index labels, [loc] with a row's label finds the
    row itself. *)
Lemma loc_own (df : DataFrame) (r : Row) (i : nat) :
  NoDup (labels df) -> In r (rows df) -> loc df (label r) i = cell_at i r.
Proof.
  unfold loc, labels. induction (rows df) as [|x l IH]; simpl;
    intros N Hin; [destruct Hin|].
  inversion N as [|? ? Hx N']; subst.
  destruct (Nat.eqb (label x) (label r)) eqn:E.
  - destruct Hin as [->|Hin]; [reflexivity|]. exfalso.
    apply Nat.eqb_eq in E. apply Hx. rewrite E. now apply in_map.
  - destruct Hin as [->|Hin]; [now rewrite Nat.eqb_refl in E|]. now apply IH.
Qed.

Lemma count_against_own (cmp : cell -> cell -> bool) (df : DataFrame)
    (idel iest i : nat) (k : cell) :
  NoDup (labels df) ->
  count_against cmp df idel iest (group_rows i k df) =
  List.length
    (filter (fun r => cmp (cell_at idel r) (cell_at iest r))
       (group_rows i k df)).
Proof.
  intro N. unfold count_against. f_equal. apply filter_ext_in.
  intros r Hr. apply group_rows_In in Hr as (Hr & _).
  now rewrite loc_own.
Qed.

Lemma filter_split_length {A : Type} (p q b : A -> bool) (l : list A) :
  (forall x, b x = p x || q x) -> (forall x, p x = true -> q x = false) ->
  (List.length (filter p l) + List.length (filter q l))%nat
  = List.length (filter b l).
Proof.
  intros Hb Hpq. induction l as [|x l IH]; simpl; [reflexivity|].
  rewrite (Hb x). destruct (p x) eqn:Ep.
  - rewrite (Hpq x Ep). simpl. lia.
  - destruct (q x); simpl; lia.
Qed.

Lemma both_dates_split (x y : cell) :
  both_dates x y = date_le x y || date_gt x y.
Proof.
  unfold both_dates, date_le, date_gt.
  destruct (as_datetime x) as [a|], (as_datetime y) as [b|]; try reflexivity.
  destruct (a <=? b) eqn:E; [reflexivity|]. simpl. apply eq_sym, Z.ltb_lt.
  apply Z.leb_gt in E. lia.
Qed.

Lemma date_le_not_gt (x y : cell) : date_le x y = true -> date_gt x y = false.
Proof.
  unfold date_le, date_gt.
  destruct (as_datetime x) as [a|], (as_datetime y) as [b|]; try discriminate.
  intro H. apply Z.leb_le in H. apply Z.ltb_ge. lia.
Qed.

Lemma supplier_performance_inv (df : DataFrame) (perf : list SupplierKPI) :
  supplier_performance df = Ok perf ->
  exists isup ipo iamt idel iest,
    col_index "Supplier" (columns df) = Some isup /\
    col_index "PO Number" (columns df) = Some ipo /\
    col_index "PO Total Amount (EGP)" (columns df) = Some iamt /\
    col_index "Delivery Date" (columns df) = Some idel /\
    col_index "Estimated Delivery Date" (columns df) = Some iest /\
    mapM (fun k => supplier_kpi df ipo iamt idel iest k (group_rows isup k df))
         (group_keys (column_values isup df)) = Ok perf.
Proof.
  intro H. apply supplier_performance_groups in H
    as (isup & ipo & iamt & idel & iest & H1 & H2 & H3 & H4 & H5 & _ & H).
  exists isup, ipo, iamt, idel, iest. now repeat split.
Qed.

Section SupplierCounts.

Variable to_datetime : list cell -> list (option Z).

Lemma filtered_table_labels (sh : Sheet) (ctl : Controls) (fdf : DataFrame) :
  filtered_table to_datetime sh ctl = Some fdf -> NoDup (labels fdf).
Proof.
  intro H. apply filtered_table_inv in H as (df & Hn & Hf & _).
  eapply subseq_NoDup.
  - apply subseq_map. eapply filtered_df_subseq. exact Hf.
  - eapply normalized_table_labels. exact Hn.
Qed.

(** X8: in the supplier table of a filtered table the lookup of the
    estimated dates by index label gives every row its own estimated date:
    on_time_deliveries counts the supplier's rows delivered no later than
    their own estimate, delayed_deliveries those delivered later, and the two
    together count the supplier's rows that have both dates. *)
Theorem supplier_counts_aligned (sh : Sheet) (ctl : Controls)
    (fdf : DataFrame) (perf : list SupplierKPI) (kpi : SupplierKPI) :
  filtered_table to_datetime sh ctl = Some fdf ->
  supplier_performance fdf = Ok perf -> In kpi perf ->
  exists isup idel iest,
    col_index "Supplier" (columns fdf) = Some isup /\
    col_index "Delivery Date" (columns fdf) = Some idel /\
    col_index "Estimated Delivery Date" (columns fdf) = Some iest /\
    let g := group_rows isup (kpi_supplier kpi) fdf in
    on_time_deliveries kpi =
      List.length
        (filter (fun r => date_le (cell_at idel r) (cell_at iest r)) g) /\
    delayed_deliveries kpi =
      List.length
        (filter (fun r => date_gt (cell_at idel r) (cell_at iest r)) g) /\
    (on_time_deliveries kpi + delayed_deliveries kpi)%nat =
      List.length
        (filter (fun r => both_dates (cell_at idel r) (cell_at iest r)) g) /\
    (on_time_deliveries kpi + delayed_deliveries kpi <= List.length g)%nat.
Proof.
  intros Hf Hp Hin. pose proof (filtered_table_labels _ _ _ Hf) as N.
  apply supplier_performance_inv in Hp
    as (isup & ipo & iamt & idel & iest & Hs & _ & _ & Hd & He & Hm).
  destruct (mapM_Ok_In _ _ _ _ Hm Hin) as (k & _ & Hk).
  apply supplier_kpi_inv in Hk as (Hsup & _ & Hon & Hlate & _).
  exists isup, idel, iest. repeat (split; [assumption|]).
  cbv zeta. rewrite Hsup, Hon, Hlate, !count_against_own by exact N.
  split; [reflexivity|]. split; [reflexivity|].
  assert ((List.length
             (filter (fun r => date_le (cell_at idel r) (cell_at iest r))
                (group_rows isup k fdf)) +
           List.length
             (filter (fun r => date_gt (cell_at idel r) (cell_at iest r))
                (group_rows isup k fdf)))%nat =
          List.length
            (filter (fun r => both_dates (cell_at idel r) (cell_at iest r))
               (group_rows isup k fdf))) as E.
  { apply filter_split_length.
    - intro r. apply both_dates_split.
    - intros r. apply date_le_not_gt. }
  split; [exact E|]. rewrite E. apply filter_length_le.
Qed.

End SupplierCounts.

(** ** Totals over the groups *)

Lemma zsum_app (l1 l2 : list Z) : zsum (l1 ++ l2) = zsum l1 + zsum l2.
Proof. induction l1 as [|x l1 IH]; simpl; [reflexivity|]. rewrite IH. lia. Qed.

Lemma zsum_map_add {A : Type} (f g : A -> Z) (l : list A) :
  zsum (map (fun x => f x + g x) l) = zsum (map f l) + zsum (map g l).
Proof. induction l as [|x l IH]; simpl; [reflexivity|]. rewrite IH. lia. Qed.

Lemma zsum_map_sub {A : Type} (f g : A -> Z) (l : list A) :
  zsum (map (fun x => f x - g x) l) = zsum (map f l) - zsum (map g l).
Proof. induction l as [|x l IH]; simpl; [reflexivity|]. rewrite IH. lia. Qed.

Lemma zsum_map_zero {A : Type} (l : list A) : zsum (map (fun _ => 0) l) = 0.
Proof. induction l as [|x l IH]; simpl; [reflexivity|]. exact IH. Qed.

(** Among pairwise distinct keys, one key at most is the given one. *)
Lemma zsum_indicator (c : cell) (v : Z) (ks : list cell) :
  NoDup ks ->
  zsum (map (fun k => if cell_eqb c k then v else 0) ks)
  = if existsb (cell_eqb c) ks then v else 0.
Proof.
  induction 1 as [|k ks Hk N IH]; simpl; [reflexivity|].
  rewrite IH. destruct (cell_eqb c k) eqn:E; simpl; [|reflexivity].
  apply cell_eqb_eq in E. subst k.
  destruct (existsb (cell_eqb c) ks) eqn:Ex; [|lia].
  apply existsb_exists in Ex as (x & Hx & Ex). apply cell_eqb_eq in Ex.
  subst x. contradiction.
Qed.

(** The sums over the groups of a key add up to the sum over the rows whose
    key is not missing. *)
Lemma partition_zsum (f : Row -> Z) (i : nat) (ks : list cell)
    (l : list Row) :
  NoDup ks -> ~ In NA ks ->
  (forall r, In r l -> cell_at i r <> NA -> In (cell_at i r) ks) ->
  zsum (map (fun k =>
               zsum (map f (filter (fun r => cell_eqb (cell_at i r) k) l)))
            ks)
  = zsum (map f (filter (fun r => notna (cell_at i r)) l)).
Proof.
  intros N Hna. induction l as [|r l IH]; intro Hks.
  - simpl. apply zsum_map_zero.
  - rewrite (map_ext
      (fun k => zsum (map f (filter (fun r0 => cell_eqb (cell_at i r0) k)
                               (r :: l))))
      (fun k => (if cell_eqb (cell_at i r) k then f r else 0) +
                zsum (map f (filter (fun r0 => cell_eqb (cell_at i r0) k) l)))).
    2:{ intro k. simpl. now destruct (cell_eqb (cell_at i r) k). }
    rewrite zsum_map_add, zsum_indicator by exact N.
    rewrite IH by (intros r0 Hr0; apply Hks; now right).
    simpl. unfold notna. destruct (isna (cell_at i r)) eqn:En; simpl.
    + assert (cell_at i r = NA) as -> by (now destruct (cell_at i r)).
      destruct (existsb (cell_eqb NA) ks) eqn:Ex; [|reflexivity].
      apply existsb_exists in Ex as (x & Hx & Ex). apply cell_eqb_eq in Ex.
      subst x. contradiction.
    + assert (existsb (cell_eqb (cell_at i r)) ks = true) as ->; [|reflexivity].
      apply existsb_exists. exists (cell_at i r). split; [|apply cell_eqb_refl].
      apply Hks; [now left | intro E; rewrite E in En; discriminate].
Qed.

Lemma partition_by_column (f : Row -> Z) (i : nat) (df : DataFrame) :
  zsum (map (fun k => zsum (map f (group_rows i k df)))
            (group_keys (column_values i df)))
  = zsum (map f (filter (fun r => notna (cell_at i r)) (rows df))).
Proof.
  unfold group_rows. apply partition_zsum.
  - apply group_keys_NoDup.
  - intro H. apply group_keys_In in H as (_ & H). now apply H.
  - intros r Hr Hn. apply group_keys_In. split; [|exact Hn].
    unfold column_values. now apply in_map.
Qed.

Lemma filter_notna_all (i : nat) (l : list Row) :
  Forall (fun c => c <> NA) (map (cell_at i) l) ->
  filter (fun r => notna (cell_at i r)) l = l.
Proof.
  intro F. apply filter_all_true. intros r Hr.
  rewrite Forall_forall in F. specialize (F (cell_at i r) (in_map _ _ _ Hr)).
  now destruct (cell_at i r).
Qed.

Lemma length_filter_zsum {A : Type} (p : A -> bool) (l : list A) :
  Z.of_nat (List.length (filter p l))
  = zsum (map (fun x => if p x then 1 else 0) l).
Proof.
  induction l as [|x l IH]; simpl; [reflexivity|].
  destruct (p x); simpl List.length; lia.
Qed.

Lemma subseq_filter_both {A : Type} (p : A -> bool) (l1 l2 : list A) :
  subseq l1 l2 -> subseq (filter p l1) (filter p l2).
Proof.
  induction 1 as [|x l1 l2 H IH|x l1 l2 H IH]; simpl.
  - constructor.
  - destruct (p x); [constructor|]; exact IH.
  - destruct (p x); [constructor|]; exact IH.
Qed.

Section LateCounts.

Variable to_datetime : list cell -> list (option Z).

(** X11: over a filtered table the delayed_deliveries of the suppliers add
    up to the number of rows delivered after their estimated date that have
    a supplier; when no row lacks its supplier this is the "Delayed
    Shipments" figure of the summary. *)
Theorem delayed_deliveries_add_up (sh : Sheet) (ctl : Controls)
    (fdf : DataFrame) (perf : list SupplierKPI) (late : nat) :
  filtered_table to_datetime sh ctl = Some fdf ->
  supplier_performance fdf = Ok perf -> delayed_count fdf = Ok late ->
  exists isup idel iest,
    col_index "Supplier" (columns fdf) = Some isup /\
    col_index "Delivery Date" (columns fdf) = Some idel /\
    col_index "Estimated Delivery Date" (columns fdf) = Some iest /\
    zsum (map (fun p => Z.of_nat (delayed_deliveries p)) perf) =
      Z.of_nat
        (List.length
           (filter (fun r => date_gt (cell_at idel r) (cell_at iest r))
              (filter (fun r => notna (cell_at isup r)) (rows fdf)))) /\
    (zsum (map (fun p => Z.of_nat (delayed_deliveries p)) perf)
       <= Z.of_nat late) /\
    (Forall (fun c => c <> NA) (column_values isup fdf) ->
     zsum (map (fun p => Z.of_nat (delayed_deliveries p)) perf)
       = Z.of_nat late).
Proof.
  intros Hf Hp Hc. pose proof (filtered_table_labels _ _ _ _ Hf) as N.
  apply supplier_performance_inv in Hp
    as (isup & ipo & iamt & idel & iest & Hs & _ & _ & Hd & He & Hm).
  unfold delayed_count, getcol in Hc. rewrite Hd, He in Hc.
  cbn [rbind] in Hc. injection Hc as <-.
  exists isup, idel, iest. repeat (split; [assumption|]).
  assert (zsum (map (fun p => Z.of_nat (delayed_deliveries p)) perf) =
          Z.of_nat
            (List.length
               (filter (fun r => date_gt (cell_at idel r) (cell_at iest r))
                  (filter (fun r => notna (cell_at isup r)) (rows fdf)))))
    as E.
  { rewrite length_filter_zsum, <- partition_by_column. f_equal.
    eapply mapM_Ok_map; [|exact Hm]. intros k p Hk. cbv beta in Hk.
    apply supplier_kpi_inv in Hk as (_ & _ & _ & Hlate & _).
    rewrite Hlate, count_against_own by exact N.
    apply length_filter_zsum. }
  split; [exact E|]. split.
  - rewrite E. apply Nat2Z.inj_le, subseq_length, subseq_filter_both.
    apply subseq_filter.
  - intro F. rewrite E. unfold column_values in F.
    now rewrite filter_notna_all.
Qed.

End LateCounts.

(** ** More on the normaliser (lines 33 to 43) *)

Section NormalizerColumns.

Variable to_datetime : list cell -> list (option Z).

Lemma normalize_inv_columns (df df' : DataFrame) :
  normalize to_datetime df = Ok df' ->
  exists i, col_index "Sales Order No" (columns df) = Some i /\
    columns df' = columns df /\
    labels df' = map label (kept_rows i df) /\
    forall c j, ~ In c date_columns -> col_index c (columns df) = Some j ->
      column_values j df' = map (cell_at j) (kept_rows i df).
Proof.
  unfold normalize, drop_summary, dropna_sales_order, getcol.
  destruct (col_index "Sales Order No" (columns df)) as [i|] eqn:Hi;
    cbn [rbind]; [|discriminate].
  destruct (has_str_accessor (map (cell_at i) (rows df))); cbn [rbind];
    [|discriminate].
  cbn [columns with_rows]. rewrite Hi. cbn [rbind rows with_rows].
  intro H. injection H as <-.
  exists i. split; [reflexivity|]. split; [|split].
  - now rewrite convert_dates_columns.
  - now rewrite convert_dates_labels.
  - intros c j Hc Hj. now rewrite (convert_dates_other to_datetime c).
Qed.

(** X15: the normaliser only removes rows and rewrites the three date
    columns: its output has the columns of the input, and the index labels
    and every other column are those of the kept rows (order number neither
    missing nor with "Summary" in it), in their order. *)
Theorem normalize_keeps_columns (df df' : DataFrame) :
  normalize to_datetime df = Ok df' ->
  exists i, col_index "Sales Order No" (columns df) = Some i /\
    columns df' = columns df /\
    subseq (kept_rows i df) (rows df) /\
    List.length (rows df') = List.length (kept_rows i df) /\
    labels df' = map label (kept_rows i df) /\
    forall c j, ~ In c date_columns -> col_index c (columns df) = Some j ->
      column_values j df' = map (cell_at j) (kept_rows i df).
Proof.
  intro H. apply normalize_inv_columns in H as (i & Hi & Hc & Hl & Hv).
  exists i. split; [exact Hi|]. split; [exact Hc|]. split; [|split; [|split]].
  - unfold kept_rows. eapply subseq_trans; apply subseq_filter.
  - unfold labels in Hl. apply (f_equal (@List.length nat)) in Hl.
    now rewrite !length_map in Hl.
  - exact Hl.
  - exact Hv.
Qed.

End NormalizerColumns.

Section TypedDates.

Variable to_datetime : list cell -> list (option Z).
Hypothesis to_datetime_length :
  forall col, List.length (to_datetime col) = List.length col.

(** X16: when the date parser returns one result for each cell, every cell
    of the three date columns of a filtered table is a timestamp or NaT:
    whatever did not parse is a missing date, nothing is left as text. *)
Theorem date_columns_typed (sh : Sheet) (ctl : Controls) (fdf : DataFrame)
    (col : string) (i : nat) (r : Row) :
  filtered_table to_datetime sh ctl = Some fdf ->
  In col date_columns -> col_index col (columns fdf) = Some i ->
  In r (rows fdf) ->
  cell_at i r = NA \/ exists ns, cell_at i r = Timestamp ns.
Proof.
  intros H Hcol Hi Hr.
  pose proof (filtered_table_datetime to_datetime to_datetime_length
                sh ctl fdf col H Hcol i Hi) as F.
  rewrite Forall_forall in F. apply F. unfold column_values.
  now apply in_map.
Qed.

End TypedDates.

(** ** Runs that end without an exception *)

Lemma snd_bind {A B : Type} (m : M A) (k : A -> M B) :
  snd (bind m k) =
  match snd m with
  | Ok a => snd (k a)
  | Raise e => Raise e
  end.
Proof.
  destruct m as [l [a|e]]; simpl; [|reflexivity]. now destruct (k a).
Qed.

Ltac run_result :=
  repeat (rewrite snd_bind; cbn [snd emit lift ret]).

Lemma filtered_df_total (ctl : Controls) (df : DataFrame) :
  has_column "Sales Order No" (columns df) = true ->
  has_column "Customer Name" (columns df) = true ->
  has_column "Supplier" (columns df) = true ->
  exists d, filtered_df ctl df = Ok d.
Proof.
  intros H1 H2 H3. unfold filtered_df.
  pose proof (select_isin_outcome "Sales Order No" (sales_order_no ctl) df)
    as O1.
  destruct (select_isin "Sales Order No" (sales_order_no ctl) df)
    as [d1|e1] eqn:E1; [|destruct O1 as (_ & _ & O1); congruence].
  apply select_isin_rows in E1 as (C1 & _). cbn [rbind].
  pose proof (select_isin_outcome "Customer Name" (customer_name ctl) d1)
    as O2.
  destruct (select_isin "Customer Name" (customer_name ctl) d1)
    as [d2|e2] eqn:E2;
    [|destruct O2 as (_ & _ & O2); rewrite C1 in O2; congruence].
  apply select_isin_rows in E2 as (C2 & _). cbn [rbind].
  pose proof (select_isin_outcome "Supplier" (supplier ctl) d2) as O3.
  destruct (select_isin "Supplier" (supplier ctl) d2) as [d3|e3];
    [now exists d3|].
  destruct O3 as (_ & _ & O3). rewrite C2, C1 in O3. congruence.
Qed.

Lemma number_cell_numeric (c : cell) :
  number_cell c -> is_num c || isna c = true.
Proof. destruct c; simpl; intro H; now try destruct H. Qed.

Lemma existsb_notna_keys (col : list cell) :
  existsb notna col = false <-> group_keys col = [].
Proof.
  split.
  - intro H. destruct (group_keys col) as [|k ks] eqn:E; [reflexivity|].
    assert (In k (group_keys col)) as Hk by (rewrite E; now left).
    apply group_keys_In in Hk as (Hin & Hna).
    assert (existsb notna col = true) as Ht; [|congruence].
    apply existsb_exists. exists k. split; [exact Hin | now destruct k].
  - intro H. destruct (existsb notna col) eqn:E; [|reflexivity].
    apply existsb_exists in E as (k & Hin & Hk).
    assert (In k (group_keys col)) as Hg.
    { apply group_keys_In. split; [exact Hin|]. intros ->. discriminate. }
    rewrite H in Hg. destruct Hg.
Qed.

(** The rows of the reconciliation of a table with numbers in its two
    quantity columns. *)
Lemma reconciliation_rows (df : DataFrame) (ipo iq ir : nat)
    (rvq : list ReconciliationRow) :
  numeric_column (column_values iq df) = true ->
  numeric_column (column_values ir df) = true ->
  mapM (fun k => reconciliation_row df iq ir k (group_rows ipo k df))
       (group_keys (column_values ipo df)) = Ok rvq ->
  map po_number rvq = group_keys (column_values ipo df) /\
  forall row, In row rvq ->
    let g := group_rows ipo (po_number row) df in
    total_quantity row =
      (if int_column (column_values iq df)
       then Int64 (wrap64 (zsum (map cell_value (map (cell_at iq) g))))
       else Float64 (group_sum (float_values (map (cell_at iq) g)))) /\
    total_received row =
      (if int_column (column_values ir df)
       then Int64 (wrap64 (zsum (map cell_value (map (cell_at ir) g))))
       else Float64 (group_sum (float_values (map (cell_at ir) g)))) /\
    Difference row = number_sub (total_quantity row) (total_received row).
Proof.
  intros Fq Fr H. split.
  - rewrite <- (map_id (group_keys (column_values ipo df))).
    eapply mapM_Ok_map; [|exact H]. intros k row Hk. cbv beta in Hk.
    now apply reconciliation_row_inv in Hk.
  - intros row Hin.
    destruct (mapM_Ok_In _ _ _ _ H Hin) as (k & Hk & Hrow).
    apply reconciliation_row_inv in Hrow as (Hpo & Hq & Hr & Hd).
    rewrite Hpo. cbv zeta.
    rewrite (sum_cells_numeric _ _ _ Fq) in Hq.
    rewrite (sum_cells_numeric _ _ _ Fr) in Hr.
    injection Hq as Hq. injection Hr as Hr.
    split; [now rewrite <- Hq|]. split; [now rewrite <- Hr | exact Hd].
Qed.

Lemma int_column_In (col : list cell) (c : cell) :
  int_column col = true -> In c col -> exists n, c = Num n.
Proof.
  unfold int_column. rewrite forallb_forall. intros H Hc.
  specialize (H c Hc). destruct c; try discriminate. now eexists.
Qed.

(** The cells 10 and 5, or 10 and 3, of a group: their total in a column of
    integers and in a column of floats. *)
Lemma scenario_total (col : list cell) (c1 c2 : cell) (a b : Z) :
  In c1 col -> In c2 col -> cell_of_Z a c1 -> cell_of_Z b c2 ->
  - 2 ^ 63 <= a + b < 2 ^ 63 ->
  group_sum [f64_of_Z a; f64_of_Z b] = f64_of_Z (a + b) ->
  number_of_Z (a + b)
    (if int_column col
     then Int64 (wrap64 (zsum (map cell_value [c1; c2])))
     else Float64 (group_sum (float_values [c1; c2]))).
Proof.
  intros H1 H2 Ha Hb Hr Hs. destruct (int_column col) eqn:Ei.
  - left. destruct (int_column_In col c1 Ei H1) as (n1 & E1).
    destruct (int_column_In col c2 Ei H2) as (n2 & E2).
    destruct Ha as [Ha|Ha]; [|congruence].
    destruct Hb as [Hb|Hb]; [|congruence].
    rewrite Ha, Hb.
    cbn [map cell_value zsum fold_right]. rewrite Z.add_0_r.
    now rewrite wrap64_small.
  - right. f_equal. rewrite <- Hs. f_equal.
    destruct Ha as [->| ->], Hb as [->| ->]; reflexivity.
Qed.

Lemma supplier_kpi_total (df : DataFrame) (ipo iamt idel iest : nat) (k : cell)
    (g : list Row) (kpi : SupplierKPI) :
  supplier_kpi df ipo iamt idel iest k g = Ok kpi ->
  kpi_supplier kpi = k /\
  sum_cells group_sum (column_values iamt df) (map (cell_at iamt) g)
    = Ok (total_procurement kpi).
Proof.
  unfold supplier_kpi.
  destruct (sum_cells group_sum (column_values iamt df) (map (cell_at iamt) g));
    simpl; [|discriminate].
  intro H. injection H as <-. now split.
Qed.

(** Two integers that differ by a multiple of 2^64 are the same int64. *)
Lemma wrap64_mod (a b : Z) :
  a mod 2 ^ 64 = b mod 2 ^ 64 -> wrap64 a = wrap64 b.
Proof.
  intro H. unfold wrap64. f_equal.
  rewrite (Z.add_mod a), (Z.add_mod b), H by lia. reflexivity.
Qed.

Lemma wrap64_same (z : Z) : wrap64 z mod 2 ^ 64 = z mod 2 ^ 64.
Proof.
  unfold wrap64.
  rewrite Zminus_mod, Z.mod_mod by lia.
  rewrite <- Zminus_mod. f_equal. lia.
Qed.

Lemma zsum_wrap64 {A : Type} (f : A -> Z) (l : list A) :
  zsum (map (fun x => wrap64 (f x)) l) mod 2 ^ 64 = zsum (map f l) mod 2 ^ 64.
Proof.
  induction l as [|x l IH]; [reflexivity|].
  cbn [map zsum fold_right]. fold (zsum (map (fun x => wrap64 (f x)) l)).
  fold (zsum (map f l)).
  rewrite Z.add_mod, wrap64_same, IH, <- Z.add_mod by lia. reflexivity.
Qed.

Section RunTotals.

Variable to_datetime : list cell -> list (option Z).

(** The cells of a filtered table, the date columns apart, are cells of the
    column as it was read. *)
Lemma filtered_table_values (sh : Sheet) (ctl : Controls) (fdf : DataFrame)
    (c : string) (j : nat) (x : cell) :
  filtered_table to_datetime sh ctl = Some fdf ->
  ~ In c date_columns ->
  col_index c (map strip (header sh)) = Some j ->
  In x (column_values j fdf) ->
  In x (infer_column (sheet_column j (body sh))).
Proof.
  intros H Hc Hj Hx.
  apply filtered_table_inv in H as (df & Hn & Hf & _).
  apply normalized_table_inv in Hn as (_ & Hn).
  apply normalize_inv_columns in Hn as (i & _ & _ & _ & Hv).
  specialize (Hv c j Hc Hj).
  apply filtered_df_inv in Hf as (p & Hfdf & _).
  rewrite Hfdf in Hx. unfold column_values in Hx. cbn [rows with_rows] in Hx.
  apply in_map_iff in Hx as (r & <- & Hr). apply filter_In in Hr as (Hr & _).
  assert (In (cell_at j r) (column_values j df)) as Hin
    by (unfold column_values; now apply in_map).
  rewrite Hv in Hin. apply in_map_iff in Hin as (r0 & <- & Hr0).
  unfold kept_rows in Hr0. apply filter_In in Hr0 as (Hr0 & _).
  apply filter_In in Hr0 as (Hr0 & _).
  rewrite <- read_excel_column. unfold column_values.
  apply in_map. exact Hr0.
Qed.

(** A column of numbers of the upload is a column of numbers of the
    filtered table. *)
Lemma filtered_table_numeric (sh : Sheet) (ctl : Controls) (fdf : DataFrame)
    (c : string) (j : nat) :
  filtered_table to_datetime sh ctl = Some fdf ->
  ~ In c date_columns ->
  col_index c (map strip (header sh)) = Some j ->
  Forall (fun cs => number_cell (nth j cs NA)) (body sh) ->
  numeric_column (column_values j fdf) = true.
Proof.
  intros H Hc Hj F. unfold numeric_column. apply forallb_forall. intros x Hx.
  apply (filtered_table_values sh ctl fdf c j x H Hc Hj) in Hx.
  assert (forallb (fun c => is_num c || isna c)
            (infer_column (sheet_column j (body sh))) = true) as Hall.
  { apply infer_column_numbers, forallb_forall. intros y Hy.
    unfold sheet_column in Hy. apply in_map_iff in Hy as (cs & <- & Hcs).
    apply number_cell_numeric. rewrite Forall_forall in F. now apply F. }
  rewrite forallb_forall in Hall. now apply Hall.
Qed.

(** C7, as the code has it: on the filtered table of a run whose two
    quantity columns hold numbers and blanks, the reconciliation has one row
    for each PO number (missing ones apart).  Its totals are the sums of the
    ordered and of the received quantities of the records of that PO in the
    arithmetic of the column: an int64 sum, which wraps around, on a column
    of integers, the float sum of pandas on a column of floats.  Its
    difference is the first total minus the second in that arithmetic, and
    the row is among the mismatches exactly when the difference is not zero.
    On columns of integers whose sums and difference stay within int64 the
    totals are the exact sums, the difference is their exact difference, and
    the row is a mismatch exactly when the sums differ.  A PO "X1" with the
    two records (10, received 10) and (5, received 3) gets the row 15, 13,
    2, among the mismatches. *)
Theorem receipts_vs_quantity_rows (sh : Sheet) (ctl : Controls)
    (fdf : DataFrame) :
  filtered_table to_datetime sh ctl = Some fdf ->
  (forall c j, In c ["Quantity"; "Received Quantity"] ->
     col_index c (map strip (header sh)) = Some j ->
     Forall (fun cs => number_cell (nth j cs NA)) (body sh)) ->
  exists ipo iq ir rvq,
    col_index "PO Number" (columns fdf) = Some ipo /\
    col_index "Quantity" (columns fdf) = Some iq /\
    col_index "Received Quantity" (columns fdf) = Some ir /\
    receipts_vs_quantity fdf = Ok rvq /\
    NoDup (map po_number rvq) /\
    (forall k, In k (map po_number rvq) <->
       In k (column_values ipo fdf) /\ k <> NA) /\
    (forall row, In row rvq ->
       let g := group_rows ipo (po_number row) fdf in
       let quantities := map (cell_at iq) g in
       let received := map (cell_at ir) g in
       let q := zsum (map cell_value quantities) in
       let r := zsum (map cell_value received) in
       (int_column (column_values iq fdf) = true ->
        total_quantity row = Int64 (wrap64 q)) /\
       (int_column (column_values iq fdf) = false ->
        total_quantity row = Float64 (group_sum (float_values quantities))) /\
       (int_column (column_values ir fdf) = true ->
        total_received row = Int64 (wrap64 r)) /\
       (int_column (column_values ir fdf) = false ->
        total_received row = Float64 (group_sum (float_values received))) /\
       Difference row = number_sub (total_quantity row) (total_received row) /\
       (In row (mismatches rvq) <-> number_nonzero (Difference row) = true) /\
       (int_column (column_values iq fdf) = true ->
        int_column (column_values ir fdf) = true ->
        - 2 ^ 63 <= q < 2 ^ 63 -> - 2 ^ 63 <= r < 2 ^ 63 ->
        - 2 ^ 63 <= q - r < 2 ^ 63 ->
        total_quantity row = Int64 q /\ total_received row = Int64 r /\
        Difference row = Int64 (q - r) /\
        (In row (mismatches rvq) <-> q <> r))) /\
    (forall row, In row (mismatches rvq) -> In row rvq) /\
    (group_sum [f64_of_Z 10; f64_of_Z 5] = f64_of_Z 15 ->
     group_sum [f64_of_Z 10; f64_of_Z 3] = f64_of_Z 13 ->
     forall r1 r2, group_rows ipo (Str "X1") fdf = [r1; r2] ->
       cell_of_Z 10 (cell_at iq r1) -> cell_of_Z 10 (cell_at ir r1) ->
       cell_of_Z 5 (cell_at iq r2) -> cell_of_Z 3 (cell_at ir r2) ->
       exists row, In row rvq /\ In row (mismatches rvq) /\
         po_number row = Str "X1" /\
         number_of_Z 15 (total_quantity row) /\
         number_of_Z 13 (total_received row) /\
         number_of_Z 2 (Difference row)).
Proof.
  intros H Hnum.
  pose proof (filtered_table_columns _ _ _ _ H) as Hcols.
  destruct (filtered_table_column _ _ _ _ "PO Number" H) as (ipo & Hpo);
    [simpl; tauto|].
  destruct (filtered_table_column _ _ _ _ "Quantity" H) as (iq & Hq);
    [simpl; tauto|].
  destruct (filtered_table_column _ _ _ _ "Received Quantity" H)
    as (ir & Hr); [simpl; tauto|].
  assert (numeric_column (column_values iq fdf) = true) as Fq.
  { apply (filtered_table_numeric sh ctl fdf "Quantity"); auto.
    - simpl. intuition discriminate.
    - now rewrite <- Hcols.
    - apply (Hnum "Quantity"); [simpl; tauto | now rewrite <- Hcols]. }
  assert (numeric_column (column_values ir fdf) = true) as Fr.
  { apply (filtered_table_numeric sh ctl fdf "Received Quantity"); auto.
    - simpl. intuition discriminate.
    - now rewrite <- Hcols.
    - apply (Hnum "Received Quantity"); [simpl; tauto | now rewrite <- Hcols]. }
  destruct (receipts_vs_quantity_total fdf ipo iq ir Hpo Hq Hr Fq Fr)
    as (rvq & Hrvq & Hmap).
  destruct (reconciliation_rows fdf ipo iq ir rvq Fq Fr Hmap)
    as (Hkeys & Hrows).
  exists ipo, iq, ir, rvq.
  do 4 (split; [assumption|]).
  split; [rewrite Hkeys; apply group_keys_NoDup|].
  split; [intro k; rewrite Hkeys; apply group_keys_In|].
  split; [|split].
  - intros row Hin. cbv zeta.
    destruct (Hrows row Hin) as (Htq & Htr & Hd). cbv zeta in Htq, Htr.
    split; [intro E; now rewrite E in Htq|].
    split; [intro E; now rewrite E in Htq|].
    split; [intro E; now rewrite E in Htr|].
    split; [intro E; now rewrite E in Htr|].
    split; [exact Hd|].
    split; [rewrite mismatches_In; tauto|].
    intros Eq Er Bq Br Bd. rewrite Eq in Htq. rewrite Er in Htr.
    rewrite wrap64_small in Htq, Htr by assumption.
    assert (Difference row =
            Int64 (zsum (map cell_value
                           (map (cell_at iq)
                              (group_rows ipo (po_number row) fdf)))
                   - zsum (map cell_value
                             (map (cell_at ir)
                                (group_rows ipo (po_number row) fdf)))))
      as Hdiff.
    { rewrite Hd, Htq, Htr. cbn [number_sub].
      now rewrite wrap64_small. }
    split; [exact Htq|]. split; [exact Htr|]. split; [exact Hdiff|].
    rewrite mismatches_In, Hdiff. cbn [number_nonzero].
    rewrite negb_true_iff, Z.eqb_neq. split; [intros (_ & N) | intro N; split];
      try assumption; lia.
  - intros row Hin. now apply mismatches_In in Hin.
  - intros S15 S13 r1 r2 Hg Hq1 Hr1 Hq2 Hr2.
    assert (forall r0, In r0 [r1; r2] -> In r0 (rows fdf)) as Hsub.
    { intros r0 Hr0. rewrite <- Hg in Hr0. now apply group_rows_In in Hr0. }
    assert (In r1 (rows fdf)) as Hin1 by (apply Hsub; simpl; tauto).
    assert (In r2 (rows fdf)) as Hin2 by (apply Hsub; simpl; tauto).
    assert (In (Str "X1") (group_keys (column_values ipo fdf))) as Hk.
    { apply group_keys_In. split; [|discriminate].
      assert (In r1 (group_rows ipo (Str "X1") fdf)) as Hr1g
        by (rewrite Hg; now left).
      apply group_rows_In in Hr1g as (_ & <-).
      unfold column_values. now apply in_map. }
    destruct (mapM_Ok_each _ _ _ _ Hmap Hk) as (row & Hrow & Hin).
    apply reconciliation_row_inv in Hrow as (Hkey & _).
    destruct (Hrows row Hin) as (Htq & Htr & Hd). cbv zeta in Htq, Htr.
    rewrite Hkey, Hg in Htq, Htr. cbn [map] in Htq, Htr.
    assert (number_of_Z 15 (total_quantity row)) as N15.
    { rewrite Htq. apply (scenario_total _ _ _ 10 5); auto;
        try (unfold column_values; now apply in_map). lia. }
    assert (number_of_Z 13 (total_received row)) as N13.
    { rewrite Htr. apply (scenario_total _ _ _ 10 3); auto;
        try (unfold column_values; now apply in_map). lia. }
    assert (number_of_Z 2 (Difference row) /\
            number_nonzero (Difference row) = true) as (N2 & Hnz).
    { rewrite Hd.
      destruct N15 as [-> | ->], N13 as [-> | ->]; split;
        first [left; reflexivity | right; reflexivity | reflexivity]. }
    exists row. split; [exact Hin|]. split; [now apply mismatches_In|].
    now repeat split.
Qed.

(** X9: on the filtered table of a run whose amount column holds numbers
    and blanks, the supplier table has one row for each supplier (missing
    ones apart) and one row at least; a supplier's total_procurement is the
    sum of the amounts of its records in the arithmetic of the column.  On
    a column of integers the totals add up, as int64, to the amounts of the
    rows that have a supplier: exactly when no supplier's sum leaves int64,
    and to the "Total PO Amount" of the summary when no row lacks its
    supplier. *)
Theorem supplier_totals_add_up (sh : Sheet) (ctl : Controls)
    (fdf : DataFrame) (perf : list SupplierKPI) :
  filtered_table to_datetime sh ctl = Some fdf ->
  (forall j, col_index "PO Total Amount (EGP)" (map strip (header sh)) = Some j ->
     Forall (fun cs => number_cell (nth j cs NA)) (body sh)) ->
  supplier_performance fdf = Ok perf ->
  exists isup iamt,
    col_index "Supplier" (columns fdf) = Some isup /\
    col_index "PO Total Amount (EGP)" (columns fdf) = Some iamt /\
    perf <> [] /\
    NoDup (map kpi_supplier perf) /\
    (forall k, In k (map kpi_supplier perf) <->
       In k (column_values isup fdf) /\ k <> NA) /\
    (forall p, In p perf ->
       let amounts :=
         map (cell_at iamt) (group_rows isup (kpi_supplier p) fdf) in
       (int_column (column_values iamt fdf) = true ->
        total_procurement p = Int64 (wrap64 (zsum (map cell_value amounts)))) /\
       (int_column (column_values iamt fdf) = false ->
        total_procurement p = Float64 (group_sum (float_values amounts)))) /\
    (int_column (column_values iamt fdf) = true ->
     let amount := fun r => cell_value (cell_at iamt r) in
     let with_supplier :=
       filter (fun r => notna (cell_at isup r)) (rows fdf) in
     let total := zsum (map amount with_supplier) in
     let shown := zsum (map (fun p => int_total (total_procurement p)) perf) in
     wrap64 shown = wrap64 total /\
     ((forall k, - 2 ^ 63 <= zsum (map amount (group_rows isup k fdf)) < 2 ^ 63) ->
      shown = total) /\
     (Forall (fun c => c <> NA) (column_values isup fdf) ->
      total_po_amount fdf = Ok (Int64 (wrap64 shown)))).
Proof.
  intros H Hnum Hp.
  pose proof (filtered_table_columns _ _ _ _ H) as Hcols.
  apply supplier_performance_groups in Hp
    as (isup & ipo & iamt & idel & iest & Hs & _ & Ha & _ & _ & Hne & Hm).
  assert (numeric_column (column_values iamt fdf) = true) as Famt.
  { apply (filtered_table_numeric sh ctl fdf "PO Total Amount (EGP)"); auto.
    - simpl. intuition discriminate.
    - now rewrite <- Hcols.
    - apply Hnum. now rewrite <- Hcols. }
  assert (map kpi_supplier perf = group_keys (column_values isup fdf))
    as Hkeys.
  { rewrite <- (map_id (group_keys (column_values isup fdf))).
    eapply mapM_Ok_map; [|exact Hm]. intros k kpi Hk. cbv beta in Hk.
    now apply supplier_kpi_total in Hk. }
  exists isup, iamt. split; [exact Hs|]. split; [exact Ha|].
  split; [|split; [|split; [|split]]].
  - intros ->. simpl in Hkeys. now apply Hne.
  - rewrite Hkeys. apply group_keys_NoDup.
  - intro k. rewrite Hkeys. apply group_keys_In.
  - intros p Hin. cbv zeta.
    destruct (mapM_Ok_In _ _ _ _ Hm Hin) as (k & _ & Hk).
    apply supplier_kpi_total in Hk as (Hkey & Hsum).
    rewrite (sum_cells_numeric _ _ _ Famt) in Hsum. injection Hsum as Hsum.
    rewrite Hkey.
    split; intro E; rewrite E in Hsum; now rewrite <- Hsum.
  - intro Eint. cbv zeta.
    set (amount := fun r => cell_value (cell_at iamt r)).
    assert (map (fun p => int_total (total_procurement p)) perf =
            map (fun k => wrap64 (zsum (map amount (group_rows isup k fdf))))
                (group_keys (column_values isup fdf))) as Hshown.
    { eapply mapM_Ok_map; [|exact Hm]. intros k kpi Hk. cbv beta in Hk.
      apply supplier_kpi_total in Hk as (_ & Hsum).
      rewrite (sum_cells_numeric _ _ _ Famt), Eint in Hsum.
      injection Hsum as <-. cbn [int_total]. now rewrite map_map. }
    rewrite Hshown.
    assert (wrap64
              (zsum
                 (map (fun k =>
                         wrap64 (zsum (map amount (group_rows isup k fdf))))
                    (group_keys (column_values isup fdf)))) =
            wrap64
              (zsum (map amount
                       (filter (fun r => notna (cell_at isup r)) (rows fdf)))))
      as Hwrap.
    { apply wrap64_mod.
      rewrite (zsum_wrap64
                 (fun k => zsum (map amount (group_rows isup k fdf)))).
      now rewrite partition_by_column. }
    split; [exact Hwrap|]. split.
    + intro Hb. rewrite <- partition_by_column. f_equal.
      apply map_ext. intro k. now apply wrap64_small.
    + intro Fna. unfold total_po_amount, getcol. rewrite Ha. cbn [rbind].
      rewrite (sum_cells_numeric _ _ _ Famt), Eint, Hwrap.
      rewrite filter_notna_all by exact Fna.
      unfold column_values. now rewrite map_map.
Qed.

End RunTotals.

(** ** The rankings (lines 102 to 109) *)

Ltac cmp_cases :=
  repeat match goal with
  | |- context [Pos.compare_cont Eq ?a ?b] =>
      change (Pos.compare_cont Eq a b) with (Pos.compare a b)
  | |- context [Z.compare ?a ?b] =>
      destruct (Z.compare_spec a b); subst
  | |- context [Pos.compare ?a ?b] =>
      destruct (Pos.compare_spec a b); subst
  end.

(** The comparison of floats orders those that are not NaN. *)
Lemma SFleb_total (x y : spec_float) :
  x <> S754_nan -> y <> S754_nan -> SFleb x y = false -> SFleb y x = true.
Proof.
  unfold SFleb, SFcompare.
  destruct x as [sx|sx| |sx mx ex], y as [sy|sy| |sy my ey];
    try congruence; intros _ _;
    try destruct sx; try destruct sy; simpl; try easy;
    cmp_cases; simpl; try easy; lia.
Qed.

Lemma SFleb_trans (x y z : spec_float) :
  x <> S754_nan -> y <> S754_nan -> z <> S754_nan ->
  SFleb x y = true -> SFleb y z = true -> SFleb x z = true.
Proof.
  unfold SFleb, SFcompare.
  destruct x as [sx|sx| |sx mx ex], y as [sy|sy| |sy my ey],
    z as [sz|sz| |sz mz ez];
    try congruence; intros _ _ _;
    try destruct sx; try destruct sy; try destruct sz; simpl; try easy;
    cmp_cases; simpl; try easy; lia.
Qed.

Lemma is_nan_float (f : spec_float) :
  is_nan (Float64 f) = false -> f <> S754_nan.
Proof. intros H ->. discriminate. Qed.

Lemma number_leb_total (x y : number) :
  is_int64 x = is_int64 y -> is_nan x = false -> is_nan y = false ->
  number_leb x y = false -> number_leb y x = true.
Proof.
  destruct x as [a|f], y as [b|g]; try discriminate; intros _ Hx Hy.
  - cbn [number_leb]. rewrite Z.leb_gt, Z.leb_le. lia.
  - apply SFleb_total; now apply is_nan_float.
Qed.

Lemma number_leb_trans (x y z : number) :
  is_int64 x = is_int64 y -> is_int64 y = is_int64 z ->
  is_nan x = false -> is_nan y = false -> is_nan z = false ->
  number_leb x y = true -> number_leb y z = true -> number_leb x z = true.
Proof.
  destruct x as [a|f], y as [b|g], z as [c|h]; try discriminate;
    intros _ _ Hx Hy Hz.
  - cbn [number_leb]. rewrite !Z.leb_le. lia.
  - apply SFleb_trans; now apply is_nan_float.
Qed.

Lemma insert_desc_perm (x : cell * number) (l : list (cell * number)) :
  Permutation (insert_desc x l) (x :: l).
Proof.
  induction l as [|y l IH]; simpl; [reflexivity|].
  destruct (number_leb (snd y) (snd x)); [reflexivity|].
  rewrite IH. apply perm_swap.
Qed.

Lemma sort_desc_perm (s : list (cell * number)) :
  Permutation (fold_right insert_desc [] s) s.
Proof.
  induction s as [|x s IH]; simpl; [reflexivity|].
  rewrite insert_desc_perm. now constructor.
Qed.

Lemma insert_desc_descending (b : bool) (x : cell * number)
    (l : list (cell * number)) :
  plain_total b x -> Forall (plain_total b) l -> descending l ->
  descending (insert_desc x l).
Proof.
  intros (Kx & Nx) F. induction F as [|y l (Ky & Ny) F IH]; simpl; intro D.
  - split; [intros z []|exact I].
  - destruct D as (Hy & D). destruct (number_leb (snd y) (snd x)) eqn:E.
    + simpl. split; [|now split].
      intros z [<-|Hz]; [right; now split|].
      rewrite Forall_forall in F. destruct (F z Hz) as (Kz & Nz).
      right. split; [exact Nx|].
      destruct (Hy z Hz) as [Hn|(_ & Hle)]; [congruence|].
      apply (number_leb_trans _ (snd y)); try congruence.
    + simpl. split; [|now apply IH].
      intros z Hz. apply (Permutation_in _ (insert_desc_perm x l)) in Hz.
      destruct Hz as [<-|Hz]; [|now apply Hy].
      right. split; [exact Ny|]. apply number_leb_total; congruence.
Qed.

Lemma sort_desc_descending (b : bool) (s : list (cell * number)) :
  Forall (plain_total b) s -> descending (fold_right insert_desc [] s).
Proof.
  induction 1 as [|x s Hx F IH]; simpl; [exact I|].
  apply (insert_desc_descending b); [exact Hx| |exact IH].
  rewrite Forall_forall in *. intros y Hy. apply F.
  now apply (Permutation_in _ (sort_desc_perm s)).
Qed.

Lemma In_firstn {A : Type} (n : nat) (l : list A) (x : A) :
  In x (firstn n l) -> In x l.
Proof.
  revert n. induction l as [|y l IH]; intros [|n]; simpl; try tauto.
  intros [H|H]; [now left | right; eapply IH; eassumption].
Qed.

Lemma In_skipn {A : Type} (n : nat) (l : list A) (x : A) :
  In x (skipn n l) -> In x l.
Proof.
  revert n. induction l as [|y l IH]; intros [|n]; simpl; try tauto.
  intro H. right. eapply IH; eassumption.
Qed.

Lemma descending_app (l1 l2 : list (cell * number)) :
  descending l1 -> descending l2 ->
  (forall x y, In x l1 -> In y l2 -> ranks_above (snd x) (snd y)) ->
  descending (l1 ++ l2).
Proof.
  induction l1 as [|x l1 IH]; simpl; intros D1 D2 H; [exact D2|].
  destruct D1 as (Hx & D1). split.
  - intros y Hy. apply in_app_or in Hy as [Hy|Hy]; [now apply Hx|].
    apply H; [now left | exact Hy].
  - apply IH; auto.
Qed.

Lemma descending_nan (l : list (cell * number)) :
  Forall (fun e => is_nan (snd e) = true) l -> descending l.
Proof.
  induction 1 as [|x l Hx F IH]; simpl; [exact I|]. split; [|exact IH].
  intros y Hy. left. rewrite Forall_forall in F. now apply F.
Qed.

Lemma descending_firstn (n : nat) (l : list (cell * number)) :
  descending l -> descending (firstn n l).
Proof.
  revert n. induction l as [|x l IH]; intros [|n] D; simpl; try exact I.
  destruct D as (Hx & D). split; [|now apply IH].
  intros y Hy. apply Hx. eapply In_firstn; eassumption.
Qed.

Lemma descending_cut (n : nat) (l : list (cell * number))
    (x y : cell * number) :
  descending l -> In x (firstn n l) -> In y (skipn n l) ->
  ranks_above (snd x) (snd y).
Proof.
  revert n. induction l as [|z l IH]; intros [|n] D Hx Hy; simpl in *;
    try contradiction.
  destruct D as (Hz & D). destruct Hx as [<-|Hx].
  - apply Hz. eapply In_skipn; eassumption.
  - eapply IH; eassumption.
Qed.

Lemma filter_split_perm {A : Type} (p : A -> bool) (l : list A) :
  Permutation (filter (fun x => negb (p x)) l ++ filter p l) l.
Proof.
  induction l as [|x l IH]; simpl; [reflexivity|].
  destruct (p x); simpl.
  - rewrite <- Permutation_middle. now constructor.
  - now constructor.
Qed.

(** What [nlargest] returns of totals of one dtype: the first [n] of them in
    descending order, or all of them; whatever is left out ranks no higher
    than what is shown. *)
Lemma nlargest_spec (n : nat) (s : list (cell * number)) (b : bool) :
  (forall e, In e s -> is_int64 (snd e) = b) ->
  List.length (nlargest n s) = Nat.min n (List.length s) /\
  descending (nlargest n s) /\
  exists rest, Permutation s (nlargest n s ++ rest) /\
    forall x y, In x (nlargest n s) -> In y rest ->
      ranks_above (snd x) (snd y).
Proof.
  intro Hb. unfold nlargest.
  set (plain := filter (fun e => negb (is_nan (snd e))) s).
  set (nans := filter (fun e => is_nan (snd e)) s).
  set (sorted := (fold_right insert_desc [] plain ++ nans)%list).
  assert (Permutation sorted s) as P.
  { unfold sorted. rewrite sort_desc_perm. apply filter_split_perm. }
  assert (descending sorted) as D.
  { apply descending_app.
    - apply (sort_desc_descending b). apply Forall_forall. intros e He.
      apply filter_In in He as (He & Hn). split; [now apply Hb|].
      now apply negb_true_iff in Hn.
    - apply descending_nan, Forall_forall. intros e He.
      now apply filter_In in He.
    - intros x y _ Hy. left. now apply filter_In in Hy. }
  split; [|split].
  - rewrite length_firstn. now rewrite (Permutation_length P).
  - now apply descending_firstn.
  - exists (skipn n sorted). split.
    + rewrite firstn_skipn. now apply Permutation_sym.
    + intros x y. now apply descending_cut.
Qed.


Lemma group_keys_length (col : list cell) :
  List.length (group_keys col) = nunique col.
Proof.
  unfold group_keys, nunique. apply Permutation_length, sort_keys_perm.
Qed.

Section Rankings.

Variable to_datetime : list cell -> list (option Z).

(** X18: on the filtered table of a run whose amount column holds numbers
    and blanks, the ranking of the customers shows five customers, or all of
    them when there are fewer, each once, with the sum of the amounts of
    its records in the arithmetic of the column, by descending sum (NaN
    last); no customer that is left out ranks above one that is shown. *)
Theorem top_customers_ranking (sh : Sheet) (ctl : Controls)
    (fdf : DataFrame) :
  filtered_table to_datetime sh ctl = Some fdf ->
  (forall j, col_index "PO Total Amount (EGP)" (map strip (header sh)) = Some j ->
     Forall (fun cs => number_cell (nth j cs NA)) (body sh)) ->
  exists icust iamt top,
    col_index "Customer Name" (columns fdf) = Some icust /\
    col_index "PO Total Amount (EGP)" (columns fdf) = Some iamt /\
    top_customers fdf = Ok top /\
    let total := fun k =>
      let amounts := map (cell_at iamt) (group_rows icust k fdf) in
      if int_column (column_values iamt fdf)
      then Int64 (wrap64 (zsum (map cell_value amounts)))
      else Float64 (group_sum (float_values amounts)) in
    List.length top = Nat.min 5 (nunique (column_values icust fdf)) /\
    NoDup (map fst top) /\
    (forall e, In e top ->
       In (fst e) (column_values icust fdf) /\ fst e <> NA /\
       snd e = total (fst e)) /\
    descending top /\
    (forall k e, In k (column_values icust fdf) -> k <> NA ->
       ~ In k (map fst top) -> In e top -> ranks_above (snd e) (total k)).
Proof.
  intros H Hnum.
  pose proof (filtered_table_columns _ _ _ _ H) as Hcols.
  destruct (filtered_table_column _ _ _ _ "Customer Name" H) as (icust & Hc);
    [simpl; tauto|].
  destruct (filtered_table_column _ _ _ _ "PO Total Amount (EGP)" H)
    as (iamt & Ha); [simpl; tauto|].
  assert (numeric_column (column_values iamt fdf) = true) as Famt.
  { apply (filtered_table_numeric to_datetime sh ctl fdf
             "PO Total Amount (EGP)"); auto.
    - simpl. intuition discriminate.
    - now rewrite <- Hcols.
    - apply Hnum. now rewrite <- Hcols. }
  set (total := fun k =>
         if int_column (column_values iamt fdf)
         then Int64 (wrap64 (zsum (map cell_value
                (map (cell_at iamt) (group_rows icust k fdf)))))
         else Float64 (group_sum (float_values
                (map (cell_at iamt) (group_rows icust k fdf))))).
  set (keys := group_keys (column_values icust fdf)).
  set (totals := map (fun k => (k, total k)) keys).
  assert (top_customers fdf = Ok (nlargest 5 totals)) as Htop.
  { assert (forall ks,
              mapM (fun k =>
                      let? s := sum_cells group_sum (column_values iamt fdf)
                                  (map (cell_at iamt) (group_rows icust k fdf))
                      in Ok (k, s)) ks
              = Ok (map (fun k => (k, total k)) ks)) as Hall.
    { induction ks as [|k ks IH]; [reflexivity|].
      cbn [mapM map]. rewrite IH, (sum_cells_numeric _ _ _ Famt).
      reflexivity. }
    unfold top_customers, getcol. rewrite Hc, Ha. cbn [rbind].
    now rewrite Hall. }
  exists icust, iamt, (nlargest 5 totals).
  split; [exact Hc|]. split; [exact Ha|]. split; [exact Htop|].
  cbv zeta. fold total.
  assert (forall e, In e totals ->
            is_int64 (snd e) = int_column (column_values iamt fdf)) as Hkind.
  { intros e He. apply in_map_iff in He as (k & <- & _). cbn [snd].
    unfold total. now destruct (int_column (column_values iamt fdf)). }
  destruct (nlargest_spec 5 totals _ Hkind)
    as (Hlen & Hdesc & rest & P & Hrest).
  assert (map fst totals = keys) as Hkeys.
  { unfold totals. rewrite map_map. cbn [fst]. apply map_id. }
  split; [|split; [|split; [|split]]].
  - rewrite Hlen. unfold totals. rewrite length_map.
    unfold keys. now rewrite group_keys_length.
  - assert (NoDup (map fst totals)) as N
      by (rewrite Hkeys; apply group_keys_NoDup).
    apply (Permutation_NoDup (Permutation_map fst P)) in N.
    rewrite map_app in N. now apply NoDup_app_remove_r in N.
  - intros e He.
    assert (In e totals) as Hin.
    { apply (Permutation_in _ (Permutation_sym P)), in_or_app. now left. }
    apply in_map_iff in Hin as (k & <- & Hk). cbn [fst snd].
    apply group_keys_In in Hk as (Hk & Hna). now repeat split.
  - exact Hdesc.
  - intros k e Hk Hna Hout He.
    assert (In (k, total k) totals) as Hin.
    { apply in_map_iff. exists k. split; [reflexivity|].
      apply group_keys_In. now split. }
    apply (Permutation_in _ P), in_app_or in Hin as [Hin|Hin].
    + exfalso. apply Hout. apply in_map_iff. now exists (k, total k).
    + apply (Hrest e _ He Hin).
Qed.

End Rankings.

Lemma top_customers_total (df : DataFrame) (icust iamt : nat) :
  col_index "Customer Name" (columns df) = Some icust ->
  col_index "PO Total Amount (EGP)" (columns df) = Some iamt ->
  numeric_column (column_values iamt df) = true ->
  exists top, top_customers df = Ok top.
Proof.
  intros Hc Ha F. unfold top_customers, getcol. rewrite Hc, Ha.
  cbn [rbind].
  destruct (mapM_total
              (fun k =>
                 let? s := sum_cells group_sum (column_values iamt df)
                             (map (cell_at iamt) (group_rows icust k df)) in
                 Ok (k, s))
              (group_keys (column_values icust df))) as (totals & ->).
  - intros k _. rewrite (sum_cells_numeric _ _ _ F).
    cbn [rbind]. now eexists.
  - cbn [rbind]. now eexists.
Qed.

(** The sections computed from a table that has its columns, with numbers
    in the amount and quantity columns: they all run to their end when a
    row has a supplier, and stop at the supplier table when none has. *)
Lemma metrics_result (ctl : Controls) (df : DataFrame) (isup : nat) :
  (forall c, In c ("Supplier" :: required_columns) ->
     exists i, col_index c (columns df) = Some i) ->
  col_index "Supplier" (columns df) = Some isup ->
  (forall c j,
     In c ["PO Total Amount (EGP)"; "Quantity"; "Received Quantity"] ->
     col_index c (columns df) = Some j ->
     numeric_column (column_values j df) = true) ->
  snd (metrics ctl df) =
    if existsb notna (column_values isup df) then Ok tt else Raise TypeError.
Proof.
  intros Hcols Hsup Hnum.
  destruct (Hcols "Sales Order No") as (iso & Hso); [simpl; tauto|].
  destruct (Hcols "Customer Name") as (icust & Hcust); [simpl; tauto|].
  destruct (Hcols "PO Number") as (ipo & Hpo); [simpl; tauto|].
  destruct (Hcols "PO Total Amount (EGP)") as (iamt & Hamt); [simpl; tauto|].
  destruct (Hcols "Delivery Date") as (idel & Hdel); [simpl; tauto|].
  destruct (Hcols "Estimated Delivery Date") as (iest & Hest);
    [simpl; tauto|].
  destruct (Hcols "Quantity") as (iq & Hq); [simpl; tauto|].
  destruct (Hcols "Received Quantity") as (ir & Hr); [simpl; tauto|].
  assert (numeric_column (column_values iamt df) = true) as Famt
    by (apply (Hnum "PO Total Amount (EGP)"); [simpl; tauto | exact Hamt]).
  assert (numeric_column (column_values iq df) = true) as Fq
    by (apply (Hnum "Quantity"); [simpl; tauto | exact Hq]).
  assert (numeric_column (column_values ir df) = true) as Fr
    by (apply (Hnum "Received Quantity"); [simpl; tauto | exact Hr]).
  unfold metrics. run_result.
  assert (snd (delay_analysis ctl df) = Ok tt) as ->.
  { unfold delay_analysis, delayed_shipments, getcol. rewrite Hest, Hdel.
    cbn [rbind]. run_result.
    now destruct (5 <? _)%nat. }
  run_result.
  destruct (existsb notna (column_values isup df)) eqn:Ex.
  - assert (group_keys (column_values isup df) <> []) as Hne.
    { intro E. apply existsb_notna_keys in E. congruence. }
    destruct (supplier_performance_total df _ _ _ _ _ Hsup Hpo Hamt Hdel Hest
                Famt Hne) as (perf & Hperf).
    destruct (top_customers_total df _ _ Hcust Hamt Famt) as (top & Htop).
    destruct (receipts_vs_quantity_total df _ _ _ Hpo Hq Hr Fq Fr)
      as (rvq & Hrvq & _).
    assert (reconciliation_guard df = true) as Hguard.
    { unfold reconciliation_guard. apply forallb_forall. intros c Hc.
      apply col_index_has_column, Hcols. simpl in *. intuition. }
    assert (snd (supplier_section df) = Ok perf) as ->.
    { unfold supplier_section. rewrite Hperf. run_result. reflexivity. }
    run_result.
    assert (snd (ranking_section df perf) = Ok tt) as ->.
    { unfold ranking_section. rewrite Htop. run_result. reflexivity. }
    run_result.
    assert (snd (reconciliation_section df) = Ok tt) as ->.
    { unfold reconciliation_section. rewrite Hguard, Hrvq. run_result.
      reflexivity. }
    run_result.
    assert (snd (summary_section df) = Ok tt) as ->.
    { unfold summary_section, total_sales_orders, total_po_amount,
        delayed_count, getcol.
      rewrite Hso, Hamt, Hdel, Hest. cbn [rbind].
      rewrite (sum_cells_numeric _ _ _ Famt).
      run_result. reflexivity. }
    unfold export_section. run_result. reflexivity.
  - apply existsb_notna_keys in Ex.
    assert (supplier_performance df = Raise TypeError) as Hperf.
    { unfold supplier_performance, getcol.
      rewrite Hsup, Hpo, Hamt, Hdel, Hest. cbn [rbind]. now rewrite Ex. }
    assert (snd (supplier_section df) = Raise TypeError) as ->.
    { unfold supplier_section. rewrite Hperf. run_result. reflexivity. }
    reflexivity.
Qed.

Lemma infer_column_text (col : list cell) :
  existsb is_str col = true -> infer_column col = col.
Proof.
  intro H. unfold infer_column.
  assert (float_column col = false) as ->; [|reflexivity].
  unfold float_column. apply andb_false_iff. left.
  destruct (forallb (fun c => is_num c || isna c) col) eqn:E; [|reflexivity].
  apply numbers_no_str in E as (E & _). congruence.
Qed.

Section CompleteRuns.

Variable to_datetime : list cell -> list (option Z).

(** X17: when the upload has the required columns and a supplier column,
    at least one order number is text, and the amount and the two quantity
    columns hold numbers or blanks only, the run gets to the filtered table,
    whatever is selected in the sidebar, and ends normally when a row of the
    filtered table has a supplier.  When none has (no row is left, or every
    supplier is blank) it stops at the supplier table with a TypeError. *)
Theorem run_completes (sh : Sheet) (ctl : Controls) :
  let cols := map strip (header sh) in
  missing_columns cols = [] ->
  has_column "Supplier" cols = true ->
  (forall i, col_index "Sales Order No" cols = Some i ->
     existsb is_str (map (fun cs => nth i cs NA) (body sh)) = true) ->
  (forall c j,
     In c ["PO Total Amount (EGP)"; "Quantity"; "Received Quantity"] ->
     col_index c cols = Some j ->
     Forall (fun cs => number_cell (nth j cs NA)) (body sh)) ->
  exists fdf isup,
    filtered_table to_datetime sh ctl = Some fdf /\
    col_index "Supplier" (columns fdf) = Some isup /\
    snd (script to_datetime (Some sh) ctl) =
      if existsb notna (column_values isup fdf) then Ok tt
      else Raise TypeError.
Proof.
  intros cols Hm Hs Hstr Hnum.
  set (raw := strip_columns (read_excel sh)).
  assert (columns raw = cols) as Hraw by reflexivity.
  destruct (validated_column _ "Sales Order No" Hm) as (iso & Hso);
    [simpl; tauto|].
  destruct (normalize_total to_datetime raw iso) as (df & Hn).
  { now rewrite Hraw. }
  { change (column_values iso raw) with (column_values iso (read_excel sh)).
    rewrite read_excel_column, infer_column_text; now apply Hstr. }
  destruct (normalize_inv_columns to_datetime raw df Hn)
    as (i & Hi & Hc & _ & Hv).
  rewrite Hraw in Hc.
  assert (forall c, In c ("Supplier" :: required_columns) ->
            exists j, col_index c cols = Some j) as Hcols.
  { intros c [<-|Hc']; [now apply col_index_has_column|].
    now apply validated_column. }
  destruct (filtered_df_total ctl df) as (fdf & Hf);
    try (rewrite Hc; apply col_index_has_column, Hcols; simpl; tauto).
  assert (filtered_table to_datetime sh ctl = Some fdf) as Hft.
  { unfold filtered_table, normalized_table. cbv zeta. fold raw.
    rewrite Hraw, Hm, Hn. unfold getcol. rewrite Hc.
    destruct (Hcols "Supplier") as (k & ->); [simpl; tauto|].
    now rewrite Hf. }
  pose proof (filtered_df_columns _ _ _ Hf) as Hfc.
  destruct (Hcols "Supplier") as (isup & Hsup); [simpl; tauto|].
  exists fdf, isup. split; [exact Hft|].
  split; [now rewrite Hfc, Hc|].
  destruct (process_filtered to_datetime sh ctl fdf Hft)
    as (o & c & s0 & Hp).
  unfold script. run_result. rewrite Hp. cbn [snd].
  apply metrics_result.
  - intros c' Hc'. rewrite Hfc, Hc. now apply Hcols.
  - now rewrite Hfc, Hc.
  - intros c' j Hin Hj. rewrite Hfc, Hc in Hj.
    apply (filtered_table_numeric to_datetime sh ctl fdf c' j Hft);
      [|exact Hj | now apply (Hnum c')].
    simpl in *. intuition; subst; discriminate.
Qed.

End CompleteRuns.

(** ** The order numbers of a filtered table (lines 34 to 62 and 142) *)

Lemma unique_length_le (l : list cell) :
  (List.length (unique l) <= List.length l)%nat.
Proof.
  induction l as [|c l IH]; simpl; [lia|].
  pose proof (filter_length_le (fun x => negb (cell_eqb x c)) (unique l)).
  lia.
Qed.

Section OrderNumbers.

Variable to_datetime : list cell -> list (option Z).

(** X19: the filters keep what the normaliser established: no row of a
    filtered table has a missing order number or one with "Summary" in it;
    so the "Total Sales Orders" figure, which counts the distinct values of
    the column, counts distinct order numbers only, at most one for each
    row. *)
Theorem filtered_table_order_numbers (sh : Sheet) (ctl : Controls)
    (fdf : DataFrame) :
  filtered_table to_datetime sh ctl = Some fdf ->
  exists i, col_index "Sales Order No" (columns fdf) = Some i /\
    (forall r, In r (rows fdf) ->
       cell_at i r <> NA /\
       forall s, cell_at i r = Str s -> ~ occurs_in "Summary" s) /\
    total_sales_orders fdf = Ok (nunique (column_values i fdf)) /\
    (nunique (column_values i fdf) <= List.length (rows fdf))%nat.
Proof.
  intro H. apply filtered_table_inv in H as (df & Hn & Hf & _).
  apply normalized_table_inv in Hn as (_ & Hn).
  apply normalize_inv in Hn as (i & Hi & Hc & _ & Hv).
  pose proof (filtered_df_columns _ _ _ Hf) as Hfc.
  apply filtered_df_inv in Hf as (p & Hfdf & _).
  exists i. split; [now rewrite Hfc, Hc|].
  assert (forall r, In r (rows fdf) ->
            cell_at i r <> NA /\
            forall s, cell_at i r = Str s -> ~ occurs_in "Summary" s) as Hrows.
  { intros r Hr. rewrite Hfdf in Hr. cbn [rows with_rows] in Hr.
    apply filter_In in Hr as (Hr & _).
    assert (In (cell_at i r) (column_values i df)) as Hin
      by (unfold column_values; now apply in_map).
    rewrite Hv in Hin. apply in_map_iff in Hin as (r0 & E & Hin).
    apply filter_In in Hin as (Hin & Hna).
    apply filter_In in Hin as (_ & Hsum). rewrite <- E. split.
    - intro Hz. rewrite Hz in Hna. discriminate.
    - intros s Hs Hocc. rewrite Hs in Hsum. simpl in Hsum.
      apply contains_occurs in Hocc. rewrite Hocc in Hsum. discriminate. }
  split; [exact Hrows|].
  assert (filter notna (column_values i fdf) = column_values i fdf) as Hall.
  { apply filter_notna_id. unfold column_values. rewrite Forall_forall.
    intros c Hc'. apply in_map_iff in Hc' as (r & <- & Hr).
    now apply Hrows. }
  split.
  - unfold total_sales_orders, getcol. rewrite Hfc, Hc, Hi. cbn [rbind].
    unfold nunique. now rewrite Hall.
  - unfold nunique. rewrite Hall.
    pose proof (unique_length_le (column_values i fdf)) as Hle.
    unfold column_values in Hle at 2. now rewrite length_map in Hle.
Qed.

End OrderNumbers.

End FurtherProperties.

(** ** The further properties on the sample uploads *)

Section FurtherSampleRuns.

#[local] Existing Instance sample_sums.

Lemma filtered_df_rows_witness :
  filtered_df acme_controls sample_filtered = Ok acme_filtered /\
  columns acme_filtered = columns sample_filtered.
Proof.
  split; [exact acme_filtered_df|].
  exact (proj1 (filtered_df_rows acme_controls sample_filtered acme_filtered
                  acme_filtered_df)).
Defined.

Lemma filtered_df_all_selected_witness :
  col_index "Sales Order No" (columns sample_filtered) = Some 0%nat /\
  col_index "Customer Name" (columns sample_filtered) = Some 1%nat /\
  col_index "Supplier" (columns sample_filtered) = Some 10%nat /\
  filtered_df
    (mkControls (unique (column_values 0 sample_filtered))
       (unique (column_values 1 sample_filtered))
       (unique (column_values 10 sample_filtered)) 30) sample_filtered
  = Ok sample_filtered.
Proof.
  repeat (split; [reflexivity|]).
  exact (filtered_df_all_selected sample_filtered 0 1 10 30
           eq_refl eq_refl eq_refl).
Defined.

Lemma no_supplier_normalize :
  normalize sample_to_datetime (strip_columns (read_excel no_supplier_sheet))
  = Ok (read_excel no_supplier_sheet).
Proof. vm_compute. reflexivity. Qed.

Lemma supplier_column_KeyError_witness :
  missing_columns (map strip (header no_supplier_sheet)) = [] /\
  has_column "Supplier" (map strip (header no_supplier_sheet)) = false /\
  filtered_table sample_to_datetime no_supplier_sheet sample_controls = None.
Proof.
  split; [reflexivity|]. split; [reflexivity|].
  exact (proj2 (supplier_column_KeyError sample_to_datetime no_supplier_sheet
                  sample_controls (read_excel no_supplier_sheet)
                  eq_refl no_supplier_normalize eq_refl)).
Defined.

Lemma numeric_orders_numeric :
  Forall (fun cs => numeric_cell (nth 0 cs NA)) (body numeric_orders_sheet).
Proof.
  unfold numeric_orders_sheet, body.
  apply Forall_cons; [right; now exists 1001|].
  apply Forall_cons; [now left|]. apply Forall_nil.
Qed.

Lemma numeric_order_numbers_AttributeError_witness :
  missing_columns (map strip (header numeric_orders_sheet)) = [] /\
  body numeric_orders_sheet <> [] /\
  process sample_to_datetime numeric_orders_sheet sample_controls
  = ([], Raise AttributeError).
Proof.
  split; [reflexivity|]. split; [discriminate|].
  exact (proj1 (numeric_order_numbers_AttributeError sample_to_datetime
                  numeric_orders_sheet sample_controls 0 eq_refl eq_refl
                  ltac:(discriminate) numeric_orders_numeric)).
Defined.

Lemma sample_delayed_10 :
  delayed_shipments 10 sample_filtered
  = Ok [mkRow 0 [Str "SO1"; Str "Cairo"; Str "X1"; Num 100; Num 100; day 1;
                 day 0; day 20; Num 10; Num 10; Str "Acme"]].
Proof. vm_compute. reflexivity. Qed.

Lemma sample_delayed_20 : delayed_shipments 20 sample_filtered = Ok [].
Proof. vm_compute. reflexivity. Qed.

Lemma sample_delayed_count : delayed_count sample_filtered = Ok 0%nat.
Proof. vm_compute. reflexivity. Qed.

Lemma delayed_shipments_antitone_witness :
  10 <= 20 /\
  delayed_shipments 20 sample_filtered = Ok [] /\
  subseq (@nil Row)
    [mkRow 0 [Str "SO1"; Str "Cairo"; Str "X1"; Num 100; Num 100; day 1;
              day 0; day 20; Num 10; Num 10; Str "Acme"]].
Proof.
  split; [lia|]. split; [exact sample_delayed_20|].
  exact (proj1 (delayed_shipments_antitone sample_filtered 10 20 _ _
                  ltac:(lia) sample_delayed_10 sample_delayed_20)).
Defined.

Lemma delayed_shipments_delivered_early_witness :
  0 <= 10 /\
  delayed_count sample_filtered = Ok 0%nat /\
  exists idel iest,
    col_index "Delivery Date" (columns sample_filtered) = Some idel /\
    col_index "Estimated Delivery Date" (columns sample_filtered) = Some iest.
Proof.
  split; [lia|]. split; [exact sample_delayed_count|].
  destruct (delayed_shipments_delivered_early sample_filtered 10 _ 0
              ltac:(lia) sample_delayed_10 sample_delayed_count)
    as (idel & iest & H1 & H2 & _).
  now exists idel, iest.
Defined.

Lemma supplier_counts_aligned_witness :
  filtered_table sample_to_datetime sample_sheet sample_controls
    = Some sample_filtered /\
  In acme_kpi sample_performance /\
  exists isup, col_index "Supplier" (columns sample_filtered) = Some isup.
Proof.
  split; [exact sample_filtered_table|]. split; [now left|].
  destruct (supplier_counts_aligned sample_to_datetime sample_sheet
              sample_controls sample_filtered sample_performance acme_kpi
              sample_filtered_table sample_supplier_performance
              (or_introl eq_refl))
    as (isup & idel & iest & H & _).
  now exists isup.
Defined.

Lemma sample_quantity_columns (c : string) (j : nat) :
  In c ["Quantity"; "Received Quantity"] ->
  col_index c (map strip (header sample_sheet)) = Some j ->
  Forall (fun cs => number_cell (nth j cs NA)) (body sample_sheet).
Proof.
  intros [<-|[<-|[]]] H; vm_compute in H; injection H as <-;
    unfold sample_sheet, body;
    repeat (apply Forall_cons; [cbn; lia|]); apply Forall_nil.
Qed.

Lemma sample_X1_rows :
  group_rows 2 (Str "X1") sample_filtered =
    [mkRow 0 [Str "SO1"; Str "Cairo"; Str "X1"; Num 100; Num 100; day 1; day 0;
              day 20; Num 10; Num 10; Str "Acme"];
     mkRow 1 [Str "SO2"; Str "Cairo"; Str "X1"; Num 200; Num 200; day 1; day 0;
              day 3; Num 5; Num 3; Str "Acme"]].
Proof. vm_compute. reflexivity. Qed.

Lemma receipts_vs_quantity_rows_witness :
  filtered_table sample_to_datetime sample_sheet sample_controls
    = Some sample_filtered /\
  exists row,
    In row (mismatches [mkRecon (Str "X1") (Int64 15) (Int64 13) (Int64 2)]) /\
    po_number row = Str "X1" /\
    number_of_Z 15 (total_quantity row) /\
    number_of_Z 13 (total_received row) /\
    number_of_Z 2 (Difference row).
Proof.
  split; [exact sample_filtered_table|].
  destruct (receipts_vs_quantity_rows sample_to_datetime sample_sheet
              sample_controls sample_filtered sample_filtered_table
              sample_quantity_columns)
    as (ipo & iq & ir & rvq & Hpo & Hq & Hr & Hrvq & _ & _ & _ & _ & Hx).
  vm_compute in Hpo. injection Hpo as <-.
  vm_compute in Hq. injection Hq as <-.
  vm_compute in Hr. injection Hr as <-.
  rewrite sample_receipts in Hrvq. injection Hrvq as <-.
  destruct (Hx eq_refl eq_refl _ _ sample_X1_rows
              (or_introl eq_refl) (or_introl eq_refl)
              (or_introl eq_refl) (or_introl eq_refl))
    as (row & _ & Hm & Hk & H15 & H13 & H2).
  exists row. repeat split; assumption.
Defined.

(** With a blank among the quantities the ordered total and the difference
    are floats, the received total an integer. *)
Lemma float_receipts :
  exists fdf,
    filtered_table sample_to_datetime float_sheet sample_controls
      = Some fdf /\
    column_values 8 fdf = [Flt (f64_of_Z 10); Flt (f64_of_Z 5)] /\
    receipts_vs_quantity fdf =
      Ok [mkRecon (Str "X1") (Float64 (f64_of_Z 15)) (Int64 13)
            (Float64 (f64_of_Z 2))] /\
    mismatches [mkRecon (Str "X1") (Float64 (f64_of_Z 15)) (Int64 13)
                  (Float64 (f64_of_Z 2))]
    = [mkRecon (Str "X1") (Float64 (f64_of_Z 15)) (Int64 13)
         (Float64 (f64_of_Z 2))].
Proof.
  eexists. split; [vm_compute; reflexivity|].
  repeat split; vm_compute; reflexivity.
Qed.

(** C7 as it is worded does not hold of the code: two records of one PO with
    the quantity 2^62 each, nothing received, add up to 2^63; the row of the
    code has the total -2^63 and the difference -2^63. *)
Lemma receipts_vs_quantity_counterexample :
  exists fdf,
    filtered_table sample_to_datetime overflow_sheet sample_controls
      = Some fdf /\
    group_rows 2 (Str "X1") fdf = rows fdf /\
    zsum (map (fun r => cell_value (cell_at 8 r)) (rows fdf)) = 2 ^ 63 /\
    zsum (map (fun r => cell_value (cell_at 9 r)) (rows fdf)) = 0 /\
    receipts_vs_quantity fdf =
      Ok [mkRecon (Str "X1") (Int64 (- 2 ^ 63)) (Int64 0) (Int64 (- 2 ^ 63))].
Proof.
  eexists. split; [vm_compute; reflexivity|].
  repeat split; vm_compute; reflexivity.
Qed.

Lemma delayed_deliveries_add_up_witness :
  filtered_table sample_to_datetime sample_sheet sample_controls
    = Some sample_filtered /\
  zsum (map (fun p => Z.of_nat (delayed_deliveries p)) sample_performance)
    <= Z.of_nat 0.
Proof.
  split; [exact sample_filtered_table|].
  destruct (delayed_deliveries_add_up sample_to_datetime sample_sheet
              sample_controls sample_filtered sample_performance 0
              sample_filtered_table sample_supplier_performance
              sample_delayed_count)
    as (isup & idel & iest & _ & _ & _ & _ & H & _).
  exact H.
Defined.

Lemma sample_header_padded :
  Forall2 (fun h h' => exists pre post,
             blank pre = true /\ blank post = true /\ h' = pre ++ h ++ post)
          sample_columns sample_header.
Proof.
  unfold sample_columns, sample_header.
  repeat (constructor;
          [first [ exists "", ""; repeat split; reflexivity
                 | exists "", " "; repeat split; reflexivity
                 | exists " ", ""; repeat split; reflexivity ]|]).
  constructor.
Qed.

Lemma padded_header_same_run_witness :
  process sample_to_datetime sample_sheet sample_controls
  = process sample_to_datetime
      (mkSheet sample_columns (body sample_sheet)) sample_controls.
Proof.
  exact (proj2 (padded_header_same_run sample_to_datetime sample_columns
                  sample_header (body sample_sheet) sample_controls
                  sample_header_padded)).
Defined.

Lemma unicode_header_padded :
  Forall2 (fun h h' => exists pre post,
             forallb space_char pre = true /\
             forallb space_char post = true /\
             h' = spaces pre ++ h ++ spaces post)
          sample_columns unicode_header.
Proof.
  unfold unicode_header.
  induction sample_columns as [|h l IH]; constructor; [|exact IH].
  exists [nbsp], [nbsp]. split; [reflexivity|]. split; [reflexivity|].
  cbn [spaces fold_right]. now rewrite !append_empty_r.
Qed.

Lemma unicode_padded_header_same_run_witness :
  map strip unicode_header = sample_columns /\
  process sample_to_datetime (mkSheet unicode_header (body sample_sheet))
    sample_controls
  = process sample_to_datetime (mkSheet sample_columns (body sample_sheet))
      sample_controls.
Proof.
  destruct (unicode_padded_header_same_run sample_to_datetime
              sample_columns unicode_header (body sample_sheet)
              sample_controls unicode_header_padded) as (E & _ & H).
  split; [|exact H]. rewrite E. vm_compute. reflexivity.
Defined.

Lemma normalize_keeps_columns_witness :
  normalize sample_to_datetime (strip_columns (read_excel sample_sheet))
    = Ok sample_filtered /\
  exists i,
    col_index "Sales Order No"
      (columns (strip_columns (read_excel sample_sheet))) = Some i.
Proof.
  split; [exact sample_normalize|].
  destruct (normalize_keeps_columns sample_to_datetime _ _ sample_normalize)
    as (i & Hi & _).
  now exists i.
Defined.

Lemma sample_to_datetime_length (col : list cell) :
  List.length (sample_to_datetime col) = List.length col.
Proof. apply length_map. Qed.

Lemma date_columns_typed_witness :
  filtered_table sample_to_datetime sample_sheet sample_controls
    = Some sample_filtered /\
  (cell_at 5 (mkRow 2 [Str "SO3"; Str "Giza"; NA; Num 50; Num 50; NA; day 0;
                       day 3; Num 1; Num 1; Str "Beta"]) = NA \/
   exists ns,
     cell_at 5 (mkRow 2 [Str "SO3"; Str "Giza"; NA; Num 50; Num 50; NA; day 0;
                         day 3; Num 1; Num 1; Str "Beta"]) = Timestamp ns).
Proof.
  split; [exact sample_filtered_table|].
  apply (date_columns_typed sample_to_datetime sample_to_datetime_length
           sample_sheet sample_controls sample_filtered "Delivery Date" 5).
  - exact sample_filtered_table.
  - simpl. tauto.
  - reflexivity.
  - simpl. tauto.
Defined.

Lemma sample_order_numbers_text (i : nat) :
  col_index "Sales Order No" (map strip (header sample_sheet)) = Some i ->
  existsb is_str (map (fun cs => nth i cs NA) (body sample_sheet)) = true.
Proof. intro H. vm_compute in H. injection H as <-. reflexivity. Qed.

Lemma sample_numeric_columns (c : string) (j : nat) :
  In c ["PO Total Amount (EGP)"; "Quantity"; "Received Quantity"] ->
  col_index c (map strip (header sample_sheet)) = Some j ->
  Forall (fun cs => number_cell (nth j cs NA)) (body sample_sheet).
Proof.
  intros [<-|[<-|[<-|[]]]] H; vm_compute in H; injection H as <-;
    unfold sample_sheet, body;
    repeat (apply Forall_cons; [cbn; lia|]); apply Forall_nil.
Qed.

(** The sample with an order number and a customer selected that no row
    has together. *)
Lemma run_completes_witness :
  missing_columns (map strip (header sample_sheet)) = [] /\
  has_column "Supplier" (map strip (header sample_sheet)) = true /\
  snd (script sample_to_datetime (Some sample_sheet) acme_controls) = Ok tt /\
  snd (script sample_to_datetime (Some sample_sheet)
         (mkControls [Str "SO1"] [Str "Giza"] [] 10)) = Raise TypeError.
Proof.
  split; [reflexivity|]. split; [reflexivity|]. split.
  - destruct (run_completes sample_to_datetime sample_sheet acme_controls
                eq_refl eq_refl sample_order_numbers_text
                sample_numeric_columns) as (fdf & isup & Hft & Hsup & H).
    vm_compute in Hft. injection Hft as <-.
    vm_compute in Hsup. injection Hsup as <-.
    rewrite H. reflexivity.
  - destruct (run_completes sample_to_datetime sample_sheet
                (mkControls [Str "SO1"] [Str "Giza"] [] 10)
                eq_refl eq_refl sample_order_numbers_text
                sample_numeric_columns) as (fdf & isup & Hft & Hsup & H).
    vm_compute in Hft. injection Hft as <-.
    vm_compute in Hsup. injection Hsup as <-.
    rewrite H. reflexivity.
Defined.

Lemma sample_suppliers_there :
  Forall (fun c => c <> NA) (column_values 10 sample_filtered).
Proof. repeat (apply Forall_cons; [discriminate|]). apply Forall_nil. Qed.

Lemma supplier_totals_add_up_witness :
  filtered_table sample_to_datetime sample_sheet sample_controls
    = Some sample_filtered /\
  supplier_performance sample_filtered = Ok sample_performance /\
  total_po_amount sample_filtered = Ok (Int64 420).
Proof.
  split; [exact sample_filtered_table|].
  split; [exact sample_supplier_performance|].
  destruct (supplier_totals_add_up sample_to_datetime sample_sheet
              sample_controls sample_filtered sample_performance
              sample_filtered_table
              (fun j => sample_numeric_columns "PO Total Amount (EGP)" j
                          (or_introl eq_refl))
              sample_supplier_performance)
    as (isup & iamt & Hs & Ha & _ & _ & _ & _ & Hint).
  vm_compute in Hs. injection Hs as <-.
  vm_compute in Ha. injection Ha as <-.
  destruct (Hint eq_refl) as (_ & _ & Htotal).
  exact (Htotal sample_suppliers_there).
Defined.


Lemma top_customers_ranking_witness :
  filtered_table sample_to_datetime sample_sheet sample_controls
    = Some sample_filtered /\
  exists top,
    top_customers sample_filtered = Ok top /\
    List.length top = 2%nat /\ NoDup (map fst top).
Proof.
  split; [exact sample_filtered_table|].
  destruct (top_customers_ranking sample_to_datetime sample_sheet
              sample_controls sample_filtered sample_filtered_table
              (fun j => sample_numeric_columns "PO Total Amount (EGP)" j
                          (or_introl eq_refl)))
    as (icust & iamt & top & Hc & _ & Htop & Hlen & Hn & _).
  vm_compute in Hc. injection Hc as <-.
  exists top. split; [exact Htop|]. split; [exact Hlen | exact Hn].
Defined.

Lemma filtered_table_order_numbers_witness :
  filtered_table sample_to_datetime sample_sheet sample_controls
    = Some sample_filtered /\
  exists i, col_index "Sales Order No" (columns sample_filtered) = Some i /\
    total_sales_orders sample_filtered
    = Ok (nunique (column_values i sample_filtered)).
Proof.
  split; [exact sample_filtered_table|].
  destruct (filtered_table_order_numbers sample_to_datetime sample_sheet
              sample_controls sample_filtered sample_filtered_table)
    as (i & Hi & _ & H & _).
  exists i. now split.
Defined.

End FurtherSampleRuns.
